(** * CodeGenerator: a shallow embedding of src/CodeGenerator.cpp

    The generator walks a resolved AST and writes explicit source text into
    an [OutputFormatHelper].  The embedding keeps the shape of the C++ file:

    - [Output]          the calls made on an OutputFormatHelper, in order;
    - [LambdaStack]     [LambdaScopeHandler], its [GetBuffer] scan, the stack;
    - [Diag], [Names]   the diagnostic channel and the synthesized identifiers;
    - [CharLit]         [HandleCharacterLiteral];
    - [Types]           what the generator asks of a type;
    - [Lambda]          [HandleLambdaExpr] with its capture loop;
    - [LambdaLowering]  the [LambdaExpr] overload over the shared buffers;
    - [Ast], [Gen]      a fragment of the node classes and the [InsertArg]
                        overloads that lower them, with the two dispatchers.

    The headers of the project are not part of the sources at hand; what is
    taken from them is marked where it is introduced.                        *)

From Stdlib Require Import ZArith Lia Ascii.
From stdpp Require Import base list strings pretty.

(** Induction over the AST goes through the lists and optional children of
    its nodes. *)
Scheme All for list.
Scheme All for option.

(* ===================================================================== *)
(** ** The output buffer                                                  *)
(* ===================================================================== *)

Module Output.

(** [OutputFormatHelper::NoNewLineBefore]. *)
Inductive NoNewLineBefore := NNL_No | NNL_Yes.

(** OutputFormatHelper is declared outside this translation unit.  A
    buffer is therefore kept as the ordered record of the calls the
    generator makes on it; a variadic [Append(a, b, c)] is one call whose
    text is the concatenation of its arguments, [AppendNewLine()] is
    [AppendNewLine ""], and [CloseScope()] is [CloseScope NNL_No]. *)
Inductive Out :=
| Append (text : string)
| AppendNewLine (text : string)
| OpenScope
| CloseScope (nl : NoNewLineBefore)
| CloseScopeWithSemi
| IncreaseIndent
| DecreaseIndent.

Definition OutputFormatHelper := list Out.

End Output.
Export Output.

(* ===================================================================== *)
(** ** The lambda scope stack                                             *)
(* ===================================================================== *)

Module LambdaCallerType.

(** The trigger kinds named by [LAMBDA_SCOPE_HELPER] in this file. *)
Inductive t :=
| VarDecl
| CallExpr
| OperatorCallExpr
| MemberCallExpr
| LambdaExpr
| ReturnStmt
| BinaryOperator.

End LambdaCallerType.

Module LambdaStack.

(** Buffers are shared by reference between the generator and the stack
    entries; a reference is the identity of the buffer it designates. *)
Definition BufferRef := nat.

(** Modelled from the spec: the lambda context record ([LambdaHelper],
    declared in CodeGenerator.h, which is not among the sources) holds the
    trigger kind, the handle of the buffer that is to receive the class
    definition, and the pending constructor-argument text. *)
Record LambdaHelper := mkLambdaHelper {
  callerType : LambdaCallerType.t;
  buffer     : BufferRef;
  inits      : string
}.

(** Modelled from the spec: the stack container (also declared outside
    src).  The list is in the order in which [for(auto& l : mStack)]
    visits the entries: oldest, that is outermost, entry first; [push]
    adds behind the last entry, [back] and [pop] act on the last one. *)
Definition LambdaStackType := list LambdaHelper.

Definition push (stack : LambdaStackType) (h : LambdaHelper) : LambdaStackType :=
  stack ++ [h].

Definition pop (stack : LambdaStackType) : LambdaStackType :=
  removelast stack.

Definition back (stack : LambdaStackType) : option LambdaHelper :=
  last stack.

(** The [switch] inside [GetBuffer]: the kinds that anchor a placement. *)
Definition anchors (k : LambdaCallerType.t) : bool :=
  match k with
  | LambdaCallerType.CallExpr
  | LambdaCallerType.VarDecl
  | LambdaCallerType.ReturnStmt
  | LambdaCallerType.OperatorCallExpr
  | LambdaCallerType.MemberCallExpr
  | LambdaCallerType.BinaryOperator => true
  | _ => false
  end.

(** The immediately-invoked lambda of [GetBuffer]: walk the stack and
    return the first entry whose kind hits one of the [case] labels. *)
Fixpoint element (mStack : LambdaStackType) : option LambdaHelper :=
  match mStack with
  | [] => None
  | l :: rest => if anchors (callerType l) then Some l else element rest
  end.

(** [LambdaScopeHandler::GetBuffer]. *)
Definition GetBuffer (mStack : LambdaStackType) (outputFormatHelper : BufferRef)
  : BufferRef :=
  match element mStack with
  | Some l => buffer l
  | None => outputFormatHelper
  end.

(** The constructor of [LambdaScopeHandler]:
    [mHelper{lambdaCallerType, GetBuffer(outputFormatHelper)}] followed by
    [mStack.push(mHelper)]. *)
Definition LambdaScopeHandler_ctor
    (stack : LambdaStackType) (outputFormatHelper : BufferRef)
    (lambdaCallerType : LambdaCallerType.t) : LambdaStackType :=
  let mHelper := mkLambdaHelper lambdaCallerType
                                (GetBuffer stack outputFormatHelper) "" in
  push stack mHelper.

(** The destructor: [if(!mStack.empty()) mStack.pop()->finish();].  The
    record holds the reference of the buffer its class definitions were
    written to, so that [finish()] has nothing left to move. *)
Definition LambdaScopeHandler_dtor (stack : LambdaStackType) : LambdaStackType :=
  match stack with
  | [] => []
  | _ => pop stack
  end.



End LambdaStack.

(* ===================================================================== *)
(** ** Diagnostics                                                        *)
(* ===================================================================== *)

Module Diag.

(** A place in the source, as the source manager resolves it. *)
Record SourceLocation := mkLoc { line : nat; column : nat }.

(** Modelled from the spec: [Error(node, msg)] (DPrint.h is not among the
    sources) reports the message for the offending node on the diagnostic
    channel, which is independent of the output text, and returns. *)

Record Diagnostic := mkDiag { at_loc : SourceLocation; message : string }.

Definition Error (loc : SourceLocation) (msg : string)
    (diags : list Diagnostic) : list Diagnostic :=
  diags ++ [mkDiag loc msg].

End Diag.
Export Diag.

(* ===================================================================== *)
(** ** Synthesized identifiers                                            *)
(* ===================================================================== *)

Module Names.

(** [std::to_string] on an unsigned line number. *)
Definition to_string (n : nat) : string := pretty n.

(** The alias introduced for a function-pointer variable in
    the [VarDecl] overload of [InsertArg]:
    [StrCat("FuncPtr_", std::to_string(lineNo), " ")]. *)
Definition funcPtrName (lineNo : nat) : string :=
  "FuncPtr_" +:+ to_string lineNo +:+ " ".

(** Modelled from the spec: [BuildInternalVarName] is defined in
    InsightsHelpers, outside src.  The name is built from the original name
    alone, or from the original name and the spelling line of the location:
    two leading underscores, the name, and the line number when a location
    is given. *)
Definition BuildInternalVarName (varName : string) : string :=
  "__" +:+ varName.

Definition BuildInternalVarName_at (varName : string) (loc : SourceLocation) : string :=
  BuildInternalVarName varName +:+ to_string (line loc).

End Names.
Export Names.

(* ===================================================================== *)
(** ** Character literals                                                 *)
(* ===================================================================== *)

Module CharLit.

Local Open Scope Z_scope.

(** [CharacterLiteral::CharacterKind]. *)
Inductive CharacterKind := Ascii | Wide | UTF8 | UTF16 | UTF32.

Record CharacterLiteral := mkCharLit {
  getKind  : CharacterKind;
  getValue : Z            (* unsigned, 32 bits *)
}.

(** [clang::isPrintable] (clang/Basic/CharInfo.h) on an [unsigned char]:
    the ASCII characters that take one column, space up to tilde. *)
Definition isPrintable (c : Z) : bool := (32 <=? c) && (c <=? 126).

(** [std::string{static_cast<char>(value)}]. *)
Definition char_string (value : Z) : string :=
  String (Ascii.ascii_of_N (Z.to_N (value mod 256))) EmptyString.

(** The first [switch]: the encoding prefix. *)
Definition prefix (k : CharacterKind) (out : OutputFormatHelper) : OutputFormatHelper :=
  match k with
  | Ascii => out
  | Wide  => out ++ [Append "L"]
  | UTF8  => out ++ [Append "u8"]
  | UTF16 => out ++ [Append "u"]
  | UTF32 => out ++ [Append "U"]
  end.

(** The [case] labels of the second [switch], with the text each appends. *)
Definition escape (value : Z) : option string :=
  if value =? 92 then Some "'\\'"        (* backslash *)
  else if value =? 0 then Some "'\0'"
  else if value =? 39 then Some "'\''"   (* single quote *)
  else if value =? 7 then Some "'\a'"
  else if value =? 8 then Some "'\b'"
  else if value =? 12 then Some "'\f'"
  else if value =? 10 then Some "'\n'"
  else if value =? 13 then Some "'\r'"
  else if value =? 9 then Some "'\t'"
  else if value =? 11 then Some "'\v'"
  else None.

(** [~0xFFu] on a 32-bit unsigned. *)
Definition not_0xFF : Z := 4294967040.

(** The masking step of the [default] branch:
    [if((value & ~0xFFu) == ~0xFFu && kind == Ascii) value &= 0xFFu;]. *)
Definition masked (k : CharacterKind) (value : Z) : Z :=
  if (Z.land value not_0xFF =? not_0xFF)
     && match k with Ascii => true | _ => false end
  then Z.land value 255
  else value.

(** [CodeGenerator::HandleCharacterLiteral]. *)
Definition HandleCharacterLiteral (stmt : CharacterLiteral)
    (mOutputFormatHelper : OutputFormatHelper) : OutputFormatHelper :=
  let out := prefix (getKind stmt) mOutputFormatHelper in
  match escape (getValue stmt) with
  | Some text => out ++ [Append text]
  | None =>
      let value := masked (getKind stmt) (getValue stmt) in
      if (value <? 256) && isPrintable (value mod 256)
      then out ++ [Append ("'" +:+ char_string value +:+ "'")]
      else out
  end.

(** The values with a [case] label of their own: backslash, NUL, the
    single quote, and the escapes a b f n r t v. *)
Definition escaped_values : list Z := [92; 0; 39; 7; 8; 12; 10; 13; 9; 11].

End CharLit.

(* ===================================================================== *)
(** ** Types as the front end hands them over                             *)
(* ===================================================================== *)

Module Types.

(** A class type, as far as the generator asks about it. *)
Record CXXRecordDecl := mkRecordDecl {
  recordName : string;                       (* GetName( *cxxRecordDecl ) *)
  hasNonTrivialDestructor : bool;
  hasNonTrivialDefaultConstructor : bool
}.

(** [QualType].  The type-name printer is an external collaborator: its
    answers for this type travel with the type. *)
Record QualType := mkQualType {
  GetName : string;                             (* GetName(t) *)
  GetTypeNameAsParameter : string -> string;    (* GetTypeNameAsParameter(t, varName) *)
  isArrayType : bool;
  isReferenceType : bool;
  isLValueReferenceType : bool;                 (* of the desugared type *)
  isFunctionPointerType : bool;
  getAsCXXRecordDecl : option CXXRecordDecl
}.

(** [IsReference(const QualType&)]. *)
Definition IsReference (type : QualType) : bool := isLValueReferenceType type.

End Types.
Export Types.

(* ===================================================================== *)
(** ** Closures: the capture loop of HandleLambdaExpr                     *)
(* ===================================================================== *)

Module Lambda.

Definition kwClassSpace : string := "class ".

(** The line feed inside ["\n, "]. *)
Definition LF : string := String (Ascii.ascii_of_nat 10) EmptyString.

(** Modelled from the spec: [InsertBefore(source, find, insert)] of the
    string helpers (outside src) performs the parenthesized-declarator
    rewrite: [insert] is put in front of the first occurrence of [find] in
    [source]; a [source] without [find] stays as it is. *)
Fixpoint InsertBefore (source find insert : string) : string :=
  if String.prefix find source then insert +:+ source
  else match source with
       | EmptyString => EmptyString
       | String c rest => String c (InsertBefore rest find insert)
       end.

(** [GetCaptureTypeNameAsParameter]. *)
Definition GetCaptureTypeNameAsParameter (t : QualType) (varName : string) : string :=
  let typeName := GetName t in
  if isArrayType t
  then InsertBefore typeName "[" ("(&" +:+ varName +:+ ")")
  else typeName.

Inductive LambdaCaptureKind :=
| LCK_This | LCK_StarThis | LCK_ByCopy | LCK_ByRef | LCK_VLAType.

(** The captured variable of a capture, [c.getCapturedVar()]. *)
Record CapturedVar := mkCapturedVar {
  varGetName : string;          (* GetName( *capturedVar ) *)
  varGetType : QualType;
  varHasInit : bool
}.

Record LambdaCapture := mkCapture {
  getCaptureKind : LambdaCaptureKind;
  getCapturedVar : CapturedVar  (* read only when the capture is of a variable *)
}.

Definition capturesThis (c : LambdaCapture) : bool :=
  match getCaptureKind c with LCK_This | LCK_StarThis => true | _ => false end.

Definition capturesVariable (c : LambdaCapture) : bool :=
  match getCaptureKind c with LCK_ByCopy | LCK_ByRef => true | _ => false end.

Definition capturesVLAType (c : LambdaCapture) : bool :=
  match getCaptureKind c with LCK_VLAType => true | _ => false end.

(** The initializer expression that goes with a capture: its type, its
    place, and the text a fresh generator writes for it
    ([ofm.GetString()] after [codeGenerator.InsertArg(captureInit)]). *)
Record CaptureInit := mkCaptureInit {
  initGetType : QualType;
  initLoc     : SourceLocation;
  initText    : string
}.

(** The locals of [HandleLambdaExpr] that the capture loop updates. *)
Record Locals := mkLocals {
  ctor         : string;
  ctorInits    : string;
  inits        : string;
  first        : bool;
  ctorRequired : bool;
  outputFormatHelper : OutputFormatHelper;
  diagnostics  : list Diagnostic
}.

(** One turn of [for(const auto& c : lambda->captures())]. *)
Definition capture_body (st : Locals) (ci : LambdaCapture * CaptureInit) : Locals :=
  let '(c, captureInit) := ci in
  (* ctorRequired = true; *)
  if negb (capturesVariable c) && negb (capturesThis c) then
    mkLocals (ctor st) (ctorInits st) (inits st) (first st) true
             (outputFormatHelper st)
             (if negb (capturesVLAType c)
              then Error (initLoc captureInit) ("no capture var" +:+ LF) (diagnostics st)
              else diagnostics st)
  else
    let ctor0      := if first st then ctor st else ctor st +:+ ", " in
    let inits0     := if first st then inits st else inits st +:+ ", " in
    let ctorInits0 := if first st then ctorInits st else ctorInits st +:+ LF +:+ ", " in
    let out0       := if first st then outputFormatHelper st ++ [AppendNewLine ""]
                      else outputFormatHelper st in
    let capturedVar := getCapturedVar c in
    let varType := if capturesThis c then initGetType captureInit
                   else varGetType capturedVar in
    let varNamePlain := if capturesThis c then "this" else varGetName capturedVar in
    let varName := if capturesThis c then "__" +:+ varNamePlain else varNamePlain in
    let varTypeName := GetCaptureTypeNameAsParameter varType varNamePlain in
    let ctorVarTypeName := GetCaptureTypeNameAsParameter varType ("_" +:+ varNamePlain) in
    let ctor1 := ctor0 +:+ ctorVarTypeName in
    let out1  := out0 ++ [Append varTypeName] in
    let byRefQualified :=
      match getCaptureKind c with
      | LCK_ByRef => negb (isReferenceType varType) && negb (isArrayType varType)
      | _ => false
      end in
    let ctor2 := if byRefQualified then ctor1 +:+ "&" else ctor1 in
    let out2  := if byRefQualified then out1 ++ [Append "&"] else out1 in
    let inits1 :=
      if negb (capturesThis c) && varHasInit capturedVar
         && match getCaptureKind c with LCK_ByCopy => true | _ => false end
      then inits0 +:+ initText captureInit
      else inits0 +:+ (match getCaptureKind c with LCK_StarThis => "*" | _ => "" end
                       +:+ varNamePlain) in
    let ctor3 := if negb (isArrayType varType) then ctor2 +:+ (" _" +:+ varName) else ctor2 in
    let out3  := if negb (isArrayType varType)
                 then out2 ++ [AppendNewLine (" " +:+ varName +:+ ";")]
                 else out2 ++ [AppendNewLine ";"] in
    let ctorInits1 := ctorInits0 +:+ (varName +:+ "{_" +:+ varName +:+ "}") in
    mkLocals ctor3 ctorInits1 inits1 false true out3 (diagnostics st).

(** A lambda expression: the two names [GetLambdaName] gives for the class
    and for the expression, the calls the method section (conversion
    operators, call operator, static invoker, each through [InsertMethod])
    makes on the buffer, and the captures with their initializers. *)
Record LambdaExpr := mkLambdaExpr {
  lambdaTypeName : string;      (* GetLambdaName( *lambda->getLambdaClass() ) *)
  lambdaName     : string;      (* GetLambdaName( *lambda ) *)
  methods        : list Out;
  captures       : list (LambdaCapture * CaptureInit)
}.

Definition capture_size (lambda : LambdaExpr) : nat := length (captures lambda).

(** What [HandleLambdaExpr] leaves behind: the record on top of the stack
    (its [inits] may have grown), the buffer of that record, the
    diagnostics, and the three texts it assembled. *)
Record Result := mkResult {
  helper  : LambdaStack.LambdaHelper;
  written : OutputFormatHelper;
  diags   : list Diagnostic;
  locals  : Locals
}.

(** [CodeGenerator::HandleLambdaExpr].  [buf] is the content of
    [lambdaHelper.buffer()] on entry; both call sites pass
    [mLambdaStack.back()] as [lambdaHelper]. *)
Definition HandleLambdaExpr (lambda : LambdaExpr)
    (lambdaHelper : LambdaStack.LambdaHelper) (buf : OutputFormatHelper)
    (ds : list Diagnostic) : Result :=
  let lambdaCallerType := LambdaStack.callerType lambdaHelper in
  let out0 := buf ++ [AppendNewLine "";
                      AppendNewLine (kwClassSpace +:+ lambdaTypeName lambda);
                      OpenScope] ++ methods lambda in
  let out1 := if Nat.eqb (capture_size lambda) 0 then out0
              else out0 ++ [AppendNewLine ""; Append "private:"] in
  let st0 := mkLocals ("public: " +:+ lambdaTypeName lambda +:+ "(") ": " "{"
                      true false out1 ds in
  let st1 := fold_left capture_body (captures lambda) st0 in
  let ctor' := ctor st1 +:+ ")" in
  let inits' := inits st1 +:+ "}" in
  let out2 := if ctorRequired st1
              then outputFormatHelper st1 ++
                   [AppendNewLine ""; AppendNewLine ctor';
                    AppendNewLine (ctorInits st1); AppendNewLine "{}"]
              else outputFormatHelper st1 in
  let out3 := out2 ++ [CloseScope NNL_No] in
  let inline_use :=
    match lambdaCallerType with
    | LambdaCallerType.VarDecl | LambdaCallerType.CallExpr => false
    | _ => true
    end in
  let out4 := if inline_use
              then out3 ++ [Append (" " +:+ lambdaName lambda +:+ inits')]
              else out3 in
  let helper' :=
    if inline_use then lambdaHelper
    else LambdaStack.mkLambdaHelper
           (LambdaStack.callerType lambdaHelper)
           (LambdaStack.buffer lambdaHelper)
           (LambdaStack.inits lambdaHelper +:+ inits') in
  mkResult helper' (out4 ++ [AppendNewLine ";"; AppendNewLine ""])
           (diagnostics st1)
           (mkLocals ctor' (ctorInits st1) inits' (first st1) (ctorRequired st1)
                     (outputFormatHelper st1) (diagnostics st1)).

End Lambda.

(* ===================================================================== *)
(** ** Closures: the LambdaExpr overload                                  *)
(* ===================================================================== *)

Module LambdaLowering.

Import Lambda.

(** The buffers in existence, by reference. *)
Definition Buffers := LambdaStack.BufferRef -> OutputFormatHelper.

Definition write (buffers : Buffers) (ref : LambdaStack.BufferRef)
    (content : OutputFormatHelper) : Buffers :=
  fun r => if Nat.eqb r ref then content else buffers r.

Definition append (buffers : Buffers) (ref : LambdaStack.BufferRef)
    (o : Out) : Buffers :=
  write buffers ref (buffers ref ++ [o]).

(** A generator at work on a lambda expression: the reference of its own
    buffer, the stack it shares, the buffers, and the diagnostics. *)
Record Generator := mkGenerator {
  mOutputFormatHelper : LambdaStack.BufferRef;
  mLambdaStack        : LambdaStack.LambdaStackType;
  buffers             : Buffers;
  diagnostics         : list Diagnostic
}.

(** [mLambdaStack.back()] is a reference: what is done to the record is
    done to the entry on top of the stack. *)
Definition set_back (stack : LambdaStack.LambdaStackType)
    (h : LambdaStack.LambdaHelper) : LambdaStack.LambdaStackType :=
  removelast stack ++ [h].

(** Modelled from the spec: [LambdaHelper::insertInits] (CodeGenerator.h
    is not among the sources) appends the deferred initializer text of the
    record at the use position and leaves the record without pending text. *)
Definition insertInits (g : Generator) : Generator :=
  match LambdaStack.back (mLambdaStack g) with
  | None => g
  | Some top =>
      if String.eqb (LambdaStack.inits top) "" then g
      else mkGenerator
             (mOutputFormatHelper g)
             (set_back (mLambdaStack g)
                (LambdaStack.mkLambdaHelper (LambdaStack.callerType top)
                                            (LambdaStack.buffer top) ""))
             (append (buffers g) (mOutputFormatHelper g)
                     (Append (LambdaStack.inits top)))
             (diagnostics g)
  end.

(** [HandleLambdaExpr(stmt, mLambdaStack.back())]: the class goes to the
    buffer of the record on top, and the record takes the deferred text. *)
Definition HandleLambdaExpr_back (lambda : LambdaExpr)
    (top : LambdaStack.LambdaHelper) (g : Generator) : Generator :=
  let r := HandleLambdaExpr lambda top (buffers g (LambdaStack.buffer top))
                            (diagnostics g) in
  mkGenerator (mOutputFormatHelper g)
              (set_back (mLambdaStack g) (helper r))
              (write (buffers g) (LambdaStack.buffer top) (written r))
              (diags r).

(** [InsertArg(const LambdaExpr* )].  On an empty stack a scope handler of
    kind [LambdaExpr] is put around the lowering; it is gone, and the stack
    empty again, before the last [if]. *)
Definition InsertArg_LambdaExpr (stmt : LambdaExpr) (g : Generator) : Generator :=
  let g1 :=
    match LambdaStack.back (mLambdaStack g) with
    | Some top =>
        let g' := HandleLambdaExpr_back stmt top g in
        mkGenerator (mOutputFormatHelper g') (mLambdaStack g')
                    (append (buffers g') (mOutputFormatHelper g')
                            (Append (lambdaName stmt)))
                    (diagnostics g')
    | None =>
        let pushed := LambdaStack.LambdaScopeHandler_ctor
                        (mLambdaStack g) (mOutputFormatHelper g)
                        LambdaCallerType.LambdaExpr in
        let g0 := mkGenerator (mOutputFormatHelper g) pushed (buffers g)
                              (diagnostics g) in
        match LambdaStack.back pushed with
        | Some top =>
            let g' := HandleLambdaExpr_back stmt top g0 in
            mkGenerator (mOutputFormatHelper g')
                        (LambdaStack.LambdaScopeHandler_dtor (mLambdaStack g'))
                        (buffers g') (diagnostics g')
        | None => g0   (* not reached: the handler has just pushed *)
        end
    end in
  insertInits g1.

End LambdaLowering.

(* ===================================================================== *)
(** ** The AST fragment                                                   *)
(* ===================================================================== *)

Module BuiltinType.

(** [BuiltinType::Kind], as far as [GetBuiltinTypeSuffix] names it. *)
Inductive Kind :=
| Bool | Char_U | UChar | Char16 | Char32 | UShort | UInt | ULong | ULongLong
| UInt128 | Char_S | SChar | Short | Int | Long | LongLong | Int128
| Float | Double | LongDouble | WChar_S | WChar_U
| Other.

End BuiltinType.

Module Ast.

(** A reference to a declaration, as [DeclRefExpr] exposes it. *)
Record DeclRef := mkDeclRef {
  refGetName      : string;    (* GetName( *stmt ) *)
  refGetPlainName : string;    (* GetPlainName( *stmt ) *)
  refHasDecl      : bool       (* getDecl() != nullptr *)
}.

(** Expressions.  The fragment keeps the expression classes below; name
    references carry no template arguments, member expressions name fields,
    calls are not user-defined literals, and an [ImplicitCastExpr] has a
    cast kind that [IsMatchingCast] rejects.  [CXXThrowExpr] stands for the
    classes this file has no overload for. *)
Inductive Expr :=
| DeclRefExpr (d : DeclRef)
| IntegerLiteral (value : Z) (builtin : option BuiltinType.Kind)
| CharacterLiteral (c : CharLit.CharacterLiteral)
| CXXBoolLiteralExpr (value : bool)
| CXXNullPtrLiteralExpr
| CXXThisExpr
| BinaryOperator (opcodeStr : string) (lhs rhs : Expr)
| UnaryOperator (opCodeName : string) (isPostfix : bool) (subExpr : Expr)
| ConditionalOperator (cond lhs rhs : Expr)
| ArraySubscriptExpr (lhs rhs : Expr)
| MemberExpr (base : Expr) (isArrow : bool) (memberName : string)
| ParenExpr (subExpr : Expr)
| ImplicitCastExpr (subExpr : Expr)
| ExprWithCleanups (subExpr : Expr)
| MaterializeTemporaryExpr (temporary : Expr)
| CallExpr (callee : Expr) (arguments : list Expr)
| OpaqueValueExpr (sourceExpr : option Expr)
| ArrayInitLoopExpr (commonSourceExpr : option Expr) (subExpr : Expr) (arraySize : nat)
| ArrayInitIndexExpr (loc : SourceLocation)
| CXXThrowExpr (loc : SourceLocation) (operand : option Expr).

(** [Stmt::children()] on the expression classes of the fragment. *)
Definition children (stmt : Expr) : list Expr :=
  match stmt with
  | DeclRefExpr _ | IntegerLiteral _ _ | CharacterLiteral _
  | CXXBoolLiteralExpr _ | CXXNullPtrLiteralExpr | CXXThisExpr
  | OpaqueValueExpr _ | ArrayInitIndexExpr _ => []
  | BinaryOperator _ l r => [l; r]
  | UnaryOperator _ _ e => [e]
  | ConditionalOperator c l r => [c; l; r]
  | ArraySubscriptExpr l r => [l; r]
  | MemberExpr b _ _ => [b]
  | ParenExpr e | ImplicitCastExpr e | ExprWithCleanups e
  | MaterializeTemporaryExpr e => [e]
  | CallExpr f args => f :: args
  | ArrayInitLoopExpr common e _ => [OpaqueValueExpr common; e]
  | CXXThrowExpr _ operand => match operand with Some e => [e] | None => [] end
  end.

(** What the declaration of a variable exposes apart from its initializer. *)
Record VarInfo := mkVarInfo {
  varName        : string;            (* GetName( *stmt ) *)
  varType        : QualType;
  varLocStart    : SourceLocation;    (* getLocStart(), getSourceRange().getBegin() *)
  isInline       : bool;
  isExtern       : bool;              (* SC_Extern == getStorageClass() *)
  isStatic       : bool;              (* SC_Static == getStorageClass() *)
  isConstexpr    : bool;
  isStaticLocal  : bool;
  isNRVOVariable : bool
}.

(** [BindingDecl]: its name, type and place, the binding expression
    (absent while the declaration is unresolved) and the holding variable
    with its initializer, if there is one. *)
Record BindingDecl := mkBindingDecl {
  bindingName   : string;
  bindingType   : QualType;
  bindingLoc    : SourceLocation;
  getBinding    : option Expr;
  getHoldingVar : option (option Expr)   (* holdingVar->getAnyInitializer() *)
}.

(** [VarDecl] and the class derived from it, [DecompositionDecl]. *)
Inductive VarDecl :=
| PlainVarDecl (v : VarInfo) (init : option Expr)
| DecompositionDecl (v : VarInfo) (init : Expr) (bindings : list BindingDecl).

Definition getVarInfo (vd : VarDecl) : VarInfo :=
  match vd with
  | PlainVarDecl v _ => v
  | DecompositionDecl v _ _ => v
  end.

(** Declarations.  [EmptyDecl] stands for the classes this file has no
    overload for. *)
Inductive Decl :=
| Decl_VarDecl (vd : VarDecl)
| TypeAliasDecl (name : string) (underlyingType : QualType)
| EmptyDecl (loc : SourceLocation).

(** Statements.  An expression is a statement; the three declaration
    statements of a range-based for are kept by their declarations, its
    loop variable is a [VarDecl].  [GotoStmt] stands for the classes this
    file has no overload for. *)
Inductive Stmt :=
| ExprStmt (e : Expr)                 (* an expression in statement position *)
| NullStmt
| CompoundStmt (body : list Stmt)
| DeclStmt (decls : list Decl)
| ReturnStmt (retValue : option Expr)
| BreakStmt
| WhileStmt (cond : option Expr) (body : option Stmt)
| CXXForRangeStmt (rangeStmt beginStmt endStmt : list Decl)
                  (cond inc : option Expr)
                  (loopVariable : VarDecl)
                  (body : Stmt)
| GotoStmt (loc : SourceLocation).

End Ast.
Export Ast.

(* ===================================================================== *)
(** ** The generator                                                      *)
(* ===================================================================== *)

Module Gen.

Import Lambda.

(** The generator object: the buffer it writes to, the lambda stack it
    refers to, and the diagnostic channel. *)
Record State := mkState {
  mOutputFormatHelper : OutputFormatHelper;
  mLambdaStack        : LambdaStack.LambdaStackType;
  diagnostics         : list Diagnostic
}.

(** The classes of this file that override an [InsertArg] overload. *)
Inductive Generator :=
| CodeGenerator
| StructuredBindingsCodeGenerator (mVarName : string)
| ArrayInitCodeGenerator (mIndex : nat)
| LambdaCodeGenerator.

(** Every generator of the fragment writes to the one buffer it was
    created on; this is the reference [GetBuffer] is handed. *)
Definition ambient : LambdaStack.BufferRef := 0.

Definition emit (o : Out) (s : State) : State :=
  mkState (mOutputFormatHelper s ++ [o]) (mLambdaStack s) (diagnostics s).

Definition report (loc : SourceLocation) (msg : string) (s : State) : State :=
  mkState (mOutputFormatHelper s) (mLambdaStack s) (Error loc msg (diagnostics s)).

(** Modelled from the spec: [TODO(node, outputFormatHelper)] (DPrint.h is
    not among the sources) puts a visible placeholder into the output at the
    position of the node and marks the output as incomplete on the
    diagnostic channel; the traversal goes on. *)
Definition TODO_marker : string := "/* TODO */".

Definition TODO (loc : SourceLocation) (s : State) : State :=
  report loc "TODO" (emit (Append TODO_marker) s).

(** [LAMBDA_SCOPE_HELPER(type)]: a [LambdaScopeHandler] lives on the C++
    stack for the rest of the routine; its constructor runs first and its
    destructor last.  No node of the fragment is a lambda expression, so
    the buffers of the records stay empty and [finish()] has nothing to
    hand over. *)
Definition LAMBDA_SCOPE_HELPER (type : LambdaCallerType.t)
    (routine : State -> State) (s : State) : State :=
  let s1 := mkState (mOutputFormatHelper s)
                    (LambdaStack.LambdaScopeHandler_ctor (mLambdaStack s) ambient type)
                    (diagnostics s) in
  let s2 := routine s1 in
  mkState (mOutputFormatHelper s2)
          (LambdaStack.LambdaScopeHandler_dtor (mLambdaStack s2))
          (diagnostics s2).

(** A generator built on the same buffer with the one-argument constructor
    [CodeGenerator{_outputFormatHelper}] has a lambda stack of its own. *)
Definition on_same_buffer (routine : State -> State) (s : State) : State :=
  let s' := routine (mkState (mOutputFormatHelper s) [] (diagnostics s)) in
  mkState (mOutputFormatHelper s') (mLambdaStack s) (diagnostics s').

Inductive BraceKind := Parens | Curlys.
Inductive AddSpaceAtTheEnd := AddSpace_Yes | AddSpace_No.

(** [CodeGenerator::WrapInParensOrCurlys]; a call without the third
    argument adds no space. *)
Definition WrapInParensOrCurlys (braceKind : BraceKind) (lambda : State -> State)
    (addSpaceAtTheEnd : AddSpaceAtTheEnd) (s : State) : State :=
  let s1 := match braceKind with
            | Curlys => emit (Append "{") s
            | Parens => emit (Append "(") s
            end in
  let s2 := lambda s1 in
  let s3 := match braceKind with
            | Curlys => emit (Append "}") s2
            | Parens => emit (Append ")") s2
            end in
  match addSpaceAtTheEnd with
  | AddSpace_Yes => emit (Append " ") s3
  | AddSpace_No => s3
  end.

(** Modelled from the spec: [ForEachArg] (declared outside src) lowers the
    arguments in source order and separates two neighbours by [", "];
    [NumberIterator(size)] hands it the indices from 0 up to [size - 1]. *)
Definition ForEachArg {A : Type} (lambda : A -> State -> State)
  : list A -> bool -> State -> State :=
  fix go (arguments : list A) (needsComma : bool) (s : State) : State :=
    match arguments with
    | [] => s
    | arg :: rest =>
        go rest true (lambda arg (if needsComma then emit (Append ", ") s else s))
    end.

(** [CodeGenerator::GetBuiltinTypeSuffix]. *)
Definition GetBuiltinTypeSuffix (kind : BuiltinType.Kind) : string :=
  match kind with
  | BuiltinType.UInt => "u"
  | BuiltinType.ULong => "ul"
  | BuiltinType.ULongLong => "ull"
  | BuiltinType.UInt128 => "ulll"
  | BuiltinType.Long => "l"
  | BuiltinType.LongLong => "ll"
  | BuiltinType.Float => "f"
  | BuiltinType.LongDouble => "L"
  | _ => ""
  end.

(** [EndsWith(name, "::")] of the string helpers. *)
Definition EndsWith (s ending : string) : bool :=
  String.prefix (String.rev ending) (String.rev s).

(** One [SUPPORTED_STMT(type)] or [SUPPORTED_DECL(type)] line of
    CodeGeneratorTypes.h under the macros of the two dispatchers: the
    [isa<type>] test and the call of the overload for [type] on the
    down-cast pointer. *)
Record Supported (Node : Type) := SUPPORTED {
  isa      : Node -> bool;
  overload : Node -> State -> State
}.
Arguments SUPPORTED {Node}.
Arguments isa {Node}.
Arguments overload {Node}.

(** The body of a dispatcher behind its null test: the expansion of
    [#include "CodeGeneratorTypes.h"], each line an [if] that calls its
    overload and returns, and [TODO] after the last line. *)
Fixpoint dispatch {Node : Type} (types : list (Supported Node))
    (todo : Node -> State -> State) (stmt : Node) (s : State) : State :=
  match types with
  | [] => todo stmt s
  | type :: rest =>
      if isa type stmt then overload type stmt s
      else dispatch rest todo stmt s
  end.

(** The [isa<type>] tests on expressions. *)
Definition isa_DeclRefExpr (stmt : Expr) : bool :=
  match stmt with DeclRefExpr _ => true | _ => false end.
Definition isa_IntegerLiteral (stmt : Expr) : bool :=
  match stmt with IntegerLiteral _ _ => true | _ => false end.
Definition isa_CharacterLiteral (stmt : Expr) : bool :=
  match stmt with CharacterLiteral _ => true | _ => false end.
Definition isa_CXXBoolLiteralExpr (stmt : Expr) : bool :=
  match stmt with CXXBoolLiteralExpr _ => true | _ => false end.
Definition isa_CXXNullPtrLiteralExpr (stmt : Expr) : bool :=
  match stmt with CXXNullPtrLiteralExpr => true | _ => false end.
Definition isa_CXXThisExpr (stmt : Expr) : bool :=
  match stmt with CXXThisExpr => true | _ => false end.
Definition isa_BinaryOperator (stmt : Expr) : bool :=
  match stmt with BinaryOperator _ _ _ => true | _ => false end.
Definition isa_UnaryOperator (stmt : Expr) : bool :=
  match stmt with UnaryOperator _ _ _ => true | _ => false end.
Definition isa_ConditionalOperator (stmt : Expr) : bool :=
  match stmt with ConditionalOperator _ _ _ => true | _ => false end.
Definition isa_ArraySubscriptExpr (stmt : Expr) : bool :=
  match stmt with ArraySubscriptExpr _ _ => true | _ => false end.
Definition isa_MemberExpr (stmt : Expr) : bool :=
  match stmt with MemberExpr _ _ _ => true | _ => false end.
Definition isa_ParenExpr (stmt : Expr) : bool :=
  match stmt with ParenExpr _ => true | _ => false end.
Definition isa_ImplicitCastExpr (stmt : Expr) : bool :=
  match stmt with ImplicitCastExpr _ => true | _ => false end.
Definition isa_ExprWithCleanups (stmt : Expr) : bool :=
  match stmt with ExprWithCleanups _ => true | _ => false end.
Definition isa_MaterializeTemporaryExpr (stmt : Expr) : bool :=
  match stmt with MaterializeTemporaryExpr _ => true | _ => false end.
Definition isa_CallExpr (stmt : Expr) : bool :=
  match stmt with CallExpr _ _ => true | _ => false end.
Definition isa_OpaqueValueExpr (stmt : Expr) : bool :=
  match stmt with OpaqueValueExpr _ => true | _ => false end.
Definition isa_ArrayInitLoopExpr (stmt : Expr) : bool :=
  match stmt with ArrayInitLoopExpr _ _ _ => true | _ => false end.
Definition isa_ArrayInitIndexExpr (stmt : Expr) : bool :=
  match stmt with ArrayInitIndexExpr _ => true | _ => false end.

(** The place a diagnostic names for an expression. *)
Definition exprLoc (stmt : Expr) : SourceLocation :=
  match stmt with
  | ArrayInitIndexExpr loc | CXXThrowExpr loc _ => loc
  | _ => mkLoc 0 0
  end.

(** [InsertArg(const Stmt* )] on a non-null expression: the chain of
    [isa] tests, one line per overload of this file (the order of the lines
    is that of the header, which is not among the sources; no class of the
    fragment derives from another one, so the order does not show).
    [self] is the dynamic type of the generator, which selects the
    overriding overloads: [StructuredBindingsCodeGenerator] for
    [DeclRefExpr], [ArrayInitCodeGenerator] for [ArrayInitIndexExpr],
    [LambdaCodeGenerator] for [CXXThisExpr]. *)
Fixpoint InsertArgExpr (self : Generator) (stmt : Expr) (s : State) {struct stmt} : State :=
  dispatch
    [ SUPPORTED isa_DeclRefExpr (fun stmt s =>
        match stmt with
        | DeclRefExpr d =>
            match self with
            | StructuredBindingsCodeGenerator mVarName =>
                let name := refGetName d in
                let s1 := emit (Append name) s in
                if (String.eqb name "") || EndsWith name "::"
                then emit (Append mVarName) s1
                else s1
            | _ => emit (Append (refGetName d)) s
            end
        | _ => s
        end);
      SUPPORTED isa_IntegerLiteral (fun stmt s =>
        match stmt with
        | IntegerLiteral value builtin =>
            let s1 := emit (Append (pretty value)) s in
            match builtin with
            | Some kind => emit (Append (GetBuiltinTypeSuffix kind)) s1
            | None => s1
            end
        | _ => s
        end);
      SUPPORTED isa_CharacterLiteral (fun stmt s =>
        match stmt with
        | CharacterLiteral c =>
            mkState (CharLit.HandleCharacterLiteral c (mOutputFormatHelper s))
                    (mLambdaStack s) (diagnostics s)
        | _ => s
        end);
      SUPPORTED isa_CXXBoolLiteralExpr (fun stmt s =>
        match stmt with
        | CXXBoolLiteralExpr value =>
            emit (Append (if value then "true" else "false")) s
        | _ => s
        end);
      SUPPORTED isa_CXXNullPtrLiteralExpr (fun _ s => emit (Append "nullptr") s);
      SUPPORTED isa_CXXThisExpr (fun _ s =>
        match self with
        | LambdaCodeGenerator => emit (Append "__this") s
        | _ => emit (Append "this") s
        end);
      SUPPORTED isa_BinaryOperator (fun stmt s =>
        match stmt with
        | BinaryOperator opcodeStr lhs rhs =>
            LAMBDA_SCOPE_HELPER LambdaCallerType.BinaryOperator (fun s =>
              let s1 := InsertArgExpr self lhs s in
              let s2 := emit (Append (" " +:+ opcodeStr +:+ " ")) s1 in
              InsertArgExpr self rhs s2) s
        | _ => s
        end);
      SUPPORTED isa_UnaryOperator (fun stmt s =>
        match stmt with
        | UnaryOperator opCodeName isPostfix subExpr =>
            let insertBefore := negb isPostfix in
            let s1 := if insertBefore then emit (Append opCodeName) s else s in
            let s2 := InsertArgExpr self subExpr s1 in
            if negb insertBefore then emit (Append opCodeName) s2 else s2
        | _ => s
        end);
      SUPPORTED isa_ConditionalOperator (fun stmt s =>
        match stmt with
        | ConditionalOperator cond lhs rhs =>
            let s1 := InsertArgExpr self cond s in
            let s2 := emit (Append " ? ") s1 in
            let s3 := InsertArgExpr self lhs s2 in
            let s4 := emit (Append " : ") s3 in
            InsertArgExpr self rhs s4
        | _ => s
        end);
      SUPPORTED isa_ArraySubscriptExpr (fun stmt s =>
        match stmt with
        | ArraySubscriptExpr lhs rhs =>
            let s1 := InsertArgExpr self lhs s in
            let s2 := emit (Append "[") s1 in
            let s3 := InsertArgExpr self rhs s2 in
            emit (Append "]") s3
        | _ => s
        end);
      SUPPORTED isa_MemberExpr (fun stmt s =>
        match stmt with
        | MemberExpr base isArrow memberName =>
            let s1 := InsertArgExpr self base s in
            let op := if isArrow then "->" else "." in
            emit (Append (op +:+ memberName)) s1
        | _ => s
        end);
      SUPPORTED isa_ParenExpr (fun stmt s =>
        match stmt with
        | ParenExpr subExpr =>
            WrapInParensOrCurlys Parens (InsertArgExpr self subExpr) AddSpace_No s
        | _ => s
        end);
      SUPPORTED isa_ImplicitCastExpr (fun stmt s =>
        match stmt with
        | ImplicitCastExpr subExpr => InsertArgExpr self subExpr s
        | _ => s
        end);
      SUPPORTED isa_ExprWithCleanups (fun stmt s =>
        match stmt with
        | ExprWithCleanups subExpr => InsertArgExpr self subExpr s
        | _ => s
        end);
      SUPPORTED isa_MaterializeTemporaryExpr (fun stmt s =>
        match stmt with
        | MaterializeTemporaryExpr temporary => InsertArgExpr self temporary s
        | _ => s
        end);
      SUPPORTED isa_CallExpr (fun stmt s =>
        match stmt with
        | CallExpr callee arguments =>
            LAMBDA_SCOPE_HELPER LambdaCallerType.CallExpr (fun s =>
              let s1 := InsertArgExpr self callee s in
              WrapInParensOrCurlys Parens
                (ForEachArg (fun arg => InsertArgExpr self arg) arguments false)
                AddSpace_No s1) s
        | _ => s
        end);
      SUPPORTED isa_OpaqueValueExpr (fun stmt s =>
        match stmt with
        | OpaqueValueExpr (Some sourceExpr) => InsertArgExpr self sourceExpr s
        | _ => s    (* InsertArg(nullptr) returns at once *)
        end);
      SUPPORTED isa_ArrayInitLoopExpr (fun stmt s =>
        match stmt with
        | ArrayInitLoopExpr _ subExpr size =>
            WrapInParensOrCurlys Curlys
              (ForEachArg
                 (fun i => on_same_buffer
                             (InsertArgExpr (ArrayInitCodeGenerator i) subExpr))
                 (seq 0 size) false)
              AddSpace_No s
        | _ => s
        end);
      SUPPORTED isa_ArrayInitIndexExpr (fun stmt s =>
        match self with
        | ArrayInitCodeGenerator mIndex => emit (Append (to_string mIndex)) s
        | _ => report (exprLoc stmt)
                      "ArrayInitIndexExpr should not be reached in CodeGenerator" s
        end) ]
    (fun stmt s => TODO (exprLoc stmt) s)
    stmt s.

(** The dispatcher on a possibly null expression pointer. *)
Definition InsertArgExprPtr (self : Generator) (p : option Expr) (s : State) : State :=
  match p with
  | None => s
  | Some e => InsertArgExpr self e s
  end.

(** [FindDeclRef]: the node itself, the source of the common expression of
    an [ArrayInitLoopExpr], then the children from left to right. *)
Fixpoint FindDeclRef (stmt : Expr) : option DeclRef :=
  let orElse (a b : option DeclRef) :=
    match a with Some d => Some d | None => b end in
  match stmt with
  | DeclRefExpr dref => Some dref
  | ArrayInitLoopExpr (Some (DeclRefExpr arrayDeclRefExpr)) _ _ => Some arrayDeclRefExpr
  | ArrayInitLoopExpr _ subExpr _ =>
      (* children: the OpaqueValueExpr, which has none of its own, then subExpr *)
      FindDeclRef subExpr
  | IntegerLiteral _ _ | CharacterLiteral _ | CXXBoolLiteralExpr _
  | CXXNullPtrLiteralExpr | CXXThisExpr | OpaqueValueExpr _
  | ArrayInitIndexExpr _ => None
  | BinaryOperator _ l r => orElse (FindDeclRef l) (FindDeclRef r)
  | UnaryOperator _ _ e => FindDeclRef e
  | ConditionalOperator c l r =>
      orElse (FindDeclRef c) (orElse (FindDeclRef l) (FindDeclRef r))
  | ArraySubscriptExpr l r => orElse (FindDeclRef l) (FindDeclRef r)
  | MemberExpr b _ _ => FindDeclRef b
  | ParenExpr e | ImplicitCastExpr e | ExprWithCleanups e
  | MaterializeTemporaryExpr e => FindDeclRef e
  | CallExpr f args =>
      orElse (FindDeclRef f)
        ((fix loop (l : list Expr) : option DeclRef :=
            match l with
            | [] => None
            | child :: rest => orElse (FindDeclRef child) (loop rest)
            end) args)
  | CXXThrowExpr _ operand =>
      match operand with Some e => FindDeclRef e | None => None end
  end.

(** [name.find(operatorName) != std::string::npos]. *)
Fixpoint contains (name operatorName : string) : bool :=
  String.prefix operatorName name ||
  match name with
  | EmptyString => false
  | String _ rest => contains rest operatorName
  end.

(** [GetQualifiers]. *)
Definition GetQualifiers (vd : VarInfo) : string :=
  (if isInline vd then "inline " else "") +:+
  (if isExtern vd then "extern " else "") +:+
  (if isStatic vd then "static " else "") +:+
  (if isConstexpr vd then "constexpr " else "").

(** Modelled from the spec: [IsTrivialStaticClassVarDecl] (InsightsHelpers,
    outside src) singles out the function-local static variables of
    non-trivial class type. *)
Definition IsTrivialStaticClassVarDecl (v : VarInfo) : bool :=
  isStaticLocal v &&
  match getAsCXXRecordDecl (varType v) with
  | Some rd => hasNonTrivialDestructor rd || hasNonTrivialDefaultConstructor rd
  | None => false
  end.

(** [CodeGenerator::HandleLocalStaticNonTrivialClass]. *)
Definition HandleLocalStaticNonTrivialClass (v : VarInfo) (s : State) : State :=
  let typeName := match getAsCXXRecordDecl (varType v) with
                  | Some cxxRecordDecl => recordName cxxRecordDecl
                  | None => ""      (* not reached: the caller tested the class *)
                  end in
  let internalVarName := BuildInternalVarName (varName v) in
  let compilerBoolVarName := internalVarName +:+ "B" in
  let s1 := emit (AppendNewLine ("static bool " +:+ compilerBoolVarName +:+ ";")) s in
  let s2 := emit (AppendNewLine ("static char " +:+ internalVarName +:+
                                 "[sizeof(" +:+ typeName +:+ ")];")) s1 in
  let s3 := emit (AppendNewLine "") s2 in
  let s4 := emit (AppendNewLine ("if( ! " +:+ compilerBoolVarName +:+ " )")) s3 in
  let s5 := emit OpenScope s4 in
  let s6 := emit (AppendNewLine ("new (&" +:+ internalVarName +:+ ") " +:+
                                 typeName +:+ ";")) s5 in
  let s7 := emit (AppendNewLine (compilerBoolVarName +:+ " = true;")) s6 in
  let s8 := emit (CloseScope NNL_Yes) s7 in
  emit (AppendNewLine "") s8.

(** The body of the loop over [bindings()] in the [DecompositionDecl]
    overload. *)
Definition binding_body (self : Generator) (tmpVarName : string)
    (isRefToObject : bool) (s : State) (bindingDecl : BindingDecl) : State :=
  match getBinding bindingDecl with
  | None => s
  | Some binding =>
      let holdingVarOrMemberExpr : option Expr :=
        match getHoldingVar bindingDecl with
        | Some anyInitializer => anyInitializer
        | None => match binding with
                  | MemberExpr _ _ _ => Some binding
                  | _ => None
                  end
        end in
      let isArrayBinding :=
        match binding with ArraySubscriptExpr _ _ => isRefToObject | _ => false end in
      let isNotTemporary :=
        match holdingVarOrMemberExpr with
        | Some (ExprWithCleanups _) => false
        | Some _ => true
        | None => false
        end in
      let refOrRefRef := if isArrayBinding || isNotTemporary then "&" else "" in
      let s1 := emit (Append (GetName (bindingType bindingDecl) +:+ refOrRefRef +:+ " "
                              +:+ bindingName bindingDecl +:+ " = ")) s in
      let s2 :=
        match holdingVarOrMemberExpr with
        | Some e =>
            on_same_buffer
              (InsertArgExpr (StructuredBindingsCodeGenerator tmpVarName) e) s1
        | None =>
            match binding with
            | ArraySubscriptExpr _ _ =>
                InsertArgExpr self binding (emit (Append tmpVarName) s1)
            | _ => TODO (bindingLoc bindingDecl) s1
            end
        end in
      emit (AppendNewLine ";") s2
  end.

(** The two immediately-invoked lambdas at the head of the
    [DecompositionDecl] overload. *)
Definition baseVarName (declName : option DeclRef) : string :=
  match declName with
  | Some d =>
      let name := refGetPlainName d in
      if contains name "operator" then "operator" else name
  | None => ""
  end.

Definition tmpVarName (declName : option DeclRef) (v : VarInfo) : string :=
  match declName with
  | Some d =>
      if refHasDecl d
      then BuildInternalVarName_at (baseVarName declName) (varLocStart v)
      else BuildInternalVarName (baseVarName declName)
  | None => BuildInternalVarName (baseVarName declName)
  end.

(** [InsertArg(const DecompositionDecl* )]. *)
Definition InsertArgDecompositionDecl (self : Generator)
    (v : VarInfo) (init : Expr) (bindings : list BindingDecl) (s : State) : State :=
  let declName := FindDeclRef init in
  let s0 := match declName with
            | Some _ => s
            | None => report (varLocStart v) ("unknown decl" +:+ LF) s
            end in
  let tmp := tmpVarName declName v in
  let s1 := emit (Append (GetTypeNameAsParameter (varType v) tmp +:+ " = ")) s0 in
  let s2 := InsertArgExpr self init s1 in
  let s3 := emit (AppendNewLine ";") s2 in
  let isRefToObject := IsReference (varType v) in
  fold_left (binding_body self tmp isRefToObject) bindings s3.

(** [InsertArg(const VarDecl* )]. *)
Definition InsertArgVarDecl (self : Generator) (stmt : VarDecl) (s : State) : State :=
  LAMBDA_SCOPE_HELPER LambdaCallerType.VarDecl (fun s =>
    match stmt with
    | DecompositionDecl v init bindings =>
        InsertArgDecompositionDecl self v init bindings s
    | PlainVarDecl v init =>
        if IsTrivialStaticClassVarDecl v then HandleLocalStaticNonTrivialClass v s
        else
          let s1 := emit (Append (GetQualifiers v)) s in
          let s2 :=
            if isFunctionPointerType (varType v) then
              let lineNo := line (varLocStart v) in
              let funcPtrName := funcPtrName lineNo in
              let s' := emit (AppendNewLine ("using " +:+ funcPtrName +:+ "= "
                                             +:+ GetName (varType v) +:+ ";")) s1 in
              emit (Append (funcPtrName +:+ varName v)) s'
            else emit (Append (GetTypeNameAsParameter (varType v) (varName v))) s1 in
          let s3 := match init with
                    | Some e => InsertArgExpr self e (emit (Append " = ") s2)
                    | None => s2
                    end in
          let s4 := if isNRVOVariable v then emit (Append " /* NRVO variable */") s3
                    else s3 in
          emit (AppendNewLine ";") s4
    end) s.

(** [InsertArg(const TypeAliasDecl* )]. *)
Definition InsertArgTypeAliasDecl (name : string) (underlyingType : QualType)
    (s : State) : State :=
  emit (AppendNewLine ("using " +:+ name +:+ " = " +:+ GetName underlyingType +:+ ";")) s.

(** The [isa<type>] tests on declarations; a [DecompositionDecl] is a
    [VarDecl]. *)
Definition isa_VarDecl (stmt : Decl) : bool :=
  match stmt with Decl_VarDecl _ => true | _ => false end.
Definition isa_TypeAliasDecl (stmt : Decl) : bool :=
  match stmt with TypeAliasDecl _ _ => true | _ => false end.

Definition declLoc (stmt : Decl) : SourceLocation :=
  match stmt with
  | Decl_VarDecl vd => varLocStart (getVarInfo vd)
  | TypeAliasDecl _ _ => mkLoc 0 0
  | EmptyDecl loc => loc
  end.

(** The [SUPPORTED_DECL] lines that concern the fragment. *)
Definition SUPPORTED_DECLS (self : Generator) : list (Supported Decl) :=
  [ SUPPORTED isa_VarDecl (fun stmt s =>
      match stmt with
      | Decl_VarDecl vd => InsertArgVarDecl self vd s
      | _ => s
      end);
    SUPPORTED isa_TypeAliasDecl (fun stmt s =>
      match stmt with
      | TypeAliasDecl name underlyingType =>
          InsertArgTypeAliasDecl name underlyingType s
      | _ => s
      end) ].

(** [InsertArg(const Decl* )] on a declaration: the chain, then [TODO]. *)
Definition InsertArgDecl (self : Generator) (stmt : Decl) (s : State) : State :=
  dispatch (SUPPORTED_DECLS self) (fun stmt s => TODO (declLoc stmt) s) stmt s.

(** [InsertArg(const Decl* )] on a pointer.  The routine has no null test:
    its first step is [isa<type>(stmt)], which is defined on nodes only;
    on a null pointer there is no result. *)
Definition InsertArg_Decl (self : Generator) (stmt : option Decl) (s : State)
  : option State :=
  match stmt with
  | None => None
  | Some d => Some (InsertArgDecl self d s)
  end.

(** The [isa<type>] tests on statements. *)
Definition isa_Expr (stmt : Stmt) : bool :=
  match stmt with ExprStmt _ => true | _ => false end.
Definition isa_NullStmt (stmt : Stmt) : bool :=
  match stmt with NullStmt => true | _ => false end.
Definition isa_CompoundStmt (stmt : Stmt) : bool :=
  match stmt with CompoundStmt _ => true | _ => false end.
Definition isa_DeclStmt (stmt : Stmt) : bool :=
  match stmt with DeclStmt _ => true | _ => false end.
Definition isa_ReturnStmt (stmt : Stmt) : bool :=
  match stmt with ReturnStmt _ => true | _ => false end.
Definition isa_BreakStmt (stmt : Stmt) : bool :=
  match stmt with BreakStmt => true | _ => false end.
Definition isa_WhileStmt (stmt : Stmt) : bool :=
  match stmt with WhileStmt _ _ => true | _ => false end.
Definition isa_CXXForRangeStmt (stmt : Stmt) : bool :=
  match stmt with CXXForRangeStmt _ _ _ _ _ _ _ => true | _ => false end.

Definition stmtLoc (stmt : Stmt) : SourceLocation :=
  match stmt with
  | ExprStmt e => exprLoc e
  | GotoStmt loc => loc
  | _ => mkLoc 0 0
  end.

(** [InsertArg(const DeclStmt* )]. *)
Definition InsertArgDeclStmt (self : Generator) (decls : list Decl) (s : State) : State :=
  fold_left (fun s decl => InsertArgDecl self decl s) decls s.

(** [InsertArg(const Stmt* )] on a non-null statement.  The expression
    classes are told apart by [InsertArgExpr]; the statement classes follow.
    [HandleCompoundStmt] also asks for [IfStmt] and [ForStmt], which the
    fragment does not have. *)
Fixpoint InsertArgStmt (self : Generator) (stmt : Stmt) (s : State) {struct stmt} : State :=
  let HandleCompoundStmt (body : list Stmt) (s : State) : State :=
    fold_left (fun s item =>
                 let s1 := InsertArgStmt self item s in
                 if negb (isa_DeclStmt item)
                 then emit (AppendNewLine ";") s1
                 else s1) body s in
  dispatch
    [ SUPPORTED isa_Expr (fun stmt s =>
        match stmt with
        | ExprStmt e => InsertArgExpr self e s
        | _ => s
        end);
      SUPPORTED isa_NullStmt (fun _ s => emit (AppendNewLine ";") s);
      SUPPORTED isa_CompoundStmt (fun stmt s =>
        match stmt with
        | CompoundStmt body =>
            let s1 := emit OpenScope s in
            let s2 := HandleCompoundStmt body s1 in
            emit (CloseScope NNL_Yes) s2
        | _ => s
        end);
      SUPPORTED isa_DeclStmt (fun stmt s =>
        match stmt with
        | DeclStmt decls => InsertArgDeclStmt self decls s
        | _ => s
        end);
      SUPPORTED isa_ReturnStmt (fun stmt s =>
        match stmt with
        | ReturnStmt retValue =>
            LAMBDA_SCOPE_HELPER LambdaCallerType.ReturnStmt (fun s =>
              let s1 := emit (Append "return") s in
              match retValue with
              | Some retVal => InsertArgExpr self retVal (emit (Append " ") s1)
              | None => s1
              end) s
        | _ => s
        end);
      SUPPORTED isa_BreakStmt (fun _ s => emit (Append "break") s);
      SUPPORTED isa_WhileStmt (fun stmt s =>
        match stmt with
        | WhileStmt cond body =>
            let s1 := emit (Append "while") s in
            let s2 := WrapInParensOrCurlys Parens (InsertArgExprPtr self cond)
                                           AddSpace_Yes s1 in
            match body with
            | Some b => InsertArgStmt self b s2
            | None => s2
            end
        | _ => s
        end);
      SUPPORTED isa_CXXForRangeStmt (fun stmt s =>
        match stmt with
        | CXXForRangeStmt rangeStmt beginStmt endStmt cond inc loopVariable body =>
            let s1 := emit OpenScope s in
            let s2 := InsertArgDeclStmt self rangeStmt s1 in
            let s3 := InsertArgDeclStmt self beginStmt s2 in
            let s4 := InsertArgDeclStmt self endStmt s3 in
            (* add blank line after the declarations *)
            let s5 := emit (AppendNewLine "") s4 in
            let s6 := emit (Append "for( ; ") s5 in
            let s7 := InsertArgExprPtr self cond s6 in
            let s8 := emit (Append "; ") s7 in
            let s9 := InsertArgExprPtr self inc s8 in
            let s10 := emit (AppendNewLine " )") s9 in
            (* open for loop scope *)
            let s11 := emit OpenScope s10 in
            let s12 := InsertArgVarDecl self loopVariable s11 in
            let isBodyBraced := isa_CompoundStmt body in
            (* we already opened a scope. Skip the initial one *)
            let s13 := match body with
                       | CompoundStmt items => HandleCompoundStmt items s12
                       | _ => InsertArgStmt self body s12
                       end in
            let s14 := if negb isBodyBraced && negb (isa_NullStmt body)
                       then emit (AppendNewLine ";") s13
                       else s13 in
            (* close range-for scope in for *)
            let s15 := emit (CloseScope NNL_Yes) s14 in
            (* close outer range-for scope *)
            emit (CloseScope NNL_No) s15
        | _ => s
        end) ]
    (fun stmt s => TODO (stmtLoc stmt) s)
    stmt s.

(** [CodeGenerator::HandleCompoundStmt]. *)
Definition HandleCompoundStmt (self : Generator) (body : list Stmt) (s : State) : State :=
  fold_left (fun s item =>
               let s1 := InsertArgStmt self item s in
               if negb (isa_DeclStmt item)
               then emit (AppendNewLine ";") s1
               else s1) body s.


Definition initial : State := mkState [] [] [].

End Gen.

(* ===================================================================== *)
(** ** The terms the properties are stated in                             *)
(* ===================================================================== *)

Module ClosureTerms.

Import Lambda LambdaLowering.

(** The capture loop does not look at what is already in the buffer or on
    the diagnostic channel. *)
Definition relocate (p : OutputFormatHelper) (d : list Diagnostic) (st : Locals) : Locals :=
  mkLocals (ctor st) (ctorInits st) (inits st) (first st) (ctorRequired st)
           (p ++ outputFormatHelper st) (d ++ Lambda.diagnostics st).

(** The class definition of a lambda expression whose trigger is of kind
    [k]: what [HandleLambdaExpr] writes into an empty buffer. *)
Definition class_definition (lambda : LambdaExpr) (k : LambdaCallerType.t) : list Out :=
  written (HandleLambdaExpr lambda (LambdaStack.mkLambdaHelper k 0 "") [] []).

End ClosureTerms.

Module Framing.

Import Gen.

(** A routine is [framed] when all it does to the generator is to append
    a fixed sequence of calls to the buffer and a fixed sequence of
    diagnostics to the channel, leaving the lambda stack as it found it. *)
Definition framed (f : State -> State) : Prop :=
  exists (E : list Out) (D : list Diagnostic), forall s,
    f s = mkState (mOutputFormatHelper s ++ E) (mLambdaStack s) (diagnostics s ++ D).

(** What a routine appends, read off a run on the empty generator. *)
Definition emitted (f : State -> State) : list Out :=
  mOutputFormatHelper (f initial).

Definition reported (f : State -> State) : list Diagnostic :=
  diagnostics (f initial).

(** The first hit in a row of search results. *)
Fixpoint first_found (results : list (option DeclRef)) : option DeclRef :=
  match results with
  | [] => None
  | Some d :: _ => Some d
  | None :: rest => first_found rest
  end.

End Framing.

Module StaticLocalTerms.

Import Gen Framing.

(** The guard pattern for a static local [name] of class [typeName]: the
    guard, the buffer sized to the class, the test of the negated guard,
    and in its scope the placement construction and the setting of the
    guard. *)
Definition guarded_init (name typeName : string) : list Out :=
  let internalVarName := BuildInternalVarName name in
  let guard := internalVarName +:+ "B" in
  [ AppendNewLine ("static bool " +:+ guard +:+ ";");
    AppendNewLine ("static char " +:+ internalVarName +:+ "[sizeof(" +:+ typeName +:+ ")];");
    AppendNewLine "";
    AppendNewLine ("if( ! " +:+ guard +:+ " )");
    OpenScope;
    AppendNewLine ("new (&" +:+ internalVarName +:+ ") " +:+ typeName +:+ ";");
    AppendNewLine (guard +:+ " = true;");
    CloseScope NNL_Yes;
    AppendNewLine "" ].

(** The emitted lines, read as the statements they are.  The two statics
    outlive the call; a [static bool] starts out false.  A call runs the
    lines in order: the [if( ! guard )] line decides whether the scope that
    follows is entered, a [new (] line inside an entered scope constructs
    the object, and the assignment line sets the guard. *)
Record Statics := mkStatics { guard_value : bool; constructions : nat }.

Record Frame := mkFrame { statics : Statics; condition : bool; active : bool }.

Definition step (guard : string) (fr : Frame) (line : Out) : Frame :=
  match line with
  | AppendNewLine text =>
      if String.prefix "if( ! " text
      then mkFrame (statics fr) (negb (guard_value (statics fr))) (active fr)
      else if negb (active fr) then fr
      else if String.prefix "new (" text
      then mkFrame (mkStatics (guard_value (statics fr))
                              (S (constructions (statics fr))))
                   (condition fr) (active fr)
      else if String.eqb text (guard +:+ " = true;")
      then mkFrame (mkStatics true (constructions (statics fr)))
                   (condition fr) (active fr)
      else fr
  | OpenScope => mkFrame (statics fr) (condition fr) (condition fr)
  | CloseScope _ => mkFrame (statics fr) (condition fr) true
  | _ => fr
  end.

Definition call (guard : string) (lines : list Out) (st : Statics) : Statics :=
  statics (fold_left (step guard) lines (mkFrame st true true)).

End StaticLocalTerms.

Module DecompositionTerms.

Import Gen Framing.

(** The initializer a binding is lowered from: that of the holding
    variable, or the binding itself when it is a member expression. *)
Definition holdingVarOrMemberExpr (b : BindingDecl) (binding : Expr) : option Expr :=
  match getHoldingVar b with
  | Some anyInitializer => anyInitializer
  | None => match binding with MemberExpr _ _ _ => Some binding | _ => None end
  end.

(** The qualifier behind the type of a binding. *)
Definition refOrRefRef (isRefToObject : bool) (b : BindingDecl) (binding : Expr) : string :=
  let isArrayBinding :=
    match binding with ArraySubscriptExpr _ _ => isRefToObject | _ => false end in
  let isNotTemporary :=
    match holdingVarOrMemberExpr b binding with
    | Some (ExprWithCleanups _) => false
    | Some _ => true
    | None => false
    end in
  if isArrayBinding || isNotTemporary then "&" else "".

(** One binding declaration: type, qualifier and name, the initializer
    written against the temporary [tmp], and the terminator. *)
Definition binding_declaration (self : Generator) (tmp : string) (isRefToObject : bool)
    (b : BindingDecl) (binding : Expr) : list Out :=
  [Append (GetName (bindingType b) +:+ refOrRefRef isRefToObject b binding +:+ " "
           +:+ bindingName b +:+ " = ")]
  ++ match holdingVarOrMemberExpr b binding with
     | Some e => emitted (InsertArgExpr (StructuredBindingsCodeGenerator tmp) e)
     | None =>
         match binding with
         | ArraySubscriptExpr _ _ => [Append tmp] ++ emitted (InsertArgExpr self binding)
         | _ => [Append TODO_marker]
         end
     end
  ++ [AppendNewLine ";"].

(** The bindings that have a binding expression, in declaration order. *)
Fixpoint resolved (bindings : list BindingDecl) : list (BindingDecl * Expr) :=
  match bindings with
  | [] => []
  | b :: rest =>
      match getBinding b with
      | Some binding => (b, binding) :: resolved rest
      | None => resolved rest
      end
  end.


End DecompositionTerms.

Module Effects.

Import Gen Framing.

(** What a framed routine does, as a value: the calls it appends and the
    diagnostics it reports. *)
Definition Effect : Type := list Out * list Diagnostic.

Definition effect (f : State -> State) : Effect := (emitted f, reported f).

Definition and_then (a b : Effect) : Effect := (a.1 ++ b.1, a.2 ++ b.2).

Definition nothing : Effect := ([], []).

Definition writes (calls : list Out) : Effect := (calls, []).

Definition complains (loc : SourceLocation) (msg : string) : Effect :=
  ([], [mkDiag loc msg]).

(** The effects of the arguments of a [ForEachArg], with the separators. *)
Fixpoint separated (needsComma : bool) (parts : list Effect) : Effect :=
  match parts with
  | [] => nothing
  | p :: rest =>
      and_then (if needsComma then writes [Append ", "] else nothing)
               (and_then p (separated true rest))
  end.

Definition in_braces (b : BraceKind) (e : Effect) : Effect :=
  match b with
  | Parens => and_then (writes [Append "("]) (and_then e (writes [Append ")"]))
  | Curlys => and_then (writes [Append "{"]) (and_then e (writes [Append "}"]))
  end.

Definition of_expr (self : Generator) (stmt : Expr) : Effect :=
  effect (InsertArgExpr self stmt).

End Effects.

Module TraversalTerms.

Import Gen Framing.

Definition is_Append (o : Out) : bool :=
  match o with Append _ => true | _ => false end.



(** The name references on the way of [FindDeclRef], in the order of its
    walk: the node itself, the source of the common expression of an
    array-initialization loop when it is a name reference, the children
    from left to right.  An [OpaqueValueExpr] has no children. *)
Fixpoint visible_refs (stmt : Expr) : list DeclRef :=
  match stmt with
  | DeclRefExpr dref => [dref]
  | ArrayInitLoopExpr common subExpr _ =>
      match common with
      | Some (DeclRefExpr arrayDeclRefExpr) => [arrayDeclRefExpr]
      | _ => []
      end ++ visible_refs subExpr
  | IntegerLiteral _ _ | CharacterLiteral _ | CXXBoolLiteralExpr _
  | CXXNullPtrLiteralExpr | CXXThisExpr | OpaqueValueExpr _
  | ArrayInitIndexExpr _ => []
  | BinaryOperator _ l r => visible_refs l ++ visible_refs r
  | UnaryOperator _ _ e => visible_refs e
  | ConditionalOperator c l r => visible_refs c ++ visible_refs l ++ visible_refs r
  | ArraySubscriptExpr l r => visible_refs l ++ visible_refs r
  | MemberExpr b _ _ => visible_refs b
  | ParenExpr e | ImplicitCastExpr e | ExprWithCleanups e
  | MaterializeTemporaryExpr e => visible_refs e
  | CallExpr f args =>
      visible_refs f ++
      (fix all (l : list Expr) : list DeclRef :=
         match l with
         | [] => []
         | child :: rest => visible_refs child ++ all rest
         end) args
  | CXXThrowExpr _ operand =>
      match operand with Some e => visible_refs e | None => [] end
  end.

(** The nodes a derived generator lowers in a way of its own. *)
Definition overridden (self : Generator) (stmt : Expr) : bool :=
  match self, stmt with
  | StructuredBindingsCodeGenerator _, DeclRefExpr d =>
      String.eqb (refGetName d) "" || EndsWith (refGetName d) "::"
  | ArrayInitCodeGenerator _, ArrayInitIndexExpr _ => true
  | LambdaCodeGenerator, CXXThisExpr => true
  | _, _ => false
  end.

(** No node that the generator [self] gets to lower is overridden.  The
    sub-expression of an array-initialization loop goes to generators of
    its own, the operand of a class without an overload to none. *)
Fixpoint plain (self : Generator) (stmt : Expr) : bool :=
  negb (overridden self stmt) &&
  match stmt with
  | DeclRefExpr _ | IntegerLiteral _ _ | CharacterLiteral _ | CXXBoolLiteralExpr _
  | CXXNullPtrLiteralExpr | CXXThisExpr | ArrayInitIndexExpr _ => true
  | BinaryOperator _ l r => plain self l && plain self r
  | UnaryOperator _ _ e => plain self e
  | ConditionalOperator c l r => plain self c && plain self l && plain self r
  | ArraySubscriptExpr l r => plain self l && plain self r
  | MemberExpr b _ _ => plain self b
  | ParenExpr e | ImplicitCastExpr e | ExprWithCleanups e
  | MaterializeTemporaryExpr e => plain self e
  | CallExpr f args =>
      plain self f &&
      (fix all (l : list Expr) : bool :=
         match l with
         | [] => true
         | a :: rest => plain self a && all rest
         end) args
  | OpaqueValueExpr (Some src) => plain self src
  | OpaqueValueExpr None => true
  | ArrayInitLoopExpr _ _ _ => true
  | CXXThrowExpr _ _ => true
  end.

End TraversalTerms.

Module ScopeTerms.

Import Gen Framing.

(** The nesting level after a sequence of calls that starts at level [d];
    there is none when a scope is closed at level 0. *)
Fixpoint nesting (calls : list Out) (d : nat) : option nat :=
  match calls with
  | [] => Some d
  | OpenScope :: rest => nesting rest (S d)
  | CloseScope _ :: rest | CloseScopeWithSemi :: rest =>
      match d with
      | 0 => None
      | S d' => nesting rest d'
      end
  | _ :: rest => nesting rest d
  end.

(** A routine that takes a buffer which is [a] levels deep, or deeper by
    some amount, to [b] levels, or deeper by the same amount. *)
Definition moves (f : State -> State) (a b : nat) : Prop :=
  forall (s : State) (d : nat),
    nesting (mOutputFormatHelper s) 0 = Some (d + a) ->
    nesting (mOutputFormatHelper (f s)) 0 = Some (d + b).

End ScopeTerms.

Module CaptureTerms.

Import Lambda.

















End CaptureTerms.

(* ===================================================================== *)
(** ** Branches and loops                                                 *)
(* ===================================================================== *)

Module Control.

Import Gen.

(** The statement classes with sub-statements that the fragment leaves
    out.  [Simple] takes a statement of the fragment as it is; [Block] is a
    [CompoundStmt] whose items are taken from here.  A condition is an
    expression of the fragment; only a [ForStmt] can be without one. *)
Inductive Statement :=
| Simple (stmt : Stmt)
| Block (body : list Statement)
| IfStmt (isConstexpr : bool) (init : option Statement)
         (conditionVariable : option VarDecl) (cond : Expr)
         (thenStmt : Statement) (elseStmt : option Statement)
| ForStmt (init : option Statement) (cond inc : option Expr) (body : Statement)
| DoStmt (body : Statement) (cond : Expr)
| SwitchStmt (init : option Statement) (conditionVariable : option VarDecl)
             (cond : Expr) (body : Statement)
| CaseStmt (lhs : Expr) (subStmt : Statement)
| DefaultStmt (subStmt : Statement).

(** The keyword strings of the project (declared outside src) spell the
    keyword with the space their name announces. *)
Definition kwSpaceConstExpr : string := " constexpr".
Definition kwConstExprSpace : string := "constexpr ".

(** The [isa<type>] tests that the overloads make. *)
Definition isa_CompoundStmt (stmt : Statement) : bool :=
  match stmt with
  | Block _ | Simple (Ast.CompoundStmt _) => true
  | _ => false
  end.

Definition isa_NullStmt (stmt : Statement) : bool :=
  match stmt with Simple NullStmt => true | _ => false end.

Definition isa_DeclStmt (stmt : Statement) : bool :=
  match stmt with Simple (DeclStmt _) => true | _ => false end.

Definition isa_IfStmt (stmt : Statement) : bool :=
  match stmt with IfStmt _ _ _ _ _ _ => true | _ => false end.

Definition isa_ForStmt (stmt : Statement) : bool :=
  match stmt with ForStmt _ _ _ _ => true | _ => false end.

(** [InsertArg(const Stmt* )] on a non-null statement, by class: the
    overloads for [CompoundStmt] (with [HandleCompoundStmt]), [IfStmt],
    [ForStmt], [DoStmt], [SwitchStmt], [CaseStmt] and [DefaultStmt]; a
    statement of the fragment goes to [InsertArgStmt]. *)
Fixpoint InsertArg (self : Generator) (stmt : Statement) (s : State) {struct stmt} : State :=
  let InsertArgPtr (p : option Statement) (s : State) : State :=
    match p with
    | Some st => InsertArg self st s
    | None => s
    end in
  match stmt with
  | Simple st => InsertArgStmt self st s
  | Block body =>
      let s1 := emit OpenScope s in
      let s2 :=
        fold_left (fun s item =>
                     let s1 := InsertArg self item s in
                     if negb (isa_IfStmt item) && negb (isa_ForStmt item)
                        && negb (isa_DeclStmt item)
                     then emit (AppendNewLine ";") s1
                     else s1) body s1 in
      emit (CloseScope NNL_Yes) s2
  | IfStmt isConstexpr init conditionVariable cond body elsePart =>
      let cexpr := if isConstexpr then kwSpaceConstExpr else "" in
      let hasInit :=
        match init, conditionVariable with None, None => false | _, _ => true end in
      let s1 :=
        if hasInit then
          let s' := emit OpenScope s in
          let s'' := match conditionVariable with
                     | Some conditionVar => InsertArgVarDecl self conditionVar s'
                     | None => s'
                     end in
          InsertArgPtr init s''
        else s in
      let s2 := emit (Append ("if" +:+ cexpr)) s1 in
      let s3 := WrapInParensOrCurlys Parens (InsertArgExpr self cond) AddSpace_Yes s2 in
      let s4 := InsertArg self body s3 in
      let isBodyBraced := isa_CompoundStmt body in
      let s5 := if negb isBodyBraced && negb (isa_NullStmt body)
                then emit (AppendNewLine ";") s4
                else s4 in
      (* else *)
      let s6 :=
        match elsePart with
        | Some elsePart =>
            let cexprElse :=
              if isConstexpr then "/* " +:+ kwConstExprSpace +:+ "*/ " else "" in
            let t1 := if isBodyBraced then emit (Append " ") s5 else s5 in
            let t2 := emit (Append ("else " +:+ cexprElse)) t1 in
            let needScope := isa_IfStmt elsePart in
            let t3 := if needScope then emit OpenScope t2 else t2 in
            let t4 := InsertArg self elsePart t3 in
            if needScope then emit (CloseScope NNL_No) t4 else t4
        | None => s5
        end in
      let s7 := emit (AppendNewLine "") s6 in
      if hasInit
      then emit (AppendNewLine "") (emit (CloseScope NNL_No) s7)
      else s7
  | ForStmt init cond inc body =>
      let s1 := emit (Append "for") s in
      let s2 :=
        WrapInParensOrCurlys Parens
          (fun s =>
             let t1 := match init with
                       | Some init =>
                           (* the init-stmt carries a ; at the end *)
                           InsertArg self init s
                       | None => emit (Append "; ") s
                       end in
             let t2 := InsertArgExprPtr self cond t1 in
             let t3 := emit (Append "; ") t2 in
             InsertArgExprPtr self inc t3)
          AddSpace_Yes s1 in
      let s3 := emit (AppendNewLine "") s2 in
      let s4 := InsertArg self body s3 in
      emit (AppendNewLine "") s4
  | DoStmt body cond =>
      let s1 := emit (Append "do ") s in
      let s2 := InsertArg self body s1 in
      let s3 := if isa_CompoundStmt body then emit (Append " ") s2 else s2 in
      let s4 := emit (Append "while") s3 in
      WrapInParensOrCurlys Parens (InsertArgExpr self cond) AddSpace_Yes s4
  | SwitchStmt init conditionVariable cond body =>
      let hasInit :=
        match init, conditionVariable with None, None => false | _, _ => true end in
      let s1 :=
        if hasInit then
          let s' := emit OpenScope s in
          let s'' := match conditionVariable with
                     | Some conditionVar => InsertArgVarDecl self conditionVar s'
                     | None => s'
                     end in
          InsertArgPtr init s''
        else s in
      let s2 := emit (Append "switch") s1 in
      let s3 := WrapInParensOrCurlys Parens (InsertArgExpr self cond) AddSpace_Yes s2 in
      let s4 := InsertArg self body s3 in
      if hasInit then emit (CloseScope NNL_No) s4 else s4
  | CaseStmt lhs subStmt =>
      let s1 := emit (Append "case ") s in
      let s2 := InsertArgExpr self lhs s1 in
      let s3 := emit (Append ": ") s2 in
      InsertArg self subStmt s3
  | DefaultStmt subStmt =>
      InsertArg self subStmt (emit (Append "default: ") s)
  end.

(** [CodeGenerator::HandleCompoundStmt]. *)
Definition HandleCompoundStmt (self : Generator) (body : list Statement) (s : State) : State :=
  fold_left (fun s item =>
               let s1 := InsertArg self item s in
               if negb (isa_IfStmt item) && negb (isa_ForStmt item)
                  && negb (isa_DeclStmt item)
               then emit (AppendNewLine ";") s1
               else s1) body s.

End Control.

Module ControlTerms.

Import Gen Framing.

(** What an optional statement appends; nothing when it is absent. *)
Definition of_ptr (self : Generator) (p : option Control.Statement) : list Out :=
  match p with
  | Some st => emitted (Control.InsertArg self st)
  | None => []
  end.

(** An item of a block with the terminator [HandleCompoundStmt] gives
    it. *)
Definition terminated (self : Generator) (item : Control.Statement) : list Out :=
  emitted (Control.InsertArg self item)
  ++ (if Control.isa_IfStmt item || Control.isa_ForStmt item || Control.isa_DeclStmt item
      then [] else [AppendNewLine ";"]).

End ControlTerms.

(* ===================================================================== *)
(** ** Casts                                                              *)
(* ===================================================================== *)

Module Casts.

Import Gen.

(** [CastKind], as far as this file tells the kinds apart. *)
Inductive CastKind :=
| CK_BitCast
| CK_DerivedToBase
| CK_UncheckedDerivedToBase
| CK_Other.

(** The destination type of a cast in canonical form: its name as
    [GetName] prints it, and the two questions [FormatCast] asks. *)
Record DestType := mkDestType {
  destGetName      : string;
  isRecordType     : bool;
  isAnyPointerType : bool
}.

Inductive AsComment := AsComment_Yes | AsComment_No.

(** The cast classes.  [Operand] takes an expression of the fragment as it
    is; an [ImplicitCastExpr] here is one with a destination type and a
    cast kind, which the matcher is asked about. *)
Inductive Cast :=
| Operand (e : Expr)
| CXXNamedCastExpr (getCastName : string) (type : DestType) (castKind : CastKind)
                   (subExpr : Cast)
| CStyleCastExpr (type : DestType) (castKind : CastKind) (subExpr : Cast)
| ImplicitCastExpr (type : DestType) (castKind : CastKind) (subExpr : Cast).

(** The generator together with the function-local
    [static const std::string castName] of the [ImplicitCastExpr]
    overload: a static of this kind is initialized when control passes its
    declaration for the first time and keeps its value from then on. *)
Record State := mkState {
  generator : Gen.State;
  castName  : option string
}.

Definition emit (o : Out) (s : State) : State :=
  mkState (Gen.emit o (generator s)) (castName s).

Definition isa_IntegerLiteral (stmt : Cast) : bool :=
  match stmt with Operand (IntegerLiteral _ _) => true | _ => false end.

Definition isa_CXXThisExpr (stmt : Cast) : bool :=
  match stmt with Operand CXXThisExpr => true | _ => false end.

Definition is_BitCast (castKind : CastKind) : bool :=
  match castKind with CK_BitCast => true | _ => false end.

(** The destination type as [FormatCast] writes it. *)
Definition castDestTypeText (castDestType : DestType) (castKind : CastKind) : string :=
  let isCastToBase :=
    match castKind with
    | CK_DerivedToBase | CK_UncheckedDerivedToBase => isRecordType castDestType
    | _ => false
    end in
  destGetName castDestType
  +:+ (if isCastToBase && negb (isAnyPointerType castDestType) then "&" else "").

(** [CodeGenerator::FormatCast]; [subExpr] is the lowering of the
    operand.  A call without the last argument writes no comment. *)
Definition FormatCast (castName : string) (castDestType : DestType)
    (subExpr : State -> State) (castKind : CastKind) (comment : AsComment)
    (s : State) : State :=
  let s1 := match comment with
            | AsComment_Yes => emit (Append "/*") s
            | AsComment_No => s
            end in
  let s2 := emit (Append (castName +:+ "<" +:+ castDestTypeText castDestType castKind
                          +:+ ">(")) s1 in
  let s3 := subExpr s2 in
  let s4 := emit (Append ")") s3 in
  match comment with
  | AsComment_Yes => emit (Append "*/") s4
  | AsComment_No => s4
  end.

Section Matcher.

(** [clang::ast_matchers::IsMatchingCast] of InsightsMatchers.h, which is
    not among the sources: the cast kinds that are worth writing out. *)
Variable IsMatchingCast : CastKind -> bool.

(** [InsertArg(const Stmt* )] on a cast, by class: the overloads for
    [CXXNamedCastExpr], [CStyleCastExpr] and [ImplicitCastExpr]. *)
Fixpoint InsertArg (self : Generator) (stmt : Cast) (s : State) {struct stmt} : State :=
  match stmt with
  | Operand e => mkState (InsertArgExpr self e (generator s)) (castName s)
  | CXXNamedCastExpr getCastName castDestType castKind subExpr =>
      FormatCast getCastName castDestType (InsertArg self subExpr) castKind AsComment_No s
  | CStyleCastExpr castDestType castKind subExpr =>
      FormatCast "reinterpret_cast" castDestType (InsertArg self subExpr) castKind
                 AsComment_No s
  | ImplicitCastExpr castDestType castKind subExpr =>
      if negb (IsMatchingCast castKind) then InsertArg self subExpr s
      else if isa_IntegerLiteral subExpr then
        (* stmt->IgnoreCasts() is the literal *)
        InsertArg self subExpr s
      else
        let isReinterpretCast := is_BitCast castKind in
        let s1 :=
          match castName s with
          | Some _ => s
          | None =>
              mkState (generator s)
                      (Some (if isReinterpretCast then "reinterpret_cast"
                             else "static_cast"))
          end in
        let castName := match castName s1 with Some name => name | None => "" end in
        let asComment :=
          if negb isReinterpretCast && isa_CXXThisExpr subExpr
          then AsComment_Yes else AsComment_No in
        FormatCast castName castDestType (InsertArg self subExpr) castKind asComment s1
  end.

End Matcher.

End Casts.

Module CastTerms.

Import Casts.

(** The name of the named cast that stands for an implicit cast of kind
    [castKind]. *)
Definition cast_name (castKind : CastKind) : string :=
  if is_BitCast castKind then "reinterpret_cast" else "static_cast".

(** The implicit casts that are written out. *)
Definition written_out (IsMatchingCast : CastKind -> bool) (stmt : Cast) : bool :=
  match stmt with
  | ImplicitCastExpr _ castKind subExpr =>
      IsMatchingCast castKind && negb (isa_IntegerLiteral subExpr)
  | _ => false
  end.

(** What is written in front of and behind a cast that is commented out. *)
Definition comment_open (castKind : CastKind) (subExpr : Cast) : list Out :=
  if negb (is_BitCast castKind) && isa_CXXThisExpr subExpr then [Append "/*"] else [].

Definition comment_close (castKind : CastKind) (subExpr : Cast) : list Out :=
  if negb (is_BitCast castKind) && isa_CXXThisExpr subExpr then [Append "*/"] else [].

(** A routine that, started with the static at [n], appends a fixed
    sequence of calls and of diagnostics, leaves the lambda stack as it
    found it, and ends with the static at [n']. *)
Definition appends (f : Casts.State -> Casts.State) (n n' : option string) : Prop :=
  exists (E : list Out) (D : list Diagnostic), forall g : Gen.State,
    f (Casts.mkState g n)
    = Casts.mkState (Gen.mkState (Gen.mOutputFormatHelper g ++ E) (Gen.mLambdaStack g)
                                 (Gen.diagnostics g ++ D)) n'.

End CastTerms.

(* ===================================================================== *)
(** ** Calls of overloaded operators                                      *)
(* ===================================================================== *)

Module OperatorCall.

Import Gen.

(** What the declaration is that the callee refers to. *)
Inductive DeclKind := CXXMethodDecl | FunctionDecl | OtherDecl.

(** [CXXOperatorCallExpr]: its children are the callee and the arguments,
    of which there is at least one.  [calleeDecl] is the answer of
    [getDecl()] on the callee, for a callee that is a name reference, and
    [getOperatorSpelling] the spelling of [getOperator()]. *)
Record CXXOperatorCallExpr := mkOperatorCall {
  getCallee           : Expr;
  calleeDecl          : DeclKind;
  getOperatorSpelling : string;
  getArg0             : Expr;
  otherArgs           : list Expr
}.

Definition getNumArgs (stmt : CXXOperatorCallExpr) : nat := S (length (otherArgs stmt)).

(** [Expr::IgnoreImpCasts] and [Stmt::IgnoreImplicit] of the front end, on
    the classes of the fragment. *)
Fixpoint IgnoreImpCasts (e : Expr) : Expr :=
  match e with
  | ImplicitCastExpr subExpr => IgnoreImpCasts subExpr
  | _ => e
  end.

Fixpoint IgnoreImplicit (e : Expr) : Expr :=
  match e with
  | ExprWithCleanups subExpr | MaterializeTemporaryExpr subExpr
  | ImplicitCastExpr subExpr => IgnoreImplicit subExpr
  | _ => e
  end.

(** [dyn_cast_or_null<DeclRefExpr>]. *)
Definition as_DeclRefExpr (e : Expr) : option DeclRef :=
  match e with DeclRefExpr d => Some d | _ => None end.

(** [CodeGenerator::InsertArgWithParensIfNeeded].  The dereference is the
    one unary operator whose opcode name is ["*"]. *)
Definition InsertArgWithParensIfNeeded (self : Generator) (stmt : Expr) (s : State) : State :=
  let needParens :=
    match IgnoreImplicit stmt with
    | UnaryOperator opCodeName _ _ => String.eqb opCodeName "*"
    | _ => false
    end in
  let s1 := if needParens then emit (Append "(") s else s in
  let s2 := InsertArgExpr self stmt s1 in
  if needParens then emit (Append ")") s2 else s2.

(** [InsertArg(const CXXOperatorCallExpr* )].  There is no result where
    the routine goes through the null pointer [callee]. *)
Definition InsertArg (self : Generator) (stmt : CXXOperatorCallExpr) (s : State)
  : option State :=
  (* LAMBDA_SCOPE_HELPER(OperatorCallExpr) *)
  let pushed :=
    mkState (mOutputFormatHelper s)
            (LambdaStack.LambdaScopeHandler_ctor (mLambdaStack s) ambient
                                                 LambdaCallerType.OperatorCallExpr)
            (diagnostics s) in
  let popped (s2 : State) :=
    mkState (mOutputFormatHelper s2)
            (LambdaStack.LambdaScopeHandler_dtor (mLambdaStack s2))
            (diagnostics s2) in
  let callee := as_DeclRefExpr (IgnoreImpCasts (getCallee stmt)) in
  let isMethod := match calleeDecl stmt with CXXMethodDecl => true | _ => false end in
  let isCXXMethod := match callee with Some _ => isMethod | None => false end in
  let shortcut :=
    match otherArgs stmt with
    | [arg1] =>
        match callee, as_DeclRefExpr (IgnoreImpCasts (getArg0 stmt)),
              as_DeclRefExpr (IgnoreImpCasts arg1) with
        | Some callee, Some param1, Some param2 =>
            Some (if isMethod
                  then refGetName param1 +:+ "." +:+ refGetName callee +:+ "("
                       +:+ refGetName param2 +:+ ")"
                  else refGetName callee +:+ "(" +:+ refGetName param1 +:+ ", "
                       +:+ refGetName param2 +:+ ")")
        | _, _, _ => None
        end
    | _ => None
    end in
  match shortcut with
  | Some replace => Some (popped (emit (Append replace) pushed))
  | None =>
      let fallbackArg0 := getArg0 stmt in
      (* arg0 := operator *)
      let arg0 := IgnoreImplicit (getCallee stmt) in
      let arg1 := getArg0 stmt in
      let skipped :=
        match as_DeclRefExpr arg0 with
        | Some _ => match calleeDecl stmt with OtherDecl => true | _ => false end
        | None => false
        end in
      if skipped then Some (popped pushed)
      else
        (* operators in a namespace but outside a class so operator goes first *)
        let s1 :=
          if negb isCXXMethod
          then match callee with
               | Some callee => Some (emit (Append (refGetName callee +:+ "(")) pushed)
               | None => None
               end
          else Some pushed in
        match s1 with
        | None => None
        | Some s1 =>
            (* insert the arguments *)
            let s2 :=
              if isa_DeclRefExpr fallbackArg0
              then InsertArgWithParensIfNeeded self fallbackArg0 s1
              else InsertArgWithParensIfNeeded self arg1 s1 in
            (* if it is a class operator the operator follows now *)
            let s3 :=
              if isCXXMethod
              then emit (Append (".operator" +:+ getOperatorSpelling stmt +:+ "(")) s2
              else s2 in
            (* consume all remaining arguments *)
            let s4 :=
              ForEachArg (fun child s =>
                            InsertArgExpr self child
                              (if negb isCXXMethod then emit (Append ", ") s else s))
                         (otherArgs stmt) false s3 in
            Some (popped (emit (Append ")") s4))
        end
  end.

End OperatorCall.

Module OperatorCallTerms.

Import Gen Framing Effects OperatorCall.

(** An operand in the parentheses [InsertArgWithParensIfNeeded] gives
    it. *)
Definition operand (self : Generator) (stmt : Expr) : list Out :=
  match IgnoreImplicit stmt with
  | UnaryOperator opCodeName _ _ =>
      if String.eqb opCodeName "*"
      then [Append "("] ++ emitted (InsertArgExpr self stmt) ++ [Append ")"]
      else emitted (InsertArgExpr self stmt)
  | _ => emitted (InsertArgExpr self stmt)
  end.

(** The callee is a name reference to a method. *)
Definition is_member_operator (stmt : CXXOperatorCallExpr) : bool :=
  match as_DeclRefExpr (IgnoreImpCasts (getCallee stmt)), calleeDecl stmt with
  | Some _, CXXMethodDecl => true
  | _, _ => false
  end.

(** The binary calls that are written in one piece: callee and both
    arguments are name references under their implicit casts. *)
Definition in_one_piece (stmt : CXXOperatorCallExpr) : bool :=
  match otherArgs stmt with
  | [arg1] =>
      match as_DeclRefExpr (IgnoreImpCasts (getCallee stmt)),
            as_DeclRefExpr (IgnoreImpCasts (getArg0 stmt)),
            as_DeclRefExpr (IgnoreImpCasts arg1) with
      | Some _, Some _, Some _ => true
      | _, _, _ => false
      end
  | _ => false
  end.

(** The calls that are dropped: the callee is, under what is implicit, a
    name reference to something that is neither a method nor a function. *)
Definition dropped (stmt : CXXOperatorCallExpr) : bool :=
  match as_DeclRefExpr (IgnoreImplicit (getCallee stmt)), calleeDecl stmt with
  | Some _, OtherDecl => true
  | _, _ => false
  end.

(** What the arguments behind the first one come to: a comma in front of
    each for an operator that is not a member, and the separator of
    [ForEachArg] between two of them. *)
Definition arguments (self : Generator) (stmt : CXXOperatorCallExpr) : Effect :=
  separated false
    (map (fun child =>
            and_then (if is_member_operator stmt then nothing else writes [Append ", "])
                     (of_expr self child))
         (otherArgs stmt)).

End OperatorCallTerms.

(* ===================================================================== *)
(** ** Using declarations                                                 *)
(* ===================================================================== *)

Module Using.

Import Gen.

(** A declaration context, as far as the [UsingDecl] overload looks at
    it.  [Unnamed] stands for the contexts that are no [NamedDecl] (the
    translation unit, a linkage specification).  For the specialization of
    a class template and for a function the pieces of text that
    [InsertTemplateArgs] and [GenerateFunctionPrototype] append to the
    buffer travel with the context. *)
Inductive DeclContext :=
| Unnamed
| ClassTemplateSpecializationDecl (getName : string) (templateArgs : list string)
| NamespaceDecl (getNameAsString : string) (isAnonymousNamespace isInline : bool)
| RecordDecl (getNameAsString : string) (getIdentifier : bool)
| FunctionDecl (prototype : list string)
| EnumDecl (getNameAsString : string) (isScoped : bool)
| OtherNamedDecl (getNameAsString : string).

(** [UsingDecl]: the context it is declared in followed by the parents of
    that context, innermost first and none for a null [getDeclContext()];
    whether it has a name; and the name. *)
Record UsingDecl := mkUsingDecl {
  getDeclContext  : option (DeclContext * list DeclContext);
  getDeclName     : bool;
  getNameAsString : string
}.

Definition isFunctionOrMethod (Ctx : DeclContext) : bool :=
  match Ctx with FunctionDecl _ => true | _ => false end.

Definition isa_NamedDecl (Ctx : DeclContext) : bool :=
  match Ctx with Unnamed => false | _ => true end.

(** The body of [for(const auto* DC : llvm::reverse(Contexts))]. *)
Definition context_body (s : State) (DC : DeclContext) : State :=
  match DC with
  | ClassTemplateSpecializationDecl name templateArgs =>
      let s1 := emit (Append name) s in
      let s2 := fold_left (fun s text => emit (Append text) s) templateArgs s1 in
      emit (Append "::") s2
  | NamespaceDecl name isAnonymousNamespace isInline =>
      if isAnonymousNamespace || isInline then s     (* continue *)
      else emit (Append "::") (emit (Append name) s)
  | RecordDecl name getIdentifier =>
      let s1 := if getIdentifier then emit (Append name) s else s in
      emit (Append "::") s1
  | FunctionDecl prototype =>
      emit (Append "::") (fold_left (fun s text => emit (Append text) s) prototype s)
  | EnumDecl name isScoped =>
      if negb isScoped then s                        (* continue *)
      else emit (Append "::") (emit (Append name) s)
  | OtherNamedDecl name => emit (Append "::") (emit (Append name) s)
  | Unnamed => s             (* not reached: no entry of Contexts is unnamed *)
  end.

(** [InsertArg(const UsingDecl* )]. *)
Definition InsertArg (stmt : UsingDecl) (s : State) : State :=
  let s1 := emit (Append "using ") s in
  let s2 :=
    match getDeclContext stmt with
    | Some (Ctx, parents) =>
        let isFunctionOrMethod := isFunctionOrMethod Ctx in
        let s' :=
          if negb isFunctionOrMethod then
            let Contexts := filter (fun c => isa_NamedDecl c = true) (Ctx :: parents) in
            fold_left context_body (rev Contexts) s1
          else s1 in
        (* a UsingDecl is no DecompositionDecl *)
        if isFunctionOrMethod || getDeclName stmt
        then emit (Append (getNameAsString stmt)) s'
        else s'
    | None => s1
    end in
  emit (AppendNewLine ";") s2.

End Using.

Module UsingTerms.

Import Gen Using.

(** The contexts that show in the qualification. *)
Definition shows (DC : DeclContext) : bool :=
  match DC with
  | Unnamed => false
  | NamespaceDecl _ isAnonymousNamespace isInline => negb (isAnonymousNamespace || isInline)
  | EnumDecl _ isScoped => isScoped
  | _ => true
  end.

(** What a context that shows is written as, without the [::] behind
    it. *)
Definition qualifier (DC : DeclContext) : list string :=
  match DC with
  | ClassTemplateSpecializationDecl name templateArgs => name :: templateArgs
  | NamespaceDecl name _ _ | EnumDecl name _ | OtherNamedDecl name => [name]
  | RecordDecl name getIdentifier => if getIdentifier then [name] else []
  | FunctionDecl prototype => prototype
  | Unnamed => []
  end.

(** The qualification of a name declared in a context with the given
    parents: the contexts that show, outermost first, each with [::]. *)
Definition qualification (contexts : list DeclContext) : list string :=
  flat_map (fun DC => qualifier DC ++ ["::"])
           (rev (filter (fun c => shows c = true) contexts)).

(** The pieces of text of a using declaration behind [using]. *)
Definition using_name (stmt : UsingDecl) : list string :=
  match getDeclContext stmt with
  | Some (Ctx, parents) =>
      (if isFunctionOrMethod Ctx then [] else qualification (Ctx :: parents))
      ++ (if isFunctionOrMethod Ctx || getDeclName stmt
          then [getNameAsString stmt] else [])
  | None => []
  end.

End UsingTerms.

(* ===================================================================== *)
(** ** Classes and their members                                          *)
(* ===================================================================== *)

Module Records.

Import Gen.

Inductive AccessSpecifier := AS_public | AS_protected | AS_private | AS_none.

(** [AccessToString]. *)
Definition AccessToString (access : AccessSpecifier) : string :=
  match access with
  | AS_public => "public"
  | AS_protected => "protected"
  | AS_private => "private"
  | AS_none => ""
  end.

(** [AccessToStringWithColon]. *)
Definition AccessToStringWithColon (access : AccessSpecifier) : string :=
  AccessToString access +:+ ": ".

(** [CXXBaseSpecifier]: the access and the name of the type. *)
Record CXXBaseSpecifier := mkBase {
  getAccessSpecifier : AccessSpecifier;
  baseTypeName       : string           (* GetName(base.getType()) *)
}.

(** The declarations met in a class.  [Plain] takes a declaration of the
    fragment as it is.  A record here is no specialization of a class
    template. *)
Inductive Member :=
| Plain (d : Decl)
| FieldDecl (typeName name : string)
| AccessSpecDecl (getAccess : AccessSpecifier)
| TypedefDecl (name : string) (underlyingType : QualType)
| StaticAssertDecl (isFailed : bool) (getAssertExpr : Expr) (getMessage : option Expr)
| UsingDecl (u : Using.UsingDecl)
| CXXRecordDecl (hasDefinition isClass : bool) (name : string)
                (bases : list CXXBaseSpecifier) (decls : list Member).

Definition isa_CXXRecordDecl (d : Member) : bool :=
  match d with CXXRecordDecl _ _ _ _ _ => true | _ => false end.

(** [InsertArg(const Decl* )] on a member, by class: the overloads for
    [FieldDecl], [AccessSpecDecl], [TypedefDecl], [StaticAssertDecl],
    [UsingDecl] and [CXXRecordDecl]; a declaration of the fragment goes to
    [InsertArgDecl]. *)
Fixpoint InsertArg (self : Generator) (stmt : Member) (s : State) {struct stmt} : State :=
  match stmt with
  | Plain d => InsertArgDecl self d s
  | FieldDecl typeName name =>
      emit (AppendNewLine (typeName +:+ " " +:+ name +:+ ";")) s
  | AccessSpecDecl access =>
      emit (AppendNewLine (AccessToStringWithColon access)) (emit (AppendNewLine "") s)
  | TypedefDecl name underlyingType =>
      emit (AppendNewLine ("using " +:+ name +:+ " = " +:+ GetName underlyingType +:+ ";")) s
  | StaticAssertDecl isFailed assertExpr message =>
      let s1 := if negb isFailed then emit (Append "/* PASSED: ") s
                else emit (Append "/* FAILED: ") s in
      let s2 := emit (Append "static_assert(") s1 in
      let s3 := InsertArgExpr self assertExpr s2 in
      let s4 := match message with
                | Some m => InsertArgExpr self m (emit (Append ", ") s3)
                | None => s3
                end in
      emit (AppendNewLine "); */") s4
  | UsingDecl u => Using.InsertArg u s
  | CXXRecordDecl hasDefinition isClass name bases decls =>
      (* skip classes/struct's without a definition *)
      if negb hasDefinition then s
      else
        let s1 := if isClass then emit (Append Lambda.kwClassSpace) s
                  else emit (Append "struct ") s in
        let s2 := emit (Append name) s1 in
        let s3 :=
          match bases with
          | [] => s2
          | _ =>
              ForEachArg (fun base =>
                            emit (Append (AccessToString (getAccessSpecifier base) +:+ " "
                                          +:+ baseTypeName base)))
                         bases false (emit (Append " : ") s2)
          end in
        let s4 := emit (AppendNewLine "") s3 in
        let s5 := emit OpenScope s4 in
        let s6 :=
          (fix loop (ds : list Member) (firstRecordDecl : bool) (s : State) : State :=
             match ds with
             | [] => s
             | d :: rest =>
                 if isa_CXXRecordDecl d && firstRecordDecl
                 then loop rest false s
                 else loop rest firstRecordDecl (InsertArg self d s)
             end) decls true s5 in
        let s7 := emit CloseScopeWithSemi s6 in
        emit (AppendNewLine "") (emit (AppendNewLine "") s7)
  end.

End Records.

Module RecordTerms.

Import Gen Framing Records.

(** The members without the first record among them. *)
Fixpoint written_members (firstRecordDecl : bool) (decls : list Member) : list Member :=
  match decls with
  | [] => []
  | d :: rest =>
      if isa_CXXRecordDecl d && firstRecordDecl
      then written_members false rest
      else d :: written_members firstRecordDecl rest
  end.

(** The head of a class: keyword, name and base classes. *)
Definition class_head (isClass : bool) (name : string) (bases : list CXXBaseSpecifier)
  : list Out :=
  [Append (if isClass then Lambda.kwClassSpace else "struct "); Append name]
  ++ match bases with
     | [] => []
     | _ =>
         [Append " : "]
         ++ emitted (ForEachArg
                       (fun base =>
                          emit (Append (AccessToString (getAccessSpecifier base) +:+ " "
                                        +:+ baseTypeName base)))
                       bases false)
     end.

End RecordTerms.

(* ===================================================================== *)
(** * Properties                                                          *)
(* ===================================================================== *)

(** ** The lambda scope stack: where a class definition goes              *)

Module LambdaStackSpec.

Import LambdaStack.







Lemma pop_push (stack : LambdaStackType) (h : LambdaHelper) :
  pop (push stack h) = stack.
Proof. unfold pop, push. apply removelast_last. Qed.

(** The destructor undoes the constructor. *)
Lemma dtor_ctor (stack : LambdaStackType) (ref : BufferRef) (k : LambdaCallerType.t) :
  LambdaScopeHandler_dtor (LambdaScopeHandler_ctor stack ref k) = stack.
Proof.
  unfold LambdaScopeHandler_dtor, LambdaScopeHandler_ctor.
  rewrite pop_push. unfold push. destruct stack; reflexivity.
Qed.




End LambdaStackSpec.

(** ** Character literals                                                 *)

Module CharLitSpec.

Import CharLit.
Local Open Scope Z_scope.

Lemma escape_None (value : Z) :
  ~ In value escaped_values -> escape value = None.
Proof.
  unfold escaped_values, escape; simpl; intros H.
  repeat match goal with
         | |- context [?a =? ?b] =>
             destruct (Z.eqb_spec a b); [exfalso; apply H; subst; tauto|]
         end.
  reflexivity.
Qed.

Lemma escape_Some (value : Z) :
  In value escaped_values -> exists text, escape value = Some text.
Proof.
  unfold escaped_values; simpl.
  intros [<-|[<-|[<-|[<-|[<-|[<-|[<-|[<-|[<-|[<-|[]]]]]]]]]]];
    eexists; reflexivity.
Qed.

(** C10.  A character literal whose value has no [case] label of its own
    and, after the masking step, is not below 256 or is not printable,
    leaves nothing but its encoding prefix in the output: nothing for an
    ordinary literal, [L], [u8], [u] or [U] otherwise; no quoted text
    follows. *)
Theorem HandleCharacterLiteral_value_omitted
    (stmt : CharacterLiteral) (out : OutputFormatHelper) :
  ~ In (getValue stmt) escaped_values ->
  (256 <= masked (getKind stmt) (getValue stmt) \/
   isPrintable (masked (getKind stmt) (getValue stmt) mod 256) = false) ->
  HandleCharacterLiteral stmt out =
    out ++ match getKind stmt with
           | Ascii => []
           | Wide => [Append "L"]
           | UTF8 => [Append "u8"]
           | UTF16 => [Append "u"]
           | UTF32 => [Append "U"]
           end.
Proof.
  intros Hesc Hval. unfold HandleCharacterLiteral.
  rewrite (escape_None _ Hesc).
  assert (Hcond : (masked (getKind stmt) (getValue stmt) <? 256)
                  && isPrintable (masked (getKind stmt) (getValue stmt) mod 256)
                  = false).
  { destruct Hval as [Hge|Hnp].
    - apply andb_false_iff; left. apply Z.ltb_ge, Hge.
    - apply andb_false_iff; right. exact Hnp. }
  rewrite Hcond. unfold prefix.
  destruct (getKind stmt); [symmetry; apply app_nil_r | reflexivity ..].
Qed.

(** A wide lambda sign, [L'\x3bb'], comes out as the bare prefix. *)
Lemma HandleCharacterLiteral_value_omitted_witness :
  ~ In 955 escaped_values /\
  (256 <= masked Wide 955 \/ isPrintable (masked Wide 955 mod 256) = false) /\
  HandleCharacterLiteral (mkCharLit Wide 955) [] = [Append "L"].
Proof.
  assert (H1 : ~ In (getValue (mkCharLit Wide 955)) escaped_values).
  { simpl. intros [H|[H|[H|[H|[H|[H|[H|[H|[H|[H|[]]]]]]]]]]]; discriminate H. }
  assert (H2 : 256 <= masked (getKind (mkCharLit Wide 955)) (getValue (mkCharLit Wide 955)) \/
               isPrintable (masked (getKind (mkCharLit Wide 955))
                                   (getValue (mkCharLit Wide 955)) mod 256) = false).
  { left. vm_compute. discriminate. }
  split; [exact H1|]. split; [exact H2|].
  exact (HandleCharacterLiteral_value_omitted (mkCharLit Wide 955) [] H1 H2).
Defined.

(** The escape table and two printable characters, as the code has them. *)
Example HandleCharacterLiteral_newline :
  HandleCharacterLiteral (mkCharLit Ascii 10) [] = [Append "'\n'"].
Proof. reflexivity. Qed.

Example HandleCharacterLiteral_letter :
  HandleCharacterLiteral (mkCharLit UTF16 65) [] = [Append "u"; Append "'A'"].
Proof. reflexivity. Qed.

(** A sign-extended plain [char], for instance [(char)0xE9], is masked
    down to its low byte and then found not printable. *)
Example HandleCharacterLiteral_sign_extended :
  masked Ascii 4294967273 = 233 /\
  HandleCharacterLiteral (mkCharLit Ascii 4294967273) [] = [].
Proof. split; reflexivity. Qed.

End CharLitSpec.

(** ** Synthesized identifiers                                            *)

Module NamesSpec.

Import Names.

Lemma append_length (a b : string) :
  String.length (a +:+ b) = String.length a + String.length b.
Proof. induction a as [|c a IH]; simpl; [reflexivity | rewrite IH; reflexivity]. Qed.

(** A common ending can be taken off both sides. *)
Lemma append_inv_tail (a b t : string) : a +:+ t = b +:+ t -> a = b.
Proof.
  revert b. induction a as [|c a IH]; intros [|d b] H; simpl in H.
  - reflexivity.
  - exfalso. apply (f_equal String.length) in H.
    rewrite !append_length in H. simpl in H. lia.
  - exfalso. apply (f_equal String.length) in H.
    rewrite !append_length in H. simpl in H. lia.
  - injection H as -> H. f_equal. apply IH, H.
Qed.

Lemma append_inv_head (p a b : string) : p +:+ a = p +:+ b -> a = b.
Proof.
  induction p as [|c p IH]; simpl; intros H; [exact H|].
  injection H as H. apply IH, H.
Qed.

Lemma to_string_inj (n m : nat) : to_string n = to_string m -> n = m.
Proof. unfold to_string. apply pretty_nat_inj. Qed.

Lemma funcPtrName_inj (l1 l2 : nat) : funcPtrName l1 = funcPtrName l2 -> l1 = l2.
Proof.
  unfold funcPtrName. intros H.
  apply append_inv_head, append_inv_tail in H. apply to_string_inj, H.
Qed.

End NamesSpec.

(** ** Closures: captures, constructor and construction text             *)

Module LambdaSpec.

Import Lambda.

(** A lambda without captures never enters the capture loop. *)
Lemma no_captures_locals (lambda : LambdaExpr)
    (lambdaHelper : LambdaStack.LambdaHelper) (buf : OutputFormatHelper)
    (ds : list Diagnostic) :
  captures lambda = [] ->
  locals (HandleLambdaExpr lambda lambdaHelper buf ds) =
    mkLocals (("public: " +:+ lambdaTypeName lambda +:+ "(") +:+ ")") ": " "{}"
             true false
             (buf ++ [AppendNewLine "";
                      AppendNewLine (kwClassSpace +:+ lambdaTypeName lambda);
                      OpenScope] ++ methods lambda)
             ds.
Proof.
  intros Hc. unfold HandleLambdaExpr, capture_size. rewrite Hc. reflexivity.
Qed.

(** Without captures [HandleLambdaExpr] writes no constructor: after the
    method section nothing but the closing of the class scope follows, and
    the construction text is the empty initializer list, put behind the
    object name in the buffer or handed to the record on top of the stack. *)
Lemma HandleLambdaExpr_no_captures (lambda : LambdaExpr)
    (lambdaHelper : LambdaStack.LambdaHelper) (buf : OutputFormatHelper)
    (ds : list Diagnostic) :
  captures lambda = [] ->
  let r := HandleLambdaExpr lambda lambdaHelper buf ds in
  let deferred :=
    match LambdaStack.callerType lambdaHelper with
    | LambdaCallerType.VarDecl | LambdaCallerType.CallExpr => true
    | _ => false
    end in
  ctorRequired (locals r) = false /\
  inits (locals r) = "{}" /\
  written r =
    buf ++ [AppendNewLine "";
            AppendNewLine ("class " +:+ lambdaTypeName lambda);
            OpenScope]
        ++ methods lambda
        ++ [CloseScope NNL_No]
        ++ (if deferred then [] else [Append (" " +:+ lambdaName lambda +:+ "{}")])
        ++ [AppendNewLine ";"; AppendNewLine ""] /\
  LambdaStack.inits (helper r) =
    (if deferred then LambdaStack.inits lambdaHelper +:+ "{}"
     else LambdaStack.inits lambdaHelper) /\
  diags r = ds.
Proof.
  intros Hc r deferred. subst r deferred.
  pose proof (no_captures_locals lambda lambdaHelper buf ds Hc) as HL.
  rewrite HL. simpl.
  split; [reflexivity|]. split; [reflexivity|].
  unfold HandleLambdaExpr, capture_size. rewrite Hc. simpl.
  destruct (LambdaStack.callerType lambdaHelper); simpl;
    rewrite <- ?app_assoc; simpl; repeat split; reflexivity.
Qed.

(** [return [] { return 1; };] as an instance. *)
Example HandleLambdaExpr_no_captures_return :
  let lambda := mkLambdaExpr "__lambda_3_12" "__lambda_3_12"
                  [AppendNewLine "public: inline int operator()() const"] [] in
  let top := LambdaStack.mkLambdaHelper LambdaCallerType.ReturnStmt 0 "" in
  captures lambda = [] /\
  written (HandleLambdaExpr lambda top [] []) =
    [AppendNewLine ""; AppendNewLine "class __lambda_3_12"; OpenScope;
     AppendNewLine "public: inline int operator()() const";
     CloseScope NNL_No; Append " __lambda_3_12{}";
     AppendNewLine ";"; AppendNewLine ""].
Proof.
  intros lambda top. split; [reflexivity|].
  exact (proj1 (proj2 (proj2
    (HandleLambdaExpr_no_captures lambda top [] [] eq_refl)))).
Qed.






(** [[&a]] with [int a[3]]: the declarator form, and no [&] behind it. *)
Example capture_array_by_reference :
  let arr_t := mkQualType "int [3]" (fun v => "int " +:+ v +:+ "[3]")
                          true false false false None in
  let c := mkCapture LCK_ByRef (mkCapturedVar "a" arr_t false) in
  let ci := mkCaptureInit arr_t (mkLoc 4 14) "a" in
  let st := mkLocals "public: __lambda_4_13(" ": " "{" true false [] [] in
  outputFormatHelper (capture_body st (c, ci)) =
    [AppendNewLine ""; Append "int (&a)[3]"; AppendNewLine ";"] /\
  ctor (capture_body st (c, ci)) = "public: __lambda_4_13(int (&_a)[3]".
Proof. split; reflexivity. Qed.

End LambdaSpec.

(** ** Closures: from the scope handler to the class definition          *)

Module ClosureSpec.

Import Lambda LambdaLowering ClosureTerms.

Lemma capture_body_relocate (p : OutputFormatHelper) (d : list Diagnostic)
    (st : Locals) (ci : LambdaCapture * CaptureInit) :
  capture_body (relocate p d st) ci = relocate p d (capture_body st ci).
Proof.
  destruct ci as [c captureInit]. unfold capture_body, relocate.
  cbn [ctor ctorInits inits first ctorRequired outputFormatHelper Lambda.diagnostics].
  destruct (negb (capturesVariable c) && negb (capturesThis c)).
  - destruct (negb (capturesVLAType c)); unfold Error;
      cbn [ctor ctorInits inits first ctorRequired outputFormatHelper Lambda.diagnostics];
      rewrite <- ?app_assoc; reflexivity.
  - repeat match goal with
           | |- context [if ?b then _ else _] => destruct b
           end;
      cbn [ctor ctorInits inits first ctorRequired outputFormatHelper Lambda.diagnostics];
      rewrite <- ?app_assoc; reflexivity.
Qed.

Lemma captures_relocate (p : OutputFormatHelper) (d : list Diagnostic)
    (l : list (LambdaCapture * CaptureInit)) (st : Locals) :
  fold_left capture_body l (relocate p d st) = relocate p d (fold_left capture_body l st).
Proof.
  revert st. induction l as [|ci rest IH]; intros st; [reflexivity|].
  simpl. rewrite capture_body_relocate. apply IH.
Qed.

Lemma HandleLambdaExpr_appends (lambda : LambdaExpr)
    (lambdaHelper : LambdaStack.LambdaHelper) (buf : OutputFormatHelper)
    (ds : list Diagnostic) :
  written (HandleLambdaExpr lambda lambdaHelper buf ds) =
    buf ++ class_definition lambda (LambdaStack.callerType lambdaHelper).
Proof.
  unfold class_definition, HandleLambdaExpr.
  cbn [written LambdaStack.callerType].
  set (name := lambdaTypeName lambda).
  set (head := [AppendNewLine ""; AppendNewLine (kwClassSpace +:+ name); OpenScope]
               ++ methods lambda).
  assert (Hstart : forall (tail b : list Out) (dd : list Diagnostic),
             mkLocals ("public: " +:+ name +:+ "(") ": " "{" true false
                      (b ++ tail) dd
             = relocate b dd
                 (mkLocals ("public: " +:+ name +:+ "(") ": " "{" true false tail [])).
  { intros tail b dd. unfold relocate. cbn. rewrite app_nil_r. reflexivity. }
  destruct (Nat.eqb (capture_size lambda) 0).
  - rewrite (Hstart head buf ds), (Hstart head [] []), !captures_relocate.
    set (st1 := fold_left capture_body (captures lambda) _).
    unfold relocate.
    cbn [ctor ctorInits inits first ctorRequired outputFormatHelper Lambda.diagnostics].
    destruct (ctorRequired st1), (LambdaStack.callerType lambdaHelper);
      cbn [app]; rewrite <- ?app_assoc; reflexivity.
  - rewrite <- !(app_assoc _ head).
    rewrite (Hstart (head ++ [AppendNewLine ""; Append "private:"]) buf ds),
            (Hstart (head ++ [AppendNewLine ""; Append "private:"]) [] []),
            !captures_relocate.
    set (st1 := fold_left capture_body (captures lambda) _).
    unfold relocate.
    cbn [ctor ctorInits inits first ctorRequired outputFormatHelper Lambda.diagnostics].
    destruct (ctorRequired st1), (LambdaStack.callerType lambdaHelper);
      cbn [app]; rewrite <- ?app_assoc; reflexivity.
Qed.

Lemma write_same (b : Buffers) (ref : LambdaStack.BufferRef) (content : OutputFormatHelper) :
  write b ref content ref = content.
Proof. unfold write. rewrite Nat.eqb_refl. reflexivity. Qed.





Lemma back_set_back (stack : LambdaStack.LambdaStackType) (h : LambdaStack.LambdaHelper) :
  LambdaStack.back (set_back stack h) = Some h.
Proof. unfold LambdaStack.back, set_back. apply last_snoc. Qed.




(** The use site of a lambda expression without captures, lowered under a
    record with no pending text: the generator's own buffer takes the name
    of the object, and the empty initializer list behind it when the
    trigger is a variable declaration or a call (otherwise the list is
    already in the class buffer, behind the closing brace). *)
Lemma InsertArg_LambdaExpr_use_site (stmt : LambdaExpr) (g : Generator)
    (top : LambdaStack.LambdaHelper) :
  captures stmt = [] ->
  LambdaStack.back (mLambdaStack g) = Some top ->
  LambdaStack.inits top = "" ->
  let deferred :=
    match LambdaStack.callerType top with
    | LambdaCallerType.VarDecl | LambdaCallerType.CallExpr => true
    | _ => false
    end in
  buffers (InsertArg_LambdaExpr stmt g) (mOutputFormatHelper g) =
    write (buffers g) (LambdaStack.buffer top)
          (buffers g (LambdaStack.buffer top)
           ++ class_definition stmt (LambdaStack.callerType top))
          (mOutputFormatHelper g)
    ++ [Append (lambdaName stmt)]
    ++ (if deferred then [Append "{}"] else []).
Proof.
  intros Hc Hback Hinits deferred. subst deferred.
  unfold InsertArg_LambdaExpr. rewrite Hback. cbv zeta.
  unfold HandleLambdaExpr_back, insertInits.
  cbn [buffers mOutputFormatHelper mLambdaStack diagnostics].
  rewrite back_set_back, HandleLambdaExpr_appends.
  pose proof (LambdaSpec.no_captures_locals stmt top
                (buffers g (LambdaStack.buffer top)) (diagnostics g) Hc) as HL.
  assert (Hhelper :
            LambdaStack.inits
              (helper (HandleLambdaExpr stmt top (buffers g (LambdaStack.buffer top))
                                        (diagnostics g)))
            = match LambdaStack.callerType top with
              | LambdaCallerType.VarDecl | LambdaCallerType.CallExpr => "{}"
              | _ => ""
              end).
  { unfold HandleLambdaExpr, capture_size. rewrite Hc. cbn [helper fold_left inits].
    destruct (LambdaStack.callerType top); cbn [LambdaStack.inits]; rewrite Hinits;
      reflexivity. }
  rewrite Hhelper.
  destruct (LambdaStack.callerType top);
    cbn [String.eqb Ascii.eqb Bool.eqb buffers mOutputFormatHelper];
    unfold append; rewrite ?write_same, ?app_nil_r, <- ?app_assoc; reflexivity.
Qed.

(** C2.  A lambda expression with no captures is written as a class
    without a constructor: after the method section only the closing of the
    class scope follows.  The construction text is the empty initializer
    list: it stands behind the object name in the class buffer or, when the
    trigger is a variable declaration or a call, is written at the use
    site, behind the name of the object. *)
Theorem lambda_without_captures (stmt : LambdaExpr) (g : Generator)
    (top : LambdaStack.LambdaHelper) :
  captures stmt = [] ->
  LambdaStack.back (mLambdaStack g) = Some top ->
  let r := HandleLambdaExpr stmt top (buffers g (LambdaStack.buffer top))
                            (diagnostics g) in
  let deferred :=
    match LambdaStack.callerType top with
    | LambdaCallerType.VarDecl | LambdaCallerType.CallExpr => true
    | _ => false
    end in
  ctorRequired (locals r) = false /\
  inits (locals r) = "{}" /\
  written r =
    buffers g (LambdaStack.buffer top)
    ++ [AppendNewLine ""; AppendNewLine ("class " +:+ lambdaTypeName stmt); OpenScope]
    ++ methods stmt
    ++ [CloseScope NNL_No]
    ++ (if deferred then [] else [Append (" " +:+ lambdaName stmt +:+ "{}")])
    ++ [AppendNewLine ";"; AppendNewLine ""] /\
  (LambdaStack.inits top = "" ->
   buffers (InsertArg_LambdaExpr stmt g) (mOutputFormatHelper g) =
     write (buffers g) (LambdaStack.buffer top) (written r) (mOutputFormatHelper g)
     ++ [Append (lambdaName stmt)]
     ++ (if deferred then [Append "{}"] else [])).
Proof.
  intros Hc Hback r deferred. subst r deferred.
  destruct (LambdaSpec.HandleLambdaExpr_no_captures stmt top
              (buffers g (LambdaStack.buffer top)) (diagnostics g) Hc)
    as (H1 & H2 & H3 & _).
  split; [exact H1|]. split; [exact H2|]. split; [exact H3|].
  intros Hinits.
  rewrite (InsertArg_LambdaExpr_use_site stmt g top Hc Hback Hinits).
  rewrite HandleLambdaExpr_appends. reflexivity.
Qed.

(** [auto f = [] { return 1; };]: the class goes to the buffer of the
    declaration's record, the use site reads [__lambda_3_12{}]. *)
Lemma lambda_without_captures_witness :
  let stmt := mkLambdaExpr "__lambda_3_12" "__lambda_3_12"
                [AppendNewLine "public: inline int operator()() const"] [] in
  let top := LambdaStack.mkLambdaHelper LambdaCallerType.VarDecl 1 "" in
  let g := mkGenerator 0 [top] (fun _ => []) [] in
  captures stmt = [] /\
  LambdaStack.back (mLambdaStack g) = Some top /\
  buffers (InsertArg_LambdaExpr stmt g) 1 =
    [AppendNewLine ""; AppendNewLine "class __lambda_3_12"; OpenScope;
     AppendNewLine "public: inline int operator()() const";
     CloseScope NNL_No; AppendNewLine ";"; AppendNewLine ""] /\
  buffers (InsertArg_LambdaExpr stmt g) 0 =
    [Append "__lambda_3_12"; Append "{}"].
Proof.
  intros stmt top g.
  split; [reflexivity|]. split; [reflexivity|].
  split; [reflexivity|].
  exact (proj2 (proj2 (proj2 (lambda_without_captures stmt g top eq_refl eq_refl)))
               eq_refl).
Defined.

End ClosureSpec.

(** ** The generator only ever appends                                    *)

Module GenFacts.

Import Gen.
Export Framing.

Lemma framed_eq (f : State -> State) :
  framed f ->
  forall s, f s = mkState (mOutputFormatHelper s ++ emitted f) (mLambdaStack s)
                          (diagnostics s ++ reported f).
Proof.
  intros (E & D & H) s. unfold emitted, reported.
  rewrite (H initial), (H s). reflexivity.
Qed.

Lemma framed_ext (f g : State -> State) :
  (forall s, f s = g s) -> framed g -> framed f.
Proof. intros Hfg (E & D & H). exists E, D. intros s. rewrite Hfg. apply H. Qed.

Lemma framed_id : framed (fun s => s).
Proof. exists [], []. intros [o st d]; simpl. rewrite !app_nil_r. reflexivity. Qed.

Lemma framed_emit (o : Out) : framed (emit o).
Proof. exists [o], []. intros s. unfold emit. rewrite app_nil_r. reflexivity. Qed.

Lemma framed_report (loc : SourceLocation) (msg : string) : framed (report loc msg).
Proof.
  exists [], [mkDiag loc msg]. intros s. unfold report, Error.
  rewrite app_nil_r. reflexivity.
Qed.

Lemma framed_seq (f g : State -> State) :
  framed f -> framed g -> framed (fun s => g (f s)).
Proof.
  intros (E1 & D1 & H1) (E2 & D2 & H2). exists (E1 ++ E2), (D1 ++ D2).
  intros s. rewrite H1, H2. simpl. rewrite !app_assoc. reflexivity.
Qed.

Lemma framed_TODO (loc : SourceLocation) : framed (TODO loc).
Proof.
  unfold TODO. apply (framed_seq (emit (Append TODO_marker)) (report loc "TODO"));
    [apply framed_emit | apply framed_report].
Qed.

Lemma framed_scope (k : LambdaCallerType.t) (f : State -> State) :
  framed f -> framed (LAMBDA_SCOPE_HELPER k f).
Proof.
  intros (E & D & H). exists E, D. intros s. unfold LAMBDA_SCOPE_HELPER.
  rewrite H. simpl. rewrite LambdaStackSpec.dtor_ctor. reflexivity.
Qed.

Lemma framed_on_same_buffer (f : State -> State) :
  framed f -> framed (on_same_buffer f).
Proof.
  intros (E & D & H). exists E, D. intros s. unfold on_same_buffer.
  rewrite H. reflexivity.
Qed.

Lemma framed_wrap (b : BraceKind) (f : State -> State) (sp : AddSpaceAtTheEnd) :
  framed f -> framed (WrapInParensOrCurlys b f sp).
Proof.
  intros Hf. unfold WrapInParensOrCurlys.
  destruct b, sp;
    repeat first [ apply framed_emit | exact Hf
                 | match goal with
                   | |- framed (fun s => ?g (@?h s)) => apply (framed_seq h g)
                   end ].
Qed.

Lemma framed_ForEachArg {A : Type} (lambda : A -> State -> State) (arguments : list A) :
  Forall (fun a => framed (lambda a)) arguments ->
  forall needsComma, framed (ForEachArg lambda arguments needsComma).
Proof.
  induction 1 as [|a rest Ha Hrest IH]; intros needsComma.
  - apply framed_id.
  - apply (framed_ext _ (fun s => ForEachArg lambda rest true
                                   (lambda a (if needsComma then emit (Append ", ") s else s))));
      [reflexivity|].
    apply (framed_seq (fun s => lambda a (if needsComma then emit (Append ", ") s else s))
                      (ForEachArg lambda rest true)); [|apply IH].
    destruct needsComma.
    + apply (framed_seq (emit (Append ", ")) (lambda a)); [apply framed_emit | exact Ha].
    + exact Ha.
Qed.

Lemma framed_fold_left {A : Type} (step : State -> A -> State) (l : list A) :
  Forall (fun a => framed (fun s => step s a)) l ->
  framed (fun s => fold_left step l s).
Proof.
  induction 1 as [|a rest Ha Hrest IH]; simpl.
  - apply framed_id.
  - apply (framed_seq (fun s => step s a) (fun s => fold_left step rest s) Ha IH).
Qed.

Lemma HandleCharacterLiteral_appends (c : CharLit.CharacterLiteral) (out : OutputFormatHelper) :
  CharLit.HandleCharacterLiteral c out = out ++ CharLit.HandleCharacterLiteral c [].
Proof.
  unfold CharLit.HandleCharacterLiteral, CharLit.prefix.
  destruct (CharLit.getKind c), (CharLit.escape (CharLit.getValue c));
    repeat match goal with |- context [if ?b then _ else _] => destruct b end;
    simpl; rewrite <- ?app_assoc, ?app_nil_r; reflexivity.
Qed.

Lemma framed_CharacterLiteral (c : CharLit.CharacterLiteral) :
  framed (fun s => mkState (CharLit.HandleCharacterLiteral c (mOutputFormatHelper s))
                           (mLambdaStack s) (diagnostics s)).
Proof.
  exists (CharLit.HandleCharacterLiteral c []), []. intros s.
  rewrite HandleCharacterLiteral_appends, app_nil_r. reflexivity.
Qed.

Lemma list_all_Forall {A : Type} (P : A -> Prop) (l : list A) :
  list_all A P l -> Forall P l.
Proof. induction 1; constructor; assumption. Qed.

(** Splitting a routine at its last step. *)
Ltac framed_split :=
  lazymatch goal with
  | |- framed (fun s => s) => apply framed_id
  | |- framed (fun s => ?g (@?h s)) => apply (framed_seq h g)
  end.

Ltac framed_basic :=
  first [ apply framed_emit | apply framed_report | apply framed_TODO
        | apply framed_id | apply framed_CharacterLiteral | assumption ].

Ltac expr_dispatch :=
  cbn [InsertArgExpr dispatch isa overload
       isa_DeclRefExpr isa_IntegerLiteral isa_CharacterLiteral isa_CXXBoolLiteralExpr
       isa_CXXNullPtrLiteralExpr isa_CXXThisExpr isa_BinaryOperator isa_UnaryOperator
       isa_ConditionalOperator isa_ArraySubscriptExpr isa_MemberExpr isa_ParenExpr
       isa_ImplicitCastExpr isa_ExprWithCleanups isa_MaterializeTemporaryExpr
       isa_CallExpr isa_OpaqueValueExpr isa_ArrayInitLoopExpr isa_ArrayInitIndexExpr].

(** Every expression is lowered by appending, whatever the generator. *)
Lemma InsertArgExpr_framed (stmt : Expr) :
  forall self : Generator, framed (InsertArgExpr self stmt).
Proof.
  induction stmt as
    [ d | value builtin | c | value | | | op lhs IHl rhs IHr | op post sub IH
    | cond IHc lhs IHl rhs IHr | lhs IHl rhs IHr | base IH isArrow name
    | sub IH | sub IH | sub IH | sub IH | callee IHf args IHargs
    | src IHsrc | common IHcommon sub IH size | loc | loc operand IHop ];
    intros self;
    (eapply framed_ext; [intros s; expr_dispatch; reflexivity|]).
  - destruct self; try framed_basic.
    destruct (_ || _); [framed_split|]; framed_basic.
  - destruct builtin; [framed_split|]; framed_basic.
  - framed_basic.
  - framed_basic.
  - framed_basic.
  - destruct self; framed_basic.
  - apply framed_scope. framed_split; [framed_split|]; [apply IHl | framed_basic | apply IHr].
  - destruct post; cbn [negb].
    + framed_split; [apply IH | framed_basic].
    + framed_split; [framed_basic | apply IH].
  - repeat (framed_split; [|first [framed_basic | apply IHr | apply IHl]]). apply IHc.
  - repeat (framed_split; [|first [framed_basic | apply IHr]]). apply IHl.
  - framed_split; [apply IH | framed_basic].
  - apply framed_wrap, IH.
  - apply IH.
  - apply IH.
  - apply IH.
  - apply framed_scope. framed_split; [apply IHf|].
    apply framed_wrap, framed_ForEachArg.
    apply list_all_Forall in IHargs.
    eapply Forall_impl; [exact IHargs|]. intros a Ha. apply Ha.
  - destruct src as [e|]; [|apply framed_id].
    inversion IHsrc; subst. auto.
  - apply framed_wrap, framed_ForEachArg.
    apply Forall_forall. intros i _. apply framed_on_same_buffer, IH.
  - destruct self; framed_basic.
  - framed_basic.
Qed.

Lemma InsertArgExprPtr_framed (self : Generator) (p : option Expr) :
  framed (InsertArgExprPtr self p).
Proof.
  destruct p as [e|]; [apply InsertArgExpr_framed|].
  apply (framed_ext _ (fun s => s)); [reflexivity | apply framed_id].
Qed.

Ltac framed_auto :=
  repeat first
    [ framed_basic
    | apply InsertArgExpr_framed
    | apply InsertArgExprPtr_framed
    | apply framed_scope
    | apply framed_on_same_buffer
    | apply framed_wrap
    | framed_split ].

Lemma HandleLocalStaticNonTrivialClass_framed (v : VarInfo) :
  framed (HandleLocalStaticNonTrivialClass v).
Proof. unfold HandleLocalStaticNonTrivialClass. cbv zeta. framed_auto. Qed.

Lemma binding_body_framed (self : Generator) (tmp : string) (isRefToObject : bool)
    (bindingDecl : BindingDecl) :
  framed (fun s => binding_body self tmp isRefToObject s bindingDecl).
Proof.
  unfold binding_body.
  destruct (getBinding bindingDecl) as [binding|]; [|apply framed_id].
  cbv zeta.
  destruct (getHoldingVar bindingDecl) as [[e|]|].
  - framed_auto.
  - destruct binding; framed_auto.
  - destruct binding; framed_auto.
Qed.

Lemma InsertArgDecompositionDecl_framed (self : Generator) (v : VarInfo)
    (init : Expr) (bindings : list BindingDecl) :
  framed (InsertArgDecompositionDecl self v init bindings).
Proof.
  unfold InsertArgDecompositionDecl. cbv zeta.
  apply (framed_seq
           (fun s => emit (AppendNewLine ";")
                       (InsertArgExpr self init
                          (emit (Append (GetTypeNameAsParameter (varType v)
                                           (tmpVarName (FindDeclRef init) v) +:+ " = "))
                                match FindDeclRef init with
                                | Some _ => s
                                | None => report (varLocStart v) ("unknown decl" +:+ Lambda.LF) s
                                end)))
           (fun s => fold_left (binding_body self (tmpVarName (FindDeclRef init) v)
                                             (IsReference (varType v))) bindings s)).
  - destruct (FindDeclRef init); framed_auto.
  - apply framed_fold_left, Forall_forall. intros b _. apply binding_body_framed.
Qed.

Lemma InsertArgVarDecl_framed (self : Generator) (stmt : VarDecl) :
  framed (InsertArgVarDecl self stmt).
Proof.
  unfold InsertArgVarDecl. apply framed_scope.
  destruct stmt as [v init|v init bindings].
  - destruct (IsTrivialStaticClassVarDecl v);
      [apply HandleLocalStaticNonTrivialClass_framed|].
    cbv zeta.
    destruct (isFunctionPointerType (varType v)), init, (isNRVOVariable v); framed_auto.
  - apply InsertArgDecompositionDecl_framed.
Qed.

Lemma InsertArgDecl_framed (self : Generator) (stmt : Decl) :
  framed (InsertArgDecl self stmt).
Proof.
  destruct stmt as [vd|name t|loc]; unfold InsertArgDecl; cbn.
  - apply InsertArgVarDecl_framed.
  - unfold InsertArgTypeAliasDecl. framed_auto.
  - framed_auto.
Qed.

Lemma InsertArgDeclStmt_framed (self : Generator) (decls : list Decl) :
  framed (InsertArgDeclStmt self decls).
Proof.
  unfold InsertArgDeclStmt.
  apply (framed_fold_left (fun s decl => InsertArgDecl self decl s)), Forall_forall.
  intros d _. apply InsertArgDecl_framed.
Qed.

Ltac stmt_dispatch :=
  cbn [InsertArgStmt dispatch isa overload
       isa_Expr isa_NullStmt isa_CompoundStmt isa_DeclStmt isa_ReturnStmt
       isa_BreakStmt isa_WhileStmt isa_CXXForRangeStmt].

Lemma HandleCompoundStmt_framed (self : Generator) (body : list Stmt) :
  Forall (fun item => framed (InsertArgStmt self item)) body ->
  framed (HandleCompoundStmt self body).
Proof.
  intros H. unfold HandleCompoundStmt.
  apply (framed_fold_left
           (fun s item => let s1 := InsertArgStmt self item s in
                          if negb (isa_DeclStmt item)
                          then emit (AppendNewLine ";") s1 else s1)).
  eapply Forall_impl; [exact H|]. intros item Hitem. cbv zeta.
  destruct (negb (isa_DeclStmt item)); [framed_split; [exact Hitem|framed_basic]|].
  exact Hitem.
Qed.

(** Every statement is lowered by appending; for a block this also
    holds of its items without the braces, which is how a range-based for
    takes its body. *)
Lemma InsertArgStmt_framed_items (stmt : Stmt) :
  (forall self : Generator, framed (InsertArgStmt self stmt)) /\
  (forall (self : Generator) (items : list Stmt),
      stmt = CompoundStmt items -> framed (HandleCompoundStmt self items)).
Proof.
  induction stmt as
    [ e | | body IHbody | decls | retValue | | cond body IHbody
    | rangeStmt beginStmt endStmt cond inc loopVariable body IHbody | loc ];
    (split; [intros self | intros self items Heq; try discriminate Heq]);
    try (eapply framed_ext; [intros s; stmt_dispatch; reflexivity|]).
  - apply InsertArgExpr_framed.
  - framed_basic.
  - framed_split; [framed_split|]; [framed_basic| |framed_basic].
    apply (HandleCompoundStmt_framed self body).
    apply list_all_Forall in IHbody.
    eapply Forall_impl; [exact IHbody|]. intros item H. apply H.
  - injection Heq as <-.
    apply (HandleCompoundStmt_framed self body).
    apply list_all_Forall in IHbody.
    eapply Forall_impl; [exact IHbody|]. intros item H. apply H.
  - apply InsertArgDeclStmt_framed.
  - apply framed_scope. destruct retValue; framed_auto.
  - framed_basic.
  - destruct body as [b|].
    + inversion IHbody; subst.
      match goal with H : _ /\ _ |- _ => destruct H as [Hb _] end.
      framed_split; [|apply Hb]. framed_auto.
    + framed_auto.
  - destruct IHbody as [Hbody Hitems]. specialize (Hbody self).
    destruct body; cbn [isa_CompoundStmt isa_NullStmt negb andb];
      repeat first
        [ exact Hbody
        | exact (Hitems self _ eq_refl)
        | framed_basic
        | apply InsertArgVarDecl_framed
        | apply InsertArgExprPtr_framed
        | apply InsertArgDeclStmt_framed
        | framed_split ].
  - framed_basic.
Qed.

Lemma InsertArgStmt_framed (self : Generator) (stmt : Stmt) :
  framed (InsertArgStmt self stmt).
Proof. apply InsertArgStmt_framed_items. Qed.

Lemma HandleCompoundStmt_framed_all (self : Generator) (body : list Stmt) :
  framed (HandleCompoundStmt self body).
Proof.
  apply HandleCompoundStmt_framed, Forall_forall.
  intros item _. apply InsertArgStmt_framed.
Qed.

(** [FindDeclRef] is the search the source spells out: the node itself,
    the source of the common expression of an array-initialization loop,
    then the first hit among the children, from left to right. *)
Lemma FindDeclRef_children (stmt : Expr) :
  FindDeclRef stmt =
    match stmt with
    | DeclRefExpr dref => Some dref
    | ArrayInitLoopExpr (Some (DeclRefExpr arrayDeclRefExpr)) _ _ => Some arrayDeclRefExpr
    | _ => first_found (map FindDeclRef (children stmt))
    end.
Proof.
  destruct stmt as
    [ d | value builtin | c | value | | | op lhs rhs | op post sub
    | cond lhs rhs | lhs rhs | base isArrow name
    | sub | sub | sub | sub | callee args
    | src | common sub size | loc | loc operand ];
    cbn [FindDeclRef children map first_found]; try reflexivity.
  - destruct (FindDeclRef lhs), (FindDeclRef rhs); reflexivity.
  - destruct (FindDeclRef sub); reflexivity.
  - destruct (FindDeclRef cond), (FindDeclRef lhs), (FindDeclRef rhs); reflexivity.
  - destruct (FindDeclRef lhs), (FindDeclRef rhs); reflexivity.
  - destruct (FindDeclRef base); reflexivity.
  - destruct (FindDeclRef sub); reflexivity.
  - destruct (FindDeclRef sub); reflexivity.
  - destruct (FindDeclRef sub); reflexivity.
  - destruct (FindDeclRef sub); reflexivity.
  - destruct (FindDeclRef callee); [reflexivity|].
    induction args as [|a rest IH]; [reflexivity|].
    cbn [map first_found]. destruct (FindDeclRef a); [reflexivity | exact IH].
  - destruct common as [[]|]; try reflexivity;
      destruct (FindDeclRef sub); reflexivity.
  - destruct operand as [e|]; [|reflexivity].
    cbn [map first_found]. destruct (FindDeclRef e); reflexivity.
Qed.

End GenFacts.

(** ** Range-based for                                                    *)

Module RangeForSpec.

Import Gen GenFacts.



(** [for (auto& e : v) sum += e;] with the declarations the front end
    resolved for it. *)
Example range_for_over_vector :
  let ty (n : string) := mkQualType n (fun v => n +:+ " " +:+ v)
                                    false false false false None in
  let var (n : string) (t : QualType) (init : Expr) :=
    PlainVarDecl (mkVarInfo n t (mkLoc 3 1) false false false false false false)
                 (Some init) in
  let ref (n : string) := DeclRefExpr (mkDeclRef n n true) in
  let stmt :=
    CXXForRangeStmt
      [Decl_VarDecl (var "__range1" (ty "std::vector<int> &") (ref "v"))]
      [Decl_VarDecl (var "__begin1" (ty "iterator")
                         (CallExpr (MemberExpr (ref "__range1") false "begin") []))]
      [Decl_VarDecl (var "__end1" (ty "iterator")
                         (CallExpr (MemberExpr (ref "__range1") false "end") []))]
      (Some (BinaryOperator "!=" (ref "__begin1") (ref "__end1")))
      (Some (UnaryOperator "++" false (ref "__begin1")))
      (var "e" (ty "int &") (UnaryOperator "*" false (ref "__begin1")))
      (ExprStmt (BinaryOperator "+=" (ref "sum") (ref "e"))) in
  InsertArgStmt CodeGenerator stmt initial =
    mkState
      [ OpenScope;
        Append ""; Append "std::vector<int> & __range1"; Append " = "; Append "v";
        AppendNewLine ";";
        Append ""; Append "iterator __begin1"; Append " = "; Append "__range1";
        Append ".begin"; Append "("; Append ")"; AppendNewLine ";";
        Append ""; Append "iterator __end1"; Append " = "; Append "__range1";
        Append ".end"; Append "("; Append ")"; AppendNewLine ";";
        AppendNewLine "";
        Append "for( ; "; Append "__begin1"; Append " != "; Append "__end1";
        Append "; "; Append "++"; Append "__begin1"; AppendNewLine " )";
        OpenScope;
        Append ""; Append "int & e"; Append " = "; Append "*"; Append "__begin1";
        AppendNewLine ";";
        Append "sum"; Append " += "; Append "e"; AppendNewLine ";";
        CloseScope NNL_Yes; CloseScope NNL_No ]
      [] [].
Proof. vm_compute. reflexivity. Qed.

(** A braced body is not braced a second time, and a null statement as
    body brings its own terminator. *)
Example range_for_braced_and_null_body :
  let ty (n : string) := mkQualType n (fun v => n +:+ " " +:+ v)
                                    false false false false None in
  let e := PlainVarDecl (mkVarInfo "e" (ty "int") (mkLoc 3 1)
                                   false false false false false false) None in
  mOutputFormatHelper
    (InsertArgStmt CodeGenerator
       (CXXForRangeStmt [] [] [] None None e (CompoundStmt [BreakStmt])) initial)
  = [ OpenScope; AppendNewLine ""; Append "for( ; "; Append "; "; AppendNewLine " )";
      OpenScope; Append ""; Append "int e"; AppendNewLine ";";
      Append "break"; AppendNewLine ";";
      CloseScope NNL_Yes; CloseScope NNL_No ]
  /\
  mOutputFormatHelper
    (InsertArgStmt CodeGenerator (CXXForRangeStmt [] [] [] None None e NullStmt) initial)
  = [ OpenScope; AppendNewLine ""; Append "for( ; "; Append "; "; AppendNewLine " )";
      OpenScope; Append ""; Append "int e"; AppendNewLine ";";
      AppendNewLine ";";
      CloseScope NNL_Yes; CloseScope NNL_No ].
Proof. split; vm_compute; reflexivity. Qed.

End RangeForSpec.

(** ** Function-local statics of class type                               *)

Module StaticLocalSpec.

Import Gen GenFacts StaticLocalTerms.

Lemma prefix_nil (s : string) : String.prefix "" s = true.
Proof. destruct s; reflexivity. Qed.

Lemma prefix_append (p s : string) : String.prefix p (p +:+ s) = true.
Proof.
  induction p as [|c p IH]; [apply prefix_nil|].
  change (String c p +:+ s) with (String c (p +:+ s)). cbn [String.prefix].
  destruct (Ascii.ascii_dec c c); [exact IH | congruence].
Qed.

Lemma step_other (guard text : string) (fr : Frame) :
  String.prefix "if( ! " text = false ->
  String.prefix "new (" text = false ->
  String.eqb text (guard +:+ " = true;") = false ->
  step guard fr (AppendNewLine text) = fr.
Proof.
  intros H1 H2 H3. unfold step. rewrite H1, H2, H3.
  destruct (negb (active fr)); reflexivity.
Qed.

Lemma step_if (guard text : string) (fr : Frame) :
  step guard fr (AppendNewLine ("if( ! " +:+ text)) =
    mkFrame (statics fr) (negb (guard_value (statics fr))) (active fr).
Proof. unfold step. rewrite prefix_append. reflexivity. Qed.

Lemma step_new (guard text : string) (st : Statics) (c : bool) :
  step guard (mkFrame st c true) (AppendNewLine ("new (" +:+ text)) =
    mkFrame (mkStatics (guard_value st) (S (constructions st))) c true.
Proof.
  unfold step. change (String.prefix "if( ! " ("new (" +:+ text)) with false.
  rewrite prefix_append. reflexivity.
Qed.

Lemma step_assign (name : string) (st : Statics) (c : bool) :
  step (BuildInternalVarName name +:+ "B") (mkFrame st c true)
       (AppendNewLine ((BuildInternalVarName name +:+ "B") +:+ " = true;")) =
    mkFrame (mkStatics true (constructions st)) c true.
Proof.
  unfold step, BuildInternalVarName.
  change (String.prefix "if( ! " ((("__" +:+ name) +:+ "B") +:+ " = true;")) with false.
  change (String.prefix "new (" ((("__" +:+ name) +:+ "B") +:+ " = true;")) with false.
  rewrite String.eqb_refl. reflexivity.
Qed.

Lemma step_skipped (guard text : string) (st : Statics) (c : bool) :
  String.prefix "if( ! " text = false ->
  step guard (mkFrame st c false) (AppendNewLine text) = mkFrame st c false.
Proof. intros H. unfold step. rewrite H. reflexivity. Qed.

Lemma call_guarded_init (name typeName : string) (st : Statics) :
  call (BuildInternalVarName name +:+ "B") (guarded_init name typeName) st =
    if guard_value st then st
    else mkStatics true (S (constructions st)).
Proof.
  unfold call, guarded_init. cbv zeta. cbn [fold_left].
  rewrite (step_other _ ("static bool " +:+ _)) by reflexivity.
  rewrite (step_other _ ("static char " +:+ _)) by reflexivity.
  rewrite !(step_other _ "") by reflexivity.
  rewrite (step_if _ ((BuildInternalVarName name +:+ "B") +:+ " )")).
  change (step ?g ?fr OpenScope) with (mkFrame (statics fr) (condition fr) (condition fr)).
  cbn [statics condition active].
  destruct st as [[|] k]; cbn [negb guard_value].
  - rewrite (step_skipped _ ("new (&" +:+ _)) by reflexivity.
    rewrite step_skipped by reflexivity.
    reflexivity.
  - rewrite (step_new _ ("&" +:+ BuildInternalVarName name +:+ ") " +:+ typeName +:+ ";")).
    rewrite step_assign. reflexivity.
Qed.

Lemma calls_guarded_init (name typeName : string) (n : nat) :
  Nat.iter n (call (BuildInternalVarName name +:+ "B") (guarded_init name typeName))
           (mkStatics false 0)
  = match n with 0 => mkStatics false 0 | S _ => mkStatics true 1 end.
Proof.
  induction n as [|n IH]; [reflexivity|].
  rewrite Nat.iter_succ, IH, call_guarded_init. destruct n; reflexivity.
Qed.

(** C8, for a static local that is not a decomposition declaration.  The
    lowering is exactly the guard pattern: the [static bool] guard, the
    [static char] buffer sized with [sizeof] of the class, a blank line,
    the [if] on the negated guard, and in its scope one placement [new]
    into the buffer followed by the assignment of [true] to the guard.
    Read as statements, the emitted lines construct the object on the first
    call and on no later one. *)
Theorem InsertArg_static_local_class
    (self : Generator) (v : VarInfo) (init : option Expr) (s : State) :
  IsTrivialStaticClassVarDecl v = true ->
  exists cxxRecordDecl : CXXRecordDecl,
    getAsCXXRecordDecl (varType v) = Some cxxRecordDecl /\
    let name := BuildInternalVarName (varName v) in
    let guard := name +:+ "B" in
    let typeName := recordName cxxRecordDecl in
    let lines :=
      [ AppendNewLine ("static bool " +:+ guard +:+ ";");
        AppendNewLine ("static char " +:+ name +:+ "[sizeof(" +:+ typeName +:+ ")];");
        AppendNewLine "";
        AppendNewLine ("if( ! " +:+ guard +:+ " )");
        OpenScope;
        AppendNewLine ("new (&" +:+ name +:+ ") " +:+ typeName +:+ ";");
        AppendNewLine (guard +:+ " = true;");
        CloseScope NNL_Yes;
        AppendNewLine "" ] in
    InsertArgVarDecl self (PlainVarDecl v init) s =
      mkState (mOutputFormatHelper s ++ lines) (mLambdaStack s) (diagnostics s) /\
    forall n : nat,
      constructions (Nat.iter n (call guard lines) (mkStatics false 0)) = Nat.min n 1.
Proof.
  intros Hv.
  assert (Hrec : exists rd, getAsCXXRecordDecl (varType v) = Some rd).
  { unfold IsTrivialStaticClassVarDecl in Hv.
    destruct (getAsCXXRecordDecl (varType v)) as [rd|]; [exists rd; reflexivity|].
    rewrite andb_false_r in Hv. discriminate Hv. }
  destruct Hrec as [rd Hrd]. exists rd. split; [exact Hrd|].
  cbv zeta. split.
  - unfold InsertArgVarDecl, LAMBDA_SCOPE_HELPER. cbv zeta. rewrite Hv.
    unfold HandleLocalStaticNonTrivialClass. rewrite Hrd.
    cbn [emit mOutputFormatHelper mLambdaStack diagnostics].
    rewrite LambdaStackSpec.dtor_ctor.
    repeat rewrite <- app_assoc. reflexivity.
  - intros n.
    change (constructions
              (Nat.iter n (call (BuildInternalVarName (varName v) +:+ "B")
                                (guarded_init (varName v) (recordName rd)))
                        (mkStatics false 0)) = Nat.min n 1).
    rewrite calls_guarded_init. destruct n as [|[|n]]; reflexivity.
Qed.

(** [static Widget w;] inside a function, [Widget] with a destructor. *)
Lemma InsertArg_static_local_class_witness :
  let widget := mkQualType "Widget" (fun n => "Widget " +:+ n) false false false false
                           (Some (mkRecordDecl "Widget" true false)) in
  let v := mkVarInfo "w" widget (mkLoc 7 3) false false true false true false in
  IsTrivialStaticClassVarDecl v = true /\
  mOutputFormatHelper (InsertArgVarDecl CodeGenerator (PlainVarDecl v None) initial) =
    [ AppendNewLine "static bool __wB;";
      AppendNewLine "static char __w[sizeof(Widget)];";
      AppendNewLine "";
      AppendNewLine "if( ! __wB )";
      OpenScope;
      AppendNewLine "new (&__w) Widget;";
      AppendNewLine "__wB = true;";
      CloseScope NNL_Yes;
      AppendNewLine "" ].
Proof.
  intros widget v. split; [reflexivity|].
  destruct (InsertArg_static_local_class CodeGenerator v None initial eq_refl)
    as (rd & Hrd & Hout & _).
  injection Hrd as <-. rewrite Hout. reflexivity.
Defined.

(** A static structured binding of class type, [static auto [a, b] = p;]
    with [p] a [Pair] that has a destructor: the [VarDecl] overload asks
    for [DecompositionDecl] first, and no guard is written. *)
Lemma static_decomposition_unguarded :
  let pair := mkQualType "Pair" (fun n => "Pair " +:+ n) false false false false
                         (Some (mkRecordDecl "Pair" true false)) in
  let int_t := mkQualType "int" (fun n => "int " +:+ n) false false false false None in
  let v := mkVarInfo "" pair (mkLoc 9 3) false false true false true false in
  let unnamed := DeclRefExpr (mkDeclRef "" "" true) in
  let d := DecompositionDecl v (DeclRefExpr (mkDeclRef "p" "p" true))
             [ mkBindingDecl "a" int_t (mkLoc 9 16) (Some (MemberExpr unnamed false "first")) None;
               mkBindingDecl "b" int_t (mkLoc 9 19) (Some (MemberExpr unnamed false "second")) None ] in
  IsTrivialStaticClassVarDecl (getVarInfo d) = true /\
  mOutputFormatHelper (InsertArgVarDecl CodeGenerator d initial) =
    [ Append "Pair __p9 = "; Append "p"; AppendNewLine ";";
      Append "int& a = "; Append ""; Append "__p9"; Append ".first"; AppendNewLine ";";
      Append "int& b = "; Append ""; Append "__p9"; Append ".second"; AppendNewLine ";" ].
Proof. split; vm_compute; reflexivity. Qed.

End StaticLocalSpec.

(** ** Structured bindings                                                *)

Module DecompositionSpec.

Import Gen GenFacts DecompositionTerms.




(** What one turn of the loop over the bindings appends. *)
Lemma binding_body_emitted (self : Generator) (tmp : string) (isRefToObject : bool)
    (b : BindingDecl) :
  emitted (fun s => binding_body self tmp isRefToObject s b) =
    match getBinding b with
    | Some binding => binding_declaration self tmp isRefToObject b binding
    | None => []
    end.
Proof.
  unfold emitted, binding_body, binding_declaration, refOrRefRef, holdingVarOrMemberExpr.
  destruct (getBinding b) as [binding|]; [|reflexivity].
  cbv zeta.
  destruct (getHoldingVar b) as [[e|]|].
  - unfold on_same_buffer.
    rewrite (framed_eq _ (InsertArgExpr_framed e (StructuredBindingsCodeGenerator tmp))).
    reflexivity.
  - destruct binding;
      try rewrite (framed_eq _ (InsertArgExpr_framed _ self));
      reflexivity.
  - destruct binding;
      try (unfold on_same_buffer;
           rewrite (framed_eq _ (InsertArgExpr_framed _ (StructuredBindingsCodeGenerator tmp))));
      try rewrite (framed_eq _ (InsertArgExpr_framed _ self));
      reflexivity.
Qed.

Lemma fold_left_emitted {A : Type} (step : State -> A -> State) (l : list A) :
  (forall a, framed (fun s => step s a)) ->
  forall s,
    mOutputFormatHelper (fold_left step l s) =
      mOutputFormatHelper s ++ concat (map (fun a => emitted (fun s => step s a)) l).
Proof.
  intros Hstep. induction l as [|a rest IH]; intros s; simpl.
  - symmetry. apply app_nil_r.
  - rewrite IH. rewrite (framed_eq _ (Hstep a) s). simpl.
    rewrite <- app_assoc. reflexivity.
Qed.

Lemma bindings_emitted (self : Generator) (tmp : string) (isRefToObject : bool)
    (bindings : list BindingDecl) :
  concat (map (fun b => emitted (fun s => binding_body self tmp isRefToObject s b)) bindings)
  = concat (map (fun p => binding_declaration self tmp isRefToObject (fst p) (snd p))
                (resolved bindings)).
Proof.
  induction bindings as [|b rest IH]; [reflexivity|].
  simpl. rewrite binding_body_emitted, IH.
  destruct (getBinding b); reflexivity.
Qed.

(** The output of the [DecompositionDecl] overload: the temporary with the
    initializer, then the binding declarations. *)
Lemma InsertArgDecompositionDecl_output (self : Generator) (v : VarInfo)
    (init : Expr) (bindings : list BindingDecl) (s : State) :
  let tmp := tmpVarName (FindDeclRef init) v in
  mOutputFormatHelper (InsertArgDecompositionDecl self v init bindings s) =
    mOutputFormatHelper s
    ++ [Append (GetTypeNameAsParameter (varType v) tmp +:+ " = ")]
    ++ emitted (InsertArgExpr self init)
    ++ [AppendNewLine ";"]
    ++ concat (map (fun p => binding_declaration self tmp (IsReference (varType v))
                                                 (fst p) (snd p))
                   (resolved bindings)).
Proof.
  intros tmp. subst tmp. unfold InsertArgDecompositionDecl. cbv zeta.
  rewrite (fold_left_emitted _ _ (binding_body_framed self _ _)).
  rewrite bindings_emitted.
  rewrite (framed_eq _ (InsertArgExpr_framed init self)).
  destruct (FindDeclRef init);
    cbn [emit report mOutputFormatHelper mLambdaStack diagnostics];
    repeat rewrite <- app_assoc; reflexivity.
Qed.





(** A binding expression that is neither a member nor an array-element
    access and has no holding variable is declared with the placeholder,
    without the temporary. *)
Example binding_placeholder :
  let int_t := mkQualType "int" (fun n => "int " +:+ n) false false false false None in
  let b := mkBindingDecl "a" int_t (mkLoc 5 9) (Some (CXXBoolLiteralExpr true)) None in
  binding_declaration CodeGenerator "__p5" false b (CXXBoolLiteralExpr true) =
    [ Append "int a = "; Append TODO_marker; AppendNewLine ";" ].
Proof. reflexivity. Qed.

Lemma fold_left_reported {A : Type} (step : State -> A -> State) (l : list A) :
  (forall a, framed (fun s => step s a)) ->
  forall s, exists later,
    diagnostics (fold_left step l s) = diagnostics s ++ later.
Proof.
  intros Hstep. induction l as [|a rest IH]; intros s; simpl.
  - exists []. symmetry. apply app_nil_r.
  - destruct (IH (step s a)) as [later Hlater]. rewrite Hlater.
    rewrite (framed_eq _ (Hstep a) s). simpl.
    eexists. rewrite <- app_assoc. reflexivity.
Qed.

(** C7.  When no name reference is found in the initializer, the
    declaration is reported on the diagnostic channel, the base name is the
    empty string, so that the temporary is named from it alone, and the
    lowering goes on: the temporary and the binding declarations are
    written as for any other decomposition, and the statements that follow
    in the enclosing block are lowered after it. *)
Theorem InsertArg_DecompositionDecl_unknown_decl (self : Generator) (v : VarInfo)
    (init : Expr) (bindings : list BindingDecl) (s : State) :
  FindDeclRef init = None ->
  baseVarName (FindDeclRef init) = "" /\
  tmpVarName (FindDeclRef init) v = BuildInternalVarName "" /\
  (exists later,
      diagnostics (InsertArgDecompositionDecl self v init bindings s) =
        diagnostics s ++ mkDiag (varLocStart v) ("unknown decl" +:+ Lambda.LF) :: later) /\
  mOutputFormatHelper (InsertArgDecompositionDecl self v init bindings s) =
    mOutputFormatHelper s
    ++ [Append (GetTypeNameAsParameter (varType v) (BuildInternalVarName "") +:+ " = ")]
    ++ emitted (InsertArgExpr self init)
    ++ [AppendNewLine ";"]
    ++ concat (map (fun p => binding_declaration self (BuildInternalVarName "")
                               (IsReference (varType v)) (fst p) (snd p))
                   (resolved bindings)) /\
  (forall rest : list Stmt,
      mOutputFormatHelper
        (HandleCompoundStmt self
           (DeclStmt [Decl_VarDecl (DecompositionDecl v init bindings)] :: rest) s) =
      mOutputFormatHelper (InsertArgDecompositionDecl self v init bindings s)
      ++ emitted (HandleCompoundStmt self rest)).
Proof.
  intros Hnone.
  split; [rewrite Hnone; reflexivity|].
  split; [rewrite Hnone; reflexivity|].
  split; [|split].
  - unfold InsertArgDecompositionDecl. cbv zeta. rewrite Hnone.
    destruct (fold_left_reported
                (binding_body self (tmpVarName None v) (IsReference (varType v)))
                bindings (binding_body_framed self _ _)
                (emit (AppendNewLine ";")
                   (InsertArgExpr self init
                      (emit (Append (GetTypeNameAsParameter (varType v) (tmpVarName None v)
                                     +:+ " = "))
                            (report (varLocStart v) ("unknown decl" +:+ Lambda.LF) s)))))
      as [later Hlater].
    rewrite Hlater.
    rewrite (framed_eq _ (InsertArgExpr_framed init self)).
    cbn [emit report mOutputFormatHelper mLambdaStack diagnostics].
    unfold Error. eexists. repeat rewrite <- app_assoc. reflexivity.
  - pose proof (InsertArgDecompositionDecl_output self v init bindings s) as Hout.
    cbv zeta in Hout. rewrite Hout, Hnone. reflexivity.
  - intros rest. unfold HandleCompoundStmt at 1. cbn [fold_left].
    change (fold_left _ rest ?st) with (HandleCompoundStmt self rest st).
    rewrite (framed_eq _ (HandleCompoundStmt_framed_all self rest)).
    cbn [mOutputFormatHelper isa_DeclStmt negb]. f_equal.
    stmt_dispatch. unfold InsertArgDeclStmt. cbn [fold_left].
    unfold InsertArgDecl. cbn [dispatch SUPPORTED_DECLS isa overload isa_VarDecl].
    unfold InsertArgVarDecl, LAMBDA_SCOPE_HELPER. cbn [mOutputFormatHelper].
    rewrite !(framed_eq _ (InsertArgDecompositionDecl_framed self v init bindings)).
    reflexivity.
Qed.

(** [auto [a, b] = *this;]: no name reference in the initializer. *)
Lemma InsertArg_DecompositionDecl_unknown_decl_witness :
  let int_t := mkQualType "int" (fun n => "int " +:+ n) false false false false None in
  let pair := mkQualType "Pair" (fun n => "Pair " +:+ n) false false false false None in
  let v := mkVarInfo "" pair (mkLoc 5 3) false false false false false false in
  let init := UnaryOperator "*" false CXXThisExpr in
  let unnamed := DeclRefExpr (mkDeclRef "" "" true) in
  let bindings := [ mkBindingDecl "a" int_t (mkLoc 5 9)
                                  (Some (MemberExpr unnamed false "first")) None ] in
  FindDeclRef init = None /\
  mOutputFormatHelper (InsertArgDecompositionDecl CodeGenerator v init bindings initial) =
    [ Append "Pair __ = "; Append "*"; Append "this"; AppendNewLine ";";
      Append "int& a = "; Append ""; Append "__"; Append ".first"; AppendNewLine ";" ].
Proof.
  intros int_t pair v init unnamed bindings.
  split; [reflexivity|].
  pose proof (InsertArg_DecompositionDecl_unknown_decl
                CodeGenerator v init bindings initial eq_refl)
    as (_ & _ & _ & Hout & _).
  rewrite Hout. vm_compute. reflexivity.
Defined.

Example unknown_decl_reported :
  let pair := mkQualType "Pair" (fun n => "Pair " +:+ n) false false false false None in
  let v := mkVarInfo "" pair (mkLoc 5 3) false false false false false false in
  diagnostics (InsertArgDecompositionDecl CodeGenerator v
                 (UnaryOperator "*" false CXXThisExpr) [] initial)
  = [mkDiag (mkLoc 5 3) ("unknown decl" +:+ Lambda.LF)].
Proof. reflexivity. Qed.

End DecompositionSpec.

(** ** The two dispatchers                                                *)

Module DispatchSpec.

Import Gen GenFacts.





(** The chain at work: a null statement, a declaration statement with an
    alias, and the two classes without an overload. *)
Example dispatch_NullStmt :
  InsertArgStmt CodeGenerator NullStmt initial = mkState [AppendNewLine ";"] [] [].
Proof. reflexivity. Qed.

Example dispatch_TypeAliasDecl :
  let int_t := mkQualType "int" (fun n => "int " +:+ n) false false false false None in
  InsertArgStmt CodeGenerator (DeclStmt [TypeAliasDecl "T" int_t]) initial
  = mkState [AppendNewLine "using T = int;"] [] [].
Proof. reflexivity. Qed.

Example dispatch_unsupported_stmt :
  InsertArgStmt CodeGenerator (GotoStmt (mkLoc 8 5)) initial
  = mkState [Append TODO_marker] [] [mkDiag (mkLoc 8 5) "TODO"].
Proof. reflexivity. Qed.

Example dispatch_unsupported_decl :
  InsertArg_Decl CodeGenerator (Some (EmptyDecl (mkLoc 2 1))) initial
  = Some (mkState [Append TODO_marker] [] [mkDiag (mkLoc 2 1) "TODO"]).
Proof. reflexivity. Qed.

End DispatchSpec.

(** ** Names of synthesized entities                                      *)

Module SynthesizedNamesSpec.

Import Gen GenFacts NamesSpec.

(** C9, as the code has it.  The alias of a function-pointer variable is
    built from the spelling line of the declaration and nothing else: two
    variables get the same alias exactly when they start on the same line.
    The temporary of a structured binding is built from the name reference
    found in the initializer and the line of the declaration: declarations
    that agree on these get the same temporary name.  Being values of
    functions of the input, the names are the same on every run. *)
Theorem synthesized_names_by_line :
  (forall v1 v2 : VarInfo,
      funcPtrName (line (varLocStart v1)) = funcPtrName (line (varLocStart v2))
      <-> line (varLocStart v1) = line (varLocStart v2))
  /\
  (forall (declName : option DeclRef) (v1 v2 : VarInfo),
      line (varLocStart v1) = line (varLocStart v2) ->
      tmpVarName declName v1 = tmpVarName declName v2)
  /\
  (forall (self : Generator) (v : VarInfo) (init : option Expr) (s : State),
      IsTrivialStaticClassVarDecl v = false ->
      isFunctionPointerType (varType v) = true ->
      exists rest,
        mOutputFormatHelper (InsertArgVarDecl self (PlainVarDecl v init) s) =
          mOutputFormatHelper s
          ++ [ Append (GetQualifiers v);
               AppendNewLine ("using " +:+ funcPtrName (line (varLocStart v)) +:+ "= "
                              +:+ GetName (varType v) +:+ ";");
               Append (funcPtrName (line (varLocStart v)) +:+ varName v) ]
          ++ rest).
Proof.
  split; [|split].
  - intros v1 v2. split; [apply funcPtrName_inj | intros ->; reflexivity].
  - intros declName v1 v2 Hline. unfold tmpVarName, BuildInternalVarName_at.
    rewrite Hline. reflexivity.
  - intros self v init s Hstatic Hfp.
    unfold InsertArgVarDecl, LAMBDA_SCOPE_HELPER. cbv zeta.
    rewrite Hstatic, Hfp. cbn [mOutputFormatHelper].
    destruct init as [e|], (isNRVOVariable v);
      try rewrite (framed_eq _ (InsertArgExpr_framed e self));
      cbn [emit mOutputFormatHelper mLambdaStack diagnostics];
      eexists; repeat rewrite <- app_assoc; reflexivity.
Qed.

(** Two function-pointer variables declared on one line. *)
Lemma synthesized_names_by_line_witness :
  let fp := mkQualType "void (*)()" (fun n => "void (*" +:+ n +:+ ")()")
                       false false false true None in
  let a := mkVarInfo "a" fp (mkLoc 5 1) false false false false false false in
  let b := mkVarInfo "b" fp (mkLoc 5 20) false false false false false false in
  line (varLocStart a) = line (varLocStart b) /\
  funcPtrName (line (varLocStart a)) = funcPtrName (line (varLocStart b)).
Proof.
  intros fp a b. split; [reflexivity|].
  exact (proj2 (proj1 synthesized_names_by_line a b) eq_refl).
Defined.

(** Two function-pointer variables [a] and [b] declared on line 5, one
    after the other: two distinct variables, of different names, columns
    and types, and one alias name for both. *)
Lemma funcPtr_alias_shared :
  let fp1 := mkQualType "void (*)()" (fun n => "void (*" +:+ n +:+ ")()")
                        false false false true None in
  let fp2 := mkQualType "int (*)(int)" (fun n => "int (*" +:+ n +:+ ")(int)")
                        false false false true None in
  let a := mkVarInfo "a" fp1 (mkLoc 5 1) false false false false false false in
  let b := mkVarInfo "b" fp2 (mkLoc 5 20) false false false false false false in
  varName a <> varName b /\
  varLocStart a <> varLocStart b /\
  mOutputFormatHelper (InsertArgVarDecl CodeGenerator (PlainVarDecl a None) initial) =
    [ Append ""; AppendNewLine "using FuncPtr_5 = void (*)();";
      Append "FuncPtr_5 a"; AppendNewLine ";" ] /\
  mOutputFormatHelper (InsertArgVarDecl CodeGenerator (PlainVarDecl b None) initial) =
    [ Append ""; AppendNewLine "using FuncPtr_5 = int (*)(int);";
      Append "FuncPtr_5 b"; AppendNewLine ";" ] /\
  funcPtrName (line (varLocStart a)) = funcPtrName (line (varLocStart b)).
Proof.
  cbv zeta. split; [discriminate|]. split; [discriminate|].
  repeat split; vm_compute; reflexivity.
Qed.

End SynthesizedNamesSpec.

(** ** What a lowering does to the generator, as a value                  *)

Module EffectFacts.

Import Gen GenFacts Effects.

Lemma and_then_nothing_l (a : Effect) : and_then nothing a = a.
Proof. destruct a; reflexivity. Qed.

Lemma and_then_nothing_r (a : Effect) : and_then a nothing = a.
Proof. destruct a; unfold and_then; simpl. rewrite !app_nil_r. reflexivity. Qed.

Lemma and_then_assoc (a b c : Effect) :
  and_then (and_then a b) c = and_then a (and_then b c).
Proof. unfold and_then; simpl. rewrite !app_assoc. reflexivity. Qed.

Lemma effect_seq (f g : State -> State) :
  framed f -> framed g -> effect (fun s => g (f s)) = and_then (effect f) (effect g).
Proof.
  intros Hf Hg. unfold effect, emitted, reported, and_then.
  rewrite (framed_eq g Hg (f initial)). reflexivity.
Qed.

Lemma effect_ext (f g : State -> State) :
  (forall s, f s = g s) -> effect f = effect g.
Proof. intros H. unfold effect, emitted, reported. rewrite H. reflexivity. Qed.

Lemma effect_id : effect (fun s => s) = nothing.
Proof. reflexivity. Qed.

Lemma effect_emit (o : Out) : effect (emit o) = writes [o].
Proof. reflexivity. Qed.

Lemma effect_report (loc : SourceLocation) (msg : string) :
  effect (report loc msg) = complains loc msg.
Proof. reflexivity. Qed.

Lemma effect_TODO (loc : SourceLocation) :
  effect (TODO loc) = and_then (writes [Append TODO_marker]) (complains loc "TODO").
Proof. reflexivity. Qed.

Lemma effect_scope (k : LambdaCallerType.t) (f : State -> State) :
  framed f -> effect (LAMBDA_SCOPE_HELPER k f) = effect f.
Proof.
  intros Hf. unfold effect, emitted, reported, LAMBDA_SCOPE_HELPER.
  cbn [mOutputFormatHelper diagnostics mLambdaStack].
  rewrite (framed_eq f Hf). cbn. unfold initial.
  rewrite (framed_eq f Hf). cbn. reflexivity.
Qed.

Lemma effect_on_same_buffer (f : State -> State) : effect (on_same_buffer f) = effect f.
Proof. reflexivity. Qed.

Lemma effect_wrap (b : BraceKind) (f : State -> State) (sp : AddSpaceAtTheEnd) :
  framed f ->
  effect (WrapInParensOrCurlys b f sp) =
  and_then (in_braces b (effect f))
           (match sp with AddSpace_Yes => writes [Append " "] | AddSpace_No => nothing end).
Proof.
  intros Hf. unfold effect, emitted, reported, WrapInParensOrCurlys, in_braces, and_then.
  destruct b, sp; cbn [emit mOutputFormatHelper diagnostics mLambdaStack];
    rewrite (framed_eq f Hf); cbn; rewrite ?app_nil_r; try reflexivity.
  all: rewrite <- ?app_assoc; reflexivity.
Qed.

Lemma effect_ForEachArg {A : Type} (lambda : A -> State -> State) (arguments : list A) :
  Forall (fun a => framed (lambda a)) arguments ->
  forall needsComma,
    effect (ForEachArg lambda arguments needsComma)
    = separated needsComma (map (fun a => effect (lambda a)) arguments).
Proof.
  induction 1 as [|a rest Ha Hrest IH]; intros needsComma; [reflexivity|].
  cbn [map separated].
  rewrite <- IH.
  rewrite <- (effect_seq (lambda a) (ForEachArg lambda rest true) Ha
                (framed_ForEachArg _ _ Hrest true)).
  destruct needsComma.
  - rewrite <- (effect_emit (Append ", ")).
    rewrite <- effect_seq; [reflexivity|apply framed_emit|].
    apply (framed_seq (lambda a) (ForEachArg lambda rest true) Ha
             (framed_ForEachArg _ _ Hrest true)).
  - rewrite and_then_nothing_l. reflexivity.
Qed.

(** Taking a routine apart, last step first. *)
Ltac effect_step :=
  match goal with
  | |- context [effect (fun s => s)] => rewrite effect_id
  | |- context [effect (fun s => ?g (@?h s))] => rewrite (effect_seq h g) by framed_auto
  | |- context [effect (emit ?o)] => rewrite (effect_emit o)
  | |- context [effect (report ?l ?m)] => rewrite (effect_report l m)
  | |- context [effect (TODO ?l)] => rewrite (effect_TODO l)
  | |- context [effect (LAMBDA_SCOPE_HELPER ?k ?f)] =>
      rewrite (effect_scope k f) by framed_auto
  | |- context [effect (on_same_buffer ?f)] => rewrite (effect_on_same_buffer f)
  | |- context [effect (WrapInParensOrCurlys ?b ?f ?sp)] =>
      rewrite (effect_wrap b f sp) by framed_auto
  end.

Ltac effect_norm :=
  rewrite ?and_then_assoc, ?and_then_nothing_l, ?and_then_nothing_r.

(** The effect of an expression in terms of the effects of its children. *)
Lemma effect_InsertArgExpr (self : Generator) (stmt : Expr) :
  effect (InsertArgExpr self stmt) =
  match stmt with
  | DeclRefExpr d =>
      match self with
      | StructuredBindingsCodeGenerator mVarName =>
          if (String.eqb (refGetName d) "") || EndsWith (refGetName d) "::"
          then writes [Append (refGetName d); Append mVarName]
          else writes [Append (refGetName d)]
      | _ => writes [Append (refGetName d)]
      end
  | IntegerLiteral value builtin =>
      match builtin with
      | Some kind => writes [Append (pretty value); Append (GetBuiltinTypeSuffix kind)]
      | None => writes [Append (pretty value)]
      end
  | CharacterLiteral c => writes (CharLit.HandleCharacterLiteral c [])
  | CXXBoolLiteralExpr value => writes [Append (if value then "true" else "false")]
  | CXXNullPtrLiteralExpr => writes [Append "nullptr"]
  | CXXThisExpr =>
      match self with
      | LambdaCodeGenerator => writes [Append "__this"]
      | _ => writes [Append "this"]
      end
  | BinaryOperator opcodeStr lhs rhs =>
      and_then (of_expr self lhs)
        (and_then (writes [Append (" " +:+ opcodeStr +:+ " ")]) (of_expr self rhs))
  | UnaryOperator opCodeName isPostfix subExpr =>
      if isPostfix
      then and_then (of_expr self subExpr) (writes [Append opCodeName])
      else and_then (writes [Append opCodeName]) (of_expr self subExpr)
  | ConditionalOperator cond lhs rhs =>
      and_then (of_expr self cond)
        (and_then (writes [Append " ? "])
           (and_then (of_expr self lhs)
              (and_then (writes [Append " : "]) (of_expr self rhs))))
  | ArraySubscriptExpr lhs rhs =>
      and_then (of_expr self lhs)
        (and_then (writes [Append "["])
           (and_then (of_expr self rhs) (writes [Append "]"])))
  | MemberExpr base isArrow memberName =>
      and_then (of_expr self base)
        (writes [Append ((if isArrow then "->" else ".") +:+ memberName)])
  | ParenExpr subExpr => in_braces Parens (of_expr self subExpr)
  | ImplicitCastExpr subExpr | ExprWithCleanups subExpr
  | MaterializeTemporaryExpr subExpr => of_expr self subExpr
  | CallExpr callee arguments =>
      and_then (of_expr self callee)
        (in_braces Parens (separated false (map (of_expr self) arguments)))
  | OpaqueValueExpr (Some sourceExpr) => of_expr self sourceExpr
  | OpaqueValueExpr None => nothing
  | ArrayInitLoopExpr _ subExpr size =>
      in_braces Curlys
        (separated false
           (map (fun i => of_expr (ArrayInitCodeGenerator i) subExpr) (seq 0 size)))
  | ArrayInitIndexExpr loc =>
      match self with
      | ArrayInitCodeGenerator mIndex => writes [Append (to_string mIndex)]
      | _ => complains loc "ArrayInitIndexExpr should not be reached in CodeGenerator"
      end
  | CXXThrowExpr loc _ => and_then (writes [Append TODO_marker]) (complains loc "TODO")
  end.
Proof.
  unfold of_expr.
  destruct stmt as
    [ d | value builtin | c | value | | | op lhs rhs | op post sub
    | cond lhs rhs | lhs rhs | base isArrow name
    | sub | sub | sub | sub | callee args
    | src | common sub size | loc | loc operand ];
    (erewrite effect_ext; [|intros s; expr_dispatch; reflexivity]).
  - destruct self; try reflexivity. destruct (_ || _); reflexivity.
  - destruct builtin; reflexivity.
  - reflexivity.
  - reflexivity.
  - reflexivity.
  - destruct self; reflexivity.
  - repeat effect_step. effect_norm. reflexivity.
  - destruct post; cbn [negb]; repeat effect_step; effect_norm; reflexivity.
  - repeat effect_step. effect_norm. reflexivity.
  - repeat effect_step. effect_norm. reflexivity.
  - repeat effect_step. effect_norm. reflexivity.
  - repeat effect_step. effect_norm. reflexivity.
  - reflexivity.
  - reflexivity.
  - reflexivity.
  - assert (Hargs : forall nc, framed (ForEachArg (fun arg => InsertArgExpr self arg) args nc)).
    { intros nc. apply framed_ForEachArg, Forall_forall.
      intros a _. apply InsertArgExpr_framed. }
    rewrite effect_scope
      by (framed_split; [apply InsertArgExpr_framed | apply framed_wrap, Hargs]).
    rewrite (effect_seq (InsertArgExpr self callee)
               (WrapInParensOrCurlys Parens
                  (ForEachArg (fun arg => InsertArgExpr self arg) args false) AddSpace_No))
      by (first [apply InsertArgExpr_framed | apply framed_wrap, Hargs]).
    rewrite effect_wrap by apply Hargs.
    rewrite effect_ForEachArg
      by (apply Forall_forall; intros a _; apply InsertArgExpr_framed).
    effect_norm. reflexivity.
  - destruct src; reflexivity.
  - assert (Hloop : Forall (fun i => framed (on_same_buffer
                                (InsertArgExpr (ArrayInitCodeGenerator i) sub)))
                           (seq 0 size)).
    { apply Forall_forall. intros i _. apply framed_on_same_buffer, InsertArgExpr_framed. }
    rewrite effect_wrap by (apply framed_ForEachArg, Hloop).
    rewrite effect_ForEachArg by exact Hloop.
    effect_norm. reflexivity.
  - destruct self; reflexivity.
  - reflexivity.
Qed.

End EffectFacts.

(** ** The traversal of expressions                                       *)

Module TraversalSpec.

Import Gen GenFacts Effects EffectFacts TraversalTerms.


Lemma Forall_separated (P : Out -> Prop) (parts : list Effect) :
  P (Append ", ") -> Forall (fun p => Forall P p.1) parts ->
  forall needsComma, Forall P (separated needsComma parts).1.
Proof.
  intros Hsep. induction 1 as [|p rest Hp Hrest IH]; intros nc; cbn [separated].
  - constructor.
  - unfold and_then; cbn [fst]. rewrite !Forall_app. split; [|split; [exact Hp|apply IH]].
    destruct nc; repeat constructor. exact Hsep.
Qed.

Lemma HandleCharacterLiteral_only_appends (c : CharLit.CharacterLiteral) :
  Forall is_Append (CharLit.HandleCharacterLiteral c []).
Proof.
  unfold CharLit.HandleCharacterLiteral, CharLit.prefix.
  destruct (CharLit.getKind c), (CharLit.escape (CharLit.getValue c));
    repeat match goal with |- context [if ?b then _ else _] => destruct b end;
    repeat constructor.
Qed.

Lemma only_appends_effect (stmt : Expr) :
  forall self : Generator, Forall is_Append (effect (InsertArgExpr self stmt)).1.
Proof.
  induction stmt as
    [ d | value builtin | c | value | | | op lhs IHl rhs IHr | op post sub IH
    | cond IHc lhs IHl rhs IHr | lhs IHl rhs IHr | base IH isArrow name
    | sub IH | sub IH | sub IH | sub IH | callee IHf args IHargs
    | src IHsrc | common IHcommon sub IH size | loc | loc operand IHop ];
    intros self; rewrite effect_InsertArgExpr;
    unfold of_expr, in_braces, and_then, writes, complains, nothing;
    cbn [fst snd]; rewrite ?Forall_app; repeat split;
    try solve [ repeat constructor | auto ].
  - destruct self; [| destruct (_ || _) | |]; repeat constructor.
  - destruct builtin; repeat constructor.
  - apply HandleCharacterLiteral_only_appends.
  - destruct self; repeat constructor.
  - destruct post; cbn [fst]; rewrite Forall_app; split; auto; repeat constructor.
  - apply Forall_separated; [constructor|]. rewrite Forall_map.
    apply list_all_Forall in IHargs. eapply Forall_impl; [exact IHargs|].
    intros a Ha. apply Ha.
  - destruct src as [e|]; [|constructor]. inversion IHsrc; subst. auto.
  - apply Forall_separated; [constructor|]. rewrite Forall_map.
    apply Forall_forall. intros i _. apply IH.
  - destruct self; repeat constructor.
Qed.






Lemma head_app {A : Type} (l1 l2 : list A) :
  head (l1 ++ l2) = match head l1 with Some x => Some x | None => head l2 end.
Proof. destruct l1; reflexivity. Qed.

(** X4.  [FindDeclRef] returns the first of the name references on its
    way, and none only if there is none: the search is a walk in pre-order
    that stops at the first hit.  It does not look behind an
    [OpaqueValueExpr], nor into the common expression of an
    array-initialization loop beyond its source being a name reference. *)
Theorem FindDeclRef_first_visible (stmt : Expr) :
  FindDeclRef stmt = head (visible_refs stmt).
Proof.
  induction stmt as
    [ d | value builtin | c | value | | | op lhs IHl rhs IHr | op post sub IH
    | cond IHc lhs IHl rhs IHr | lhs IHl rhs IHr | base IH isArrow name
    | sub IH | sub IH | sub IH | sub IH | callee IHf args IHargs
    | src IHsrc | common IHcommon sub IH size | loc | loc operand IHop ];
    cbn [FindDeclRef visible_refs]; rewrite ?head_app, <- ?IHl, <- ?IHr, <- ?IHc, <- ?IH;
    try reflexivity.
  - rewrite <- IHf. destruct (FindDeclRef callee); [reflexivity|].
    apply list_all_Forall in IHargs.
    induction IHargs as [|a rest Ha Hrest IHrest]; [reflexivity|].
    rewrite head_app, <- Ha, IHrest. reflexivity.
  - destruct common as [[]|]; reflexivity.
  - destruct operand as [e|]; [|reflexivity]. inversion IHop; subst. assumption.
Qed.

Lemma ForEachArg_ext {A : Type} (f g : A -> State -> State) (l : list A) :
  Forall (fun a => forall s, f a s = g a s) l ->
  forall needsComma s, ForEachArg f l needsComma s = ForEachArg g l needsComma s.
Proof.
  induction 1 as [|a rest Ha Hrest IH]; intros nc s; [reflexivity|].
  cbn [ForEachArg]. rewrite Ha. apply IH.
Qed.

(** X5.  The three derived generators differ from [CodeGenerator] only at
    the nodes they override: on an expression in which the generator gets
    to lower no name reference that is empty or ends in [::] (for
    [StructuredBindingsCodeGenerator]), no [ArrayInitIndexExpr] (for
    [ArrayInitCodeGenerator]) and no [CXXThisExpr] (for
    [LambdaCodeGenerator]), a derived generator does what the base class
    does. *)
Theorem derived_generator_agrees (stmt : Expr) :
  forall (self : Generator) (s : State),
    plain self stmt = true ->
    InsertArgExpr self stmt s = InsertArgExpr CodeGenerator stmt s.
Proof.
  induction stmt as
    [ d | value builtin | c | value | | | op lhs IHl rhs IHr | op post sub IH
    | cond IHc lhs IHl rhs IHr | lhs IHl rhs IHr | base IH isArrow name
    | sub IH | sub IH | sub IH | sub IH | callee IHf args IHargs
    | src IHsrc | common IHcommon sub IH size | loc | loc operand IHop ];
    intros self s H; cbn [plain] in H; apply andb_true_iff in H as [Hov H];
    apply negb_true_iff in Hov; repeat rewrite andb_true_iff in H;
    expr_dispatch; try reflexivity.
  - destruct self; try reflexivity. cbn [overridden] in Hov. rewrite Hov. reflexivity.
  - destruct self; try reflexivity. discriminate Hov.
  - unfold LAMBDA_SCOPE_HELPER. cbv zeta. destruct H as [Hl Hr].
    rewrite (IHl self _ Hl), (IHr self _ Hr). reflexivity.
  - rewrite (IH self _ H). reflexivity.
  - destruct H as [[Hc Hl] Hr].
    rewrite (IHc self _ Hc), (IHl self _ Hl), (IHr self _ Hr). reflexivity.
  - destruct H as [Hl Hr]. rewrite (IHl self _ Hl), (IHr self _ Hr). reflexivity.
  - rewrite (IH self _ H). reflexivity.
  - unfold WrapInParensOrCurlys. rewrite (IH self _ H). reflexivity.
  - apply IH, H.
  - apply IH, H.
  - apply IH, H.
  - unfold LAMBDA_SCOPE_HELPER, WrapInParensOrCurlys. cbv zeta. destruct H as [Hf Hargs].
    rewrite (IHf self _ Hf).
    rewrite (ForEachArg_ext (fun arg => InsertArgExpr self arg)
                            (fun arg => InsertArgExpr CodeGenerator arg) args);
      [reflexivity|].
    clear -IHargs Hargs. apply list_all_Forall in IHargs.
    induction IHargs as [|a rest Ha Hrest IHrest]; constructor.
    + apply andb_true_iff in Hargs as [Hargs _]. intros s. apply Ha, Hargs.
    + apply andb_true_iff in Hargs as [_ Hargs]. apply IHrest, Hargs.
  - destruct src as [e|]; [|reflexivity]. inversion IHsrc; subst. auto.
  - destruct self; try reflexivity. discriminate Hov.
Qed.

(** [std::get<0>(__pair5)] holds no reference the generator for structured
    bindings would rewrite. *)
Lemma derived_generator_agrees_witness :
  let get := DeclRefExpr (mkDeclRef "std::get<0>" "get" true) in
  let pair := DeclRefExpr (mkDeclRef "__pair5" "__pair5" true) in
  let stmt := CallExpr (ImplicitCastExpr get) [pair] in
  plain (StructuredBindingsCodeGenerator "__pair5") stmt = true /\
  InsertArgExpr (StructuredBindingsCodeGenerator "__pair5") stmt initial =
    InsertArgExpr CodeGenerator stmt initial.
Proof.
  split; [reflexivity|].
  apply (derived_generator_agrees _ (StructuredBindingsCodeGenerator "__pair5") initial).
  reflexivity.
Defined.

End TraversalSpec.

(** ** Scopes                                                              *)

Module ScopeSpec.

Import Gen GenFacts Effects TraversalTerms ScopeTerms.

Lemma nesting_app (E1 E2 : list Out) (d : nat) :
  nesting (E1 ++ E2) d =
  match nesting E1 d with Some d' => nesting E2 d' | None => None end.
Proof.
  revert d. induction E1 as [|o E1 IH]; intros d; [reflexivity|].
  destruct o; cbn [app nesting]; try apply IH; destruct d; try reflexivity; apply IH.
Qed.

Lemma moves_ext (f g : State -> State) (a b : nat) :
  (forall s, f s = g s) -> moves g a b -> moves f a b.
Proof. intros H Hg s d Hs. rewrite H. apply Hg, Hs. Qed.

Lemma moves_id (a : nat) : moves (fun s => s) a a.
Proof. intros s d H. exact H. Qed.

Lemma moves_seq (h g : State -> State) (a b c : nat) :
  moves h a b -> moves g b c -> moves (fun s => g (h s)) a c.
Proof. intros Hh Hg s d H. apply Hg, Hh, H. Qed.

Lemma moves_Append (text : string) (a : nat) : moves (emit (Append text)) a a.
Proof. intros s d H. cbn. rewrite nesting_app, H. reflexivity. Qed.

Lemma moves_AppendNewLine (text : string) (a : nat) :
  moves (emit (AppendNewLine text)) a a.
Proof. intros s d H. cbn. rewrite nesting_app, H. reflexivity. Qed.

Lemma moves_OpenScope (a : nat) : moves (emit OpenScope) a (S a).
Proof. intros s d H. cbn. rewrite nesting_app, H. cbn. f_equal. lia. Qed.

Lemma moves_CloseScope (nl : NoNewLineBefore) (a : nat) :
  moves (emit (CloseScope nl)) (S a) a.
Proof.
  intros s d H. cbn. rewrite nesting_app, H.
  replace (d + S a) with (S (d + a)) by lia. reflexivity.
Qed.

Lemma moves_report (loc : SourceLocation) (msg : string) (a : nat) :
  moves (report loc msg) a a.
Proof. intros s d H. exact H. Qed.

Lemma moves_TODO (loc : SourceLocation) (a : nat) : moves (TODO loc) a a.
Proof. intros s d H. unfold TODO. apply (moves_Append TODO_marker a s d H). Qed.

Lemma moves_scope (k : LambdaCallerType.t) (f : State -> State) (a b : nat) :
  moves f a b -> moves (LAMBDA_SCOPE_HELPER k f) a b.
Proof. intros Hf s d H. unfold LAMBDA_SCOPE_HELPER. cbn. apply Hf. exact H. Qed.

Lemma moves_on_same_buffer (f : State -> State) (a b : nat) :
  moves f a b -> moves (on_same_buffer f) a b.
Proof. intros Hf s d H. unfold on_same_buffer. cbn. apply Hf. exact H. Qed.

Lemma moves_wrap (br : BraceKind) (f : State -> State) (sp : AddSpaceAtTheEnd) (a : nat) :
  moves f a a -> moves (WrapInParensOrCurlys br f sp) a a.
Proof.
  intros Hf s d H. unfold WrapInParensOrCurlys.
  destruct br, sp;
    repeat first [ apply moves_Append | apply Hf | exact H ].
Qed.

Lemma moves_fold_left {A : Type} (step : State -> A -> State) (l : list A) (a : nat) :
  Forall (fun x => moves (fun s => step s x) a a) l ->
  moves (fun s => fold_left step l s) a a.
Proof.
  induction 1 as [|x rest Hx Hrest IH]; cbn [fold_left].
  - apply moves_id.
  - apply (moves_seq (fun s => step s x) (fun s => fold_left step rest s) a a a Hx IH).
Qed.

Lemma moves_InsertArgExpr (self : Generator) (stmt : Expr) (a : nat) :
  moves (InsertArgExpr self stmt) a a.
Proof.
  intros s d H.
  rewrite (framed_eq _ (InsertArgExpr_framed stmt self)). cbn [mOutputFormatHelper].
  pose proof (TraversalSpec.only_appends_effect stmt self) as Happ.
  cbn [fst effect] in Happ.
  rewrite nesting_app, H.
  induction Happ as [|o E Ho HE IH]; [reflexivity|].
  destruct o; try destruct Ho. exact IH.
Qed.

Lemma moves_InsertArgExprPtr (self : Generator) (p : option Expr) (a : nat) :
  moves (InsertArgExprPtr self p) a a.
Proof. destruct p; [apply moves_InsertArgExpr | apply moves_id]. Qed.

(** One step of a proof by the shape of the routine: the lemma for its
    head, or a split at its last step, where the level in between is found
    by going through the steps in order. *)
Ltac moves_eta :=
  lazymatch goal with
  | |- moves (fun s => ?f s) ?a ?b => change (moves f a b)
  | _ => idtac
  end.

Ltac moves_basic :=
  moves_eta;
  lazymatch goal with
  | |- moves (fun s => s) _ _ => apply moves_id
  | |- moves (emit (Append _)) _ _ => apply moves_Append
  | |- moves (emit (AppendNewLine _)) _ _ => apply moves_AppendNewLine
  | |- moves (emit OpenScope) _ _ => apply moves_OpenScope
  | |- moves (emit (CloseScope _)) _ _ => apply moves_CloseScope
  | |- moves (report _ _) _ _ => apply moves_report
  | |- moves (TODO _) _ _ => apply moves_TODO
  | |- moves (InsertArgExpr _ _) _ _ => apply moves_InsertArgExpr
  | |- moves (InsertArgExprPtr _ _) _ _ => apply moves_InsertArgExprPtr
  end.

Ltac moves_split :=
  lazymatch goal with
  | |- moves (fun s => s) _ _ => apply moves_id
  | |- moves (fun s => ?g (@?h s)) _ _ => eapply (moves_seq h g)
  end.

Ltac moves_step :=
  moves_eta;
  lazymatch goal with
  | |- moves (LAMBDA_SCOPE_HELPER _ _) _ _ => apply moves_scope
  | |- moves (on_same_buffer _) _ _ => apply moves_on_same_buffer
  | |- moves (WrapInParensOrCurlys _ _ _) _ _ => apply moves_wrap
  | _ => first [ moves_basic | moves_split ]
  end.

Ltac moves_auto := repeat moves_step.

Lemma moves_HandleLocalStaticNonTrivialClass (v : VarInfo) (a : nat) :
  moves (HandleLocalStaticNonTrivialClass v) a a.
Proof. unfold HandleLocalStaticNonTrivialClass. cbv zeta. moves_auto. Qed.

Lemma moves_binding_body (self : Generator) (tmp : string) (isRefToObject : bool)
    (bindingDecl : BindingDecl) (a : nat) :
  moves (fun s => binding_body self tmp isRefToObject s bindingDecl) a a.
Proof.
  unfold binding_body.
  destruct (getBinding bindingDecl) as [binding|]; [|apply moves_id].
  cbv zeta.
  destruct (getHoldingVar bindingDecl) as [[e|]|].
  - moves_auto.
  - destruct binding; moves_auto.
  - destruct binding; moves_auto.
Qed.

Lemma moves_InsertArgDecompositionDecl (self : Generator) (v : VarInfo) (init : Expr)
    (bindings : list BindingDecl) (a : nat) :
  moves (InsertArgDecompositionDecl self v init bindings) a a.
Proof.
  unfold InsertArgDecompositionDecl. cbv zeta.
  apply (moves_seq
           (fun s => emit (AppendNewLine ";")
                       (InsertArgExpr self init
                          (emit (Append (GetTypeNameAsParameter (varType v)
                                           (tmpVarName (FindDeclRef init) v) +:+ " = "))
                                match FindDeclRef init with
                                | Some _ => s
                                | None => report (varLocStart v) ("unknown decl" +:+ Lambda.LF) s
                                end)))
           (fun s => fold_left (binding_body self (tmpVarName (FindDeclRef init) v)
                                             (IsReference (varType v))) bindings s) a a a).
  - destruct (FindDeclRef init); moves_auto.
  - apply moves_fold_left, Forall_forall. intros b _. apply moves_binding_body.
Qed.

Lemma moves_InsertArgVarDecl (self : Generator) (stmt : VarDecl) (a : nat) :
  moves (InsertArgVarDecl self stmt) a a.
Proof.
  unfold InsertArgVarDecl. apply moves_scope.
  destruct stmt as [v init|v init bindings].
  - destruct (IsTrivialStaticClassVarDecl v);
      [apply moves_HandleLocalStaticNonTrivialClass|].
    cbv zeta.
    destruct (isFunctionPointerType (varType v)), init, (isNRVOVariable v); moves_auto.
  - apply moves_InsertArgDecompositionDecl.
Qed.

Lemma moves_InsertArgDecl (self : Generator) (stmt : Decl) (a : nat) :
  moves (InsertArgDecl self stmt) a a.
Proof.
  destruct stmt as [vd|name t|loc]; unfold InsertArgDecl; cbn.
  - apply moves_InsertArgVarDecl.
  - unfold InsertArgTypeAliasDecl. moves_auto.
  - moves_auto.
Qed.

Lemma moves_InsertArgDeclStmt (self : Generator) (decls : list Decl) (a : nat) :
  moves (InsertArgDeclStmt self decls) a a.
Proof.
  unfold InsertArgDeclStmt.
  apply (moves_fold_left (fun s decl => InsertArgDecl self decl s)), Forall_forall.
  intros d _. apply moves_InsertArgDecl.
Qed.

Lemma moves_HandleCompoundStmt (self : Generator) (body : list Stmt) (a : nat) :
  Forall (fun item => moves (InsertArgStmt self item) a a) body ->
  moves (HandleCompoundStmt self body) a a.
Proof.
  intros H. unfold HandleCompoundStmt.
  apply (moves_fold_left
           (fun s item => let s1 := InsertArgStmt self item s in
                          if negb (isa_DeclStmt item)
                          then emit (AppendNewLine ";") s1 else s1)).
  eapply Forall_impl; [exact H|]. intros item Hitem. cbv zeta.
  destruct (negb (isa_DeclStmt item)); [moves_split; [exact Hitem|moves_basic]|].
  exact Hitem.
Qed.

Lemma moves_InsertArgStmt_items (stmt : Stmt) :
  (forall (self : Generator) (a : nat), moves (InsertArgStmt self stmt) a a) /\
  (forall (self : Generator) (items : list Stmt) (a : nat),
      stmt = CompoundStmt items -> moves (HandleCompoundStmt self items) a a).
Proof.
  induction stmt as
    [ e | | body IHbody | decls | retValue | | cond body IHbody
    | rangeStmt beginStmt endStmt cond inc loopVariable body IHbody | loc ];
    (split; [intros self a | intros self items a Heq; try discriminate Heq]);
    try (eapply moves_ext; [intros s; stmt_dispatch; reflexivity|]).
  - apply moves_InsertArgExpr.
  - moves_basic.
  - moves_split; [moves_split|]; [moves_basic| |moves_basic].
    apply (moves_HandleCompoundStmt self body).
    apply list_all_Forall in IHbody.
    eapply Forall_impl; [exact IHbody|]. intros item H. apply H.
  - injection Heq as <-.
    apply (moves_HandleCompoundStmt self body).
    apply list_all_Forall in IHbody.
    eapply Forall_impl; [exact IHbody|]. intros item H. apply H.
  - apply moves_InsertArgDeclStmt.
  - apply moves_scope. destruct retValue; moves_auto.
  - moves_basic.
  - destruct body as [b|].
    + inversion IHbody; subst.
      match goal with H : _ /\ _ |- _ => destruct H as [Hb _] end.
      moves_split; [|apply Hb]. moves_auto.
    + moves_auto.
  - destruct IHbody as [Hbody Hitems].
    destruct body; cbn [isa_CompoundStmt isa_NullStmt negb andb];
      repeat lazymatch goal with
             | |- moves (InsertArgStmt _ _) _ _ => apply Hbody
             | |- moves (fun s => fold_left _ _ s) _ _ => apply (Hitems self _ _ eq_refl)
             | |- moves (fold_left _ _) _ _ => apply (Hitems self _ _ eq_refl)
             | |- moves (InsertArgVarDecl _ _) _ _ => apply moves_InsertArgVarDecl
             | |- moves (InsertArgDeclStmt _ _) _ _ => apply moves_InsertArgDeclStmt
             | _ => moves_step
             end.
  - moves_basic.
Qed.

(** X6.  A statement closes the scopes it opens and no other: lowered
    into a buffer that is [d] scopes deep, it leaves the buffer [d] scopes
    deep, and at no point in between does it close a scope that was open
    before it started (started on an empty buffer, it never closes more
    than it has opened).  This holds of blocks, of the two scopes of a
    range-based for, and of the guard of a static local. *)
Theorem InsertArgStmt_keeps_nesting (self : Generator) (stmt : Stmt) (s : State) (d : nat) :
  nesting (mOutputFormatHelper s) 0 = Some d ->
  nesting (mOutputFormatHelper (InsertArgStmt self stmt s)) 0 = Some d.
Proof.
  intros H. pose proof (proj1 (moves_InsertArgStmt_items stmt) self 0 s d) as Hm.
  rewrite !Nat.add_0_r in Hm. apply Hm, H.
Qed.

(** A block with a [break] inside a scope that is already open. *)
Lemma InsertArgStmt_keeps_nesting_witness :
  let s := emit OpenScope initial in
  let stmt := CompoundStmt [BreakStmt] in
  nesting (mOutputFormatHelper s) 0 = Some 1 /\
  nesting (mOutputFormatHelper (InsertArgStmt CodeGenerator stmt s)) 0 = Some 1.
Proof.
  split; [reflexivity|].
  apply (InsertArgStmt_keeps_nesting CodeGenerator (CompoundStmt [BreakStmt])
           (emit OpenScope initial) 1).
  reflexivity.
Defined.

End ScopeSpec.

(** ** The class of a closure                                             *)

Module CaptureSpec.

Import Lambda CaptureTerms.












End CaptureSpec.

Module LambdaExprSpec.

Import Lambda LambdaLowering CaptureTerms.








End LambdaExprSpec.


(** ** Branches and loops                                                 *)

Module ControlSpec.

Import Gen GenFacts Effects ScopeTerms ScopeSpec ControlTerms.

(** One step of a framing proof by the shape of the routine. *)
Ltac control_step :=
  lazymatch goal with
  | |- framed (fun s => ?f s) => change (framed f)
  | _ => idtac
  end;
  lazymatch goal with
  | |- framed (fun s => s) => apply framed_id
  | |- framed (emit _) => apply framed_emit
  | |- framed (InsertArgExpr _ _) => apply InsertArgExpr_framed
  | |- framed (InsertArgExprPtr _ _) => apply InsertArgExprPtr_framed
  | |- framed (InsertArgVarDecl _ _) => apply InsertArgVarDecl_framed
  | |- framed (InsertArgStmt _ _) => apply InsertArgStmt_framed
  | |- framed (WrapInParensOrCurlys _ _ _) => apply framed_wrap
  | |- framed (Control.InsertArg _ _) => solve [eauto]
  | |- framed (fun s => ?g (@?h s)) => apply (framed_seq h g)
  end.

Ltac control_auto := repeat control_step.

Lemma Block_items_framed (self : Generator) (body : list Control.Statement) :
  Forall (fun item => framed (Control.InsertArg self item)) body ->
  framed (Control.HandleCompoundStmt self body).
Proof.
  intros H. unfold Control.HandleCompoundStmt.
  apply (framed_fold_left
           (fun s item => let s1 := Control.InsertArg self item s in
                          if negb (Control.isa_IfStmt item) && negb (Control.isa_ForStmt item)
                             && negb (Control.isa_DeclStmt item)
                          then emit (AppendNewLine ";") s1 else s1)).
  eapply Forall_impl; [exact H|]. intros item Hitem. cbv zeta.
  destruct (_ && _); [framed_split; [exact Hitem|framed_basic]|].
  exact Hitem.
Qed.

Lemma Statement_framed (stmt : Control.Statement) :
  forall self : Generator, framed (Control.InsertArg self stmt).
Proof.
  induction stmt as
    [ st | body IHbody | cx init IHinit cv cond body IHbody els IHels
    | init IHinit cond inc body IHbody | body IHbody cond
    | init IHinit cv cond body IHbody | lhs sub IHsub | sub IHsub ];
    intros self; cbn [Control.InsertArg]; cbv zeta.
  - apply InsertArgStmt_framed.
  - framed_split; [framed_split|]; [framed_basic| |framed_basic].
    apply (Block_items_framed self body).
    apply list_all_Forall in IHbody.
    eapply Forall_impl; [exact IHbody|]. intros item H. apply H.
  - assert (Hinit : forall st, init = Some st -> framed (Control.InsertArg self st)).
    { intros st ->. inversion IHinit; subst. auto. }
    assert (Hels : forall st, els = Some st -> framed (Control.InsertArg self st)).
    { intros st ->. inversion IHels; subst. auto. }
    destruct init as [i|], cv as [v|], els as [e|];
      try (pose proof (Hinit _ eq_refl) as Hi); try (pose proof (Hels _ eq_refl) as He);
      clear Hinit Hels IHinit IHels;
      destruct (negb (Control.isa_CompoundStmt body) && negb (Control.isa_NullStmt body));
      destruct (Control.isa_CompoundStmt body);
      try destruct (Control.isa_IfStmt e);
      control_auto.
  - assert (Hinit : forall st, init = Some st -> framed (Control.InsertArg self st)).
    { intros st ->. inversion IHinit; subst. auto. }
    destruct init as [i|]; try (pose proof (Hinit _ eq_refl) as Hi); clear Hinit IHinit;
      control_auto.
  - destruct (Control.isa_CompoundStmt body); control_auto.
  - assert (Hinit : forall st, init = Some st -> framed (Control.InsertArg self st)).
    { intros st ->. inversion IHinit; subst. auto. }
    destruct init as [i|], cv as [v|];
      try (pose proof (Hinit _ eq_refl) as Hi); clear Hinit IHinit;
      control_auto.
  - control_auto.
  - control_auto.
Qed.

Lemma Block_items_framed_all (self : Generator) (body : list Control.Statement) :
  framed (Control.HandleCompoundStmt self body).
Proof.
  apply Block_items_framed, Forall_forall. intros item _. apply Statement_framed.
Qed.

Lemma moves_Block_items (self : Generator) (body : list Control.Statement) (a : nat) :
  Forall (fun item => moves (Control.InsertArg self item) a a) body ->
  moves (Control.HandleCompoundStmt self body) a a.
Proof.
  intros H. unfold Control.HandleCompoundStmt.
  apply (moves_fold_left
           (fun s item => let s1 := Control.InsertArg self item s in
                          if negb (Control.isa_IfStmt item) && negb (Control.isa_ForStmt item)
                             && negb (Control.isa_DeclStmt item)
                          then emit (AppendNewLine ";") s1 else s1)).
  eapply Forall_impl; [exact H|]. intros item Hitem. cbv zeta.
  destruct (_ && _); [moves_split; [exact Hitem|moves_basic]|].
  exact Hitem.
Qed.

Ltac control_moves :=
  repeat (moves_eta;
          lazymatch goal with
         | |- moves (InsertArgVarDecl _ _) _ _ => apply moves_InsertArgVarDecl
         | |- moves (InsertArgStmt _ _) _ _ => apply (proj1 (moves_InsertArgStmt_items _))
          | |- moves (Control.InsertArg _ _) _ _ => solve [eauto]
          | _ => moves_step
          end).

Lemma moves_Statement (stmt : Control.Statement) :
  forall (self : Generator) (a : nat), moves (Control.InsertArg self stmt) a a.
Proof.
  induction stmt as
    [ st | body IHbody | cx init IHinit cv cond body IHbody els IHels
    | init IHinit cond inc body IHbody | body IHbody cond
    | init IHinit cv cond body IHbody | lhs sub IHsub | sub IHsub ];
    intros self a; cbn [Control.InsertArg]; cbv zeta.
  - apply (proj1 (moves_InsertArgStmt_items st)).
  - moves_split; [moves_split|]; [moves_basic| |moves_basic].
    apply (moves_Block_items self body).
    apply list_all_Forall in IHbody.
    eapply Forall_impl; [exact IHbody|]. intros item H. apply H.
  - assert (Hinit : forall st a, init = Some st -> moves (Control.InsertArg self st) a a).
    { intros st a' ->. inversion IHinit; subst. auto. }
    assert (Hels : forall st a, els = Some st -> moves (Control.InsertArg self st) a a).
    { intros st a' ->. inversion IHels; subst. auto. }
    destruct init as [i|], cv as [v|], els as [e|];
      try (pose proof (fun a => Hinit _ a eq_refl) as Hi);
      try (pose proof (fun a => Hels _ a eq_refl) as He);
      clear Hinit Hels IHinit IHels;
      destruct (negb (Control.isa_CompoundStmt body) && negb (Control.isa_NullStmt body));
      destruct (Control.isa_CompoundStmt body);
      try destruct (Control.isa_IfStmt e);
      control_moves.
  - assert (Hinit : forall st a, init = Some st -> moves (Control.InsertArg self st) a a).
    { intros st a' ->. inversion IHinit; subst. auto. }
    moves_split; [|moves_basic]. moves_split; [|apply IHbody].
    moves_split; [|moves_basic]. moves_split; [moves_basic|].
    apply moves_wrap.
    destruct init as [i|]; try (pose proof (fun a => Hinit _ a eq_refl) as Hi);
      clear Hinit IHinit; control_moves.
  - destruct (Control.isa_CompoundStmt body); control_moves.
  - assert (Hinit : forall st a, init = Some st -> moves (Control.InsertArg self st) a a).
    { intros st a' ->. inversion IHinit; subst. auto. }
    destruct init as [i|], cv as [v|];
      try (pose proof (fun a => Hinit _ a eq_refl) as Hi); clear Hinit IHinit;
      control_moves.
  - control_moves.
  - control_moves.
Qed.

(** X10.  Branches and loops close the scopes they open and no other:
    a statement lowered into a buffer that is [d] scopes deep leaves it [d]
    scopes deep, without closing a scope that was open before.  The scope
    an [if] or a [switch] opens for its init statement or condition
    variable is closed at its end, and so is the one around an [else if]. *)
Theorem Statement_keeps_nesting (self : Generator) (stmt : Control.Statement)
    (s : State) (d : nat) :
  nesting (mOutputFormatHelper s) 0 = Some d ->
  nesting (mOutputFormatHelper (Control.InsertArg self stmt s)) 0 = Some d.
Proof.
  intros H. pose proof (moves_Statement stmt self 0 s d) as Hm.
  rewrite !Nat.add_0_r in Hm. apply Hm, H.
Qed.


(** Replace every routine applied to a state by what it appends. *)
Ltac control_frames :=
  repeat match goal with
         | |- context [Control.InsertArg ?self ?st ?x] =>
             rewrite (framed_eq _ (Statement_framed st self) x)
         | |- context [InsertArgExpr ?self ?e ?x] =>
             rewrite (framed_eq _ (InsertArgExpr_framed e self) x)
         | |- context [InsertArgExprPtr ?self ?p ?x] =>
             rewrite (framed_eq _ (InsertArgExprPtr_framed self p) x)
         | |- context [InsertArgVarDecl ?self ?v ?x] =>
             rewrite (framed_eq _ (InsertArgVarDecl_framed self v) x)
         end.

(** X11.  An [if] is written as: a scope, only if it has an init
    statement or a condition variable, with the condition variable ahead of
    the init statement; [if], [constexpr] where it applies, and the
    condition in parentheses; the then-branch, with a terminator unless it
    is a block or a null statement; for an else-branch [else] (behind a
    space after a block), with the [constexpr] in a comment, and the
    branch, in a scope of its own when it is an [if] again and in no case
    with a terminator; the end of the line; the closing brace and a blank
    line for the scope opened at the start. *)
Theorem InsertArg_IfStmt (self : Generator) (isConstexpr : bool)
    (init : option Control.Statement) (conditionVariable : option VarDecl) (cond : Expr)
    (thenStmt : Control.Statement) (elseStmt : option Control.Statement) (s : State) :
  let hasInit :=
    match init, conditionVariable with None, None => false | _, _ => true end in
  mOutputFormatHelper
    (Control.InsertArg self
       (Control.IfStmt isConstexpr init conditionVariable cond thenStmt elseStmt) s)
  = mOutputFormatHelper s
    ++ (if hasInit then [OpenScope] else [])
    ++ match conditionVariable with
       | Some conditionVar => emitted (InsertArgVarDecl self conditionVar)
       | None => []
       end
    ++ of_ptr self init
    ++ [Append ("if" +:+ (if isConstexpr then Control.kwSpaceConstExpr else ""));
        Append "("]
    ++ emitted (InsertArgExpr self cond)
    ++ [Append ")"; Append " "]
    ++ emitted (Control.InsertArg self thenStmt)
    ++ (if Control.isa_CompoundStmt thenStmt || Control.isa_NullStmt thenStmt
        then [] else [AppendNewLine ";"])
    ++ match elseStmt with
       | Some elsePart =>
           (if Control.isa_CompoundStmt thenStmt then [Append " "] else [])
           ++ [Append ("else " +:+ (if isConstexpr
                                    then "/* " +:+ Control.kwConstExprSpace +:+ "*/ "
                                    else ""))]
           ++ (if Control.isa_IfStmt elsePart then [OpenScope] else [])
           ++ emitted (Control.InsertArg self elsePart)
           ++ (if Control.isa_IfStmt elsePart then [CloseScope NNL_No] else [])
       | None => []
       end
    ++ [AppendNewLine ""]
    ++ (if hasInit then [CloseScope NNL_No; AppendNewLine ""] else []).
Proof.
  cbv zeta. cbn [Control.InsertArg]. cbv zeta. unfold WrapInParensOrCurlys, of_ptr.
  destruct init as [i|], conditionVariable as [v|], elseStmt as [e|];
    control_frames;
    destruct (Control.isa_CompoundStmt thenStmt), (Control.isa_NullStmt thenStmt);
    try destruct (Control.isa_IfStmt e);
    cbn [negb andb orb emit mOutputFormatHelper mLambdaStack diagnostics];
    repeat rewrite <- app_assoc; reflexivity.
Qed.


(** X12.  A [for] is written as [for], then in parentheses the init
    statement as it is lowered, or ["; "] when there is none, the
    condition, ["; "] and the increment, then the body on a line of its
    own.  The separator behind the init statement is the one the init
    statement brings along: a declaration ends in one, an expression does
    not. *)
Theorem InsertArg_ForStmt (self : Generator) (init : option Control.Statement)
    (cond inc : option Expr) (body : Control.Statement) (s : State) :
  mOutputFormatHelper (Control.InsertArg self (Control.ForStmt init cond inc body) s)
  = mOutputFormatHelper s
    ++ [Append "for"; Append "("]
    ++ match init with
       | Some st => emitted (Control.InsertArg self st)
       | None => [Append "; "]
       end
    ++ emitted (InsertArgExprPtr self cond)
    ++ [Append "; "]
    ++ emitted (InsertArgExprPtr self inc)
    ++ [Append ")"; Append " "; AppendNewLine ""]
    ++ emitted (Control.InsertArg self body)
    ++ [AppendNewLine ""].
Proof.
  cbn [Control.InsertArg]. cbv zeta. unfold WrapInParensOrCurlys.
  destruct init as [i|];
    control_frames;
    cbn [emit mOutputFormatHelper mLambdaStack diagnostics];
    repeat rewrite <- app_assoc; reflexivity.
Qed.

(** X13.  [HandleCompoundStmt] writes the items of a block in source
    order, each followed by a terminator unless it is an [if], a [for] or
    a declaration statement; a nested block, a [while], a [do] and a
    [switch] do get one. *)
Theorem Block_items_terminated (self : Generator) (body : list Control.Statement)
    (s : State) :
  mOutputFormatHelper (Control.HandleCompoundStmt self body s)
  = mOutputFormatHelper s ++ flat_map (terminated self) body.
Proof.
  revert s. induction body as [|item rest IH]; intros s.
  - cbn. rewrite app_nil_r. reflexivity.
  - unfold Control.HandleCompoundStmt in *. cbn [fold_left flat_map]. rewrite IH.
    unfold terminated at 2.
    rewrite (framed_eq _ (Statement_framed item self)).
    destruct (Control.isa_IfStmt item), (Control.isa_ForStmt item),
             (Control.isa_DeclStmt item);
      cbn [negb andb orb emit mOutputFormatHelper];
      rewrite <- ?app_assoc, ?app_nil_r; reflexivity.
Qed.

(** [if (int r = f(); r) g(); else if (r2) h();] inside an open scope. *)
Lemma Statement_keeps_nesting_witness :
  let ty := mkQualType "int" (fun v => "int " +:+ v) false false false false None in
  let ref (n : string) := DeclRefExpr (mkDeclRef n n true) in
  let call (n : string) := Control.Simple (ExprStmt (CallExpr (ref n) [])) in
  let r := PlainVarDecl (mkVarInfo "r" ty (mkLoc 2 5) false false false false false false)
                        (Some (CallExpr (ref "f") [])) in
  let stmt :=
    Control.IfStmt false (Some (Control.Simple (DeclStmt [Decl_VarDecl r]))) None (ref "r")
      (call "g")
      (Some (Control.IfStmt false None None (ref "r2") (call "h") None)) in
  let s := emit OpenScope initial in
  nesting (mOutputFormatHelper s) 0 = Some 1 /\
  nesting (mOutputFormatHelper (Control.InsertArg CodeGenerator stmt s)) 0 = Some 1.
Proof.
  cbv zeta. split; [reflexivity|].
  apply Statement_keeps_nesting. reflexivity.
Defined.

End ControlSpec.


(** ** Casts                                                              *)

Module CastSpec.

Import Gen GenFacts Casts CastTerms.

Section Matcher.

Variable IsMatchingCast : CastKind -> bool.

Lemma FormatCast_castName (name : string) (type : DestType) (subExpr : Casts.State -> Casts.State)
    (castKind : CastKind) (comment : AsComment) (s : Casts.State) (n : option string) :
  (forall s', castName s' = n -> castName (subExpr s') = n) ->
  castName s = n ->
  castName (FormatCast name type subExpr castKind comment s) = n.
Proof.
  intros Hsub Hs. unfold FormatCast. destruct comment; cbn [Casts.emit castName];
    apply Hsub; cbn [Casts.emit castName]; exact Hs.
Qed.

(** Once initialized, the static keeps its value. *)
Lemma castName_kept (self : Generator) (stmt : Cast) :
  forall (s : Casts.State) (name : string),
    castName s = Some name ->
    castName (InsertArg IsMatchingCast self stmt s) = Some name.
Proof.
  induction stmt as [e|n ty k sub IH|ty k sub IH|ty k sub IH]; intros s name Hs;
    cbn [InsertArg].
  - exact Hs.
  - apply FormatCast_castName; [intros s' Hs'; apply IH, Hs' | exact Hs].
  - apply FormatCast_castName; [intros s' Hs'; apply IH, Hs' | exact Hs].
  - destruct (negb (IsMatchingCast k)); [apply IH, Hs|].
    destruct (isa_IntegerLiteral sub); [apply IH, Hs|].
    cbv zeta. rewrite Hs.
    apply FormatCast_castName; [intros s' Hs'; apply IH, Hs' | exact Hs].
Qed.

Lemma castName_first (self : Generator) (type : DestType) (castKind : CastKind)
    (subExpr : Cast) (s : Casts.State) :
  written_out IsMatchingCast (ImplicitCastExpr type castKind subExpr) = true ->
  castName s = None ->
  castName (InsertArg IsMatchingCast self (ImplicitCastExpr type castKind subExpr) s)
  = Some (cast_name castKind).
Proof.
  intros Hw Hs. cbn [written_out] in Hw. apply andb_true_iff in Hw as [Hm Hl].
  cbn [InsertArg]. rewrite Hm. apply negb_true_iff in Hl. rewrite Hl. cbn [negb].
  cbv zeta. rewrite Hs.
  apply FormatCast_castName; [|reflexivity].
  intros s' Hs'. apply castName_kept, Hs'.
Qed.

Lemma castName_fold (self : Generator) (stmts : list Cast) :
  forall (s : Casts.State) (name : string),
    castName s = Some name ->
    castName (fold_left (fun s c => InsertArg IsMatchingCast self c s) stmts s) = Some name.
Proof.
  induction stmts as [|c rest IH]; intros s name Hs; [exact Hs|].
  cbn [fold_left]. apply IH, castName_kept, Hs.
Qed.


Lemma appends_id (n : option string) : appends (fun s => s) n n.
Proof. exists [], []. intros [o st d]. cbn. rewrite !app_nil_r. reflexivity. Qed.





(** X15.  The static [castName] is initialized by the first implicit
    cast that is written out, from the kind of that cast, and is what
    every later implicit cast is written with: after a first cast of kind
    [castKind1], and whatever casts in between, an implicit cast of any
    kind [castKind] appears under the name that belongs to [castKind1].
    Its destination type is still its own, and it is commented out when
    it is not a bit cast and its operand is [this]. *)
Theorem implicit_cast_name_of_first (self : Generator)
    (type1 : DestType) (castKind1 : CastKind) (subExpr1 : Cast)
    (between : list Cast)
    (type : DestType) (castKind : CastKind) (e : Expr) (s : Casts.State) :
  castName s = None ->
  written_out IsMatchingCast (ImplicitCastExpr type1 castKind1 subExpr1) = true ->
  written_out IsMatchingCast (ImplicitCastExpr type castKind (Operand e)) = true ->
  let s' :=
    fold_left (fun s c => InsertArg IsMatchingCast self c s) between
      (InsertArg IsMatchingCast self (ImplicitCastExpr type1 castKind1 subExpr1) s) in
  mOutputFormatHelper
    (generator (InsertArg IsMatchingCast self (ImplicitCastExpr type castKind (Operand e)) s'))
  = mOutputFormatHelper (generator s')
    ++ comment_open castKind (Operand e)
    ++ [Append (cast_name castKind1 +:+ "<" +:+ castDestTypeText type castKind +:+ ">(")]
    ++ emitted (InsertArgExpr self e)
    ++ [Append ")"]
    ++ comment_close castKind (Operand e).
Proof.
  intros Hs H1 H2 s'.
  assert (Hname : castName s' = Some (cast_name castKind1)).
  { apply castName_fold, castName_first; assumption. }
  cbn [written_out] in H2. apply andb_true_iff in H2 as [Hm Hl].
  cbn [InsertArg]. rewrite Hm. apply negb_true_iff in Hl. rewrite Hl. cbn [negb].
  cbv zeta. rewrite Hname. cbv beta iota. rewrite Hname.
  unfold FormatCast, comment_open, comment_close.
  destruct (negb (is_BitCast castKind) && isa_CXXThisExpr (Operand e));
    cbn [InsertArg Casts.emit generator castName];
    rewrite (framed_eq _ (InsertArgExpr_framed e self));
    cbn [Gen.emit mOutputFormatHelper]; rewrite <- ?app_assoc; reflexivity.
Qed.

End Matcher.

(** A derived-to-base conversion of [d], then a bit cast of [p]: the
    second is written as a [static_cast]. *)
Lemma implicit_cast_name_of_first_witness :
  let IsMatchingCast (k : CastKind) := match k with CK_Other => false | _ => true end in
  let ref (n : string) := DeclRefExpr (mkDeclRef n n true) in
  let toBase := ImplicitCastExpr (mkDestType "Base" true false) CK_DerivedToBase
                                 (Operand (ref "d")) in
  let s := Casts.mkState initial None in
  (castName s = None /\
   written_out IsMatchingCast toBase = true /\
   written_out IsMatchingCast
     (ImplicitCastExpr (mkDestType "char *" false true) CK_BitCast (Operand (ref "p")))
   = true) /\
  mOutputFormatHelper
    (generator
       (InsertArg IsMatchingCast CodeGenerator
          (ImplicitCastExpr (mkDestType "char *" false true) CK_BitCast (Operand (ref "p")))
          (InsertArg IsMatchingCast CodeGenerator toBase s)))
  = [ Append "static_cast<Base&>("; Append "d"; Append ")";
      Append "static_cast<char *>("; Append "p"; Append ")" ].
Proof.
  cbv zeta. split; [repeat split|].
  exact (implicit_cast_name_of_first
           (fun k => match k with CK_Other => false | _ => true end) CodeGenerator
           (mkDestType "Base" true false) CK_DerivedToBase
           (Operand (DeclRefExpr (mkDeclRef "d" "d" true))) []
           (mkDestType "char *" false true) CK_BitCast
           (DeclRefExpr (mkDeclRef "p" "p" true))
           (Casts.mkState initial None) eq_refl eq_refl eq_refl).
Defined.

End CastSpec.


(** ** Calls of overloaded operators                                      *)

Module OperatorCallSpec.

Import Gen GenFacts Effects EffectFacts OperatorCall OperatorCallTerms.

Lemma InsertArgWithParensIfNeeded_framed (self : Generator) (stmt : Expr) :
  framed (InsertArgWithParensIfNeeded self stmt).
Proof.
  unfold InsertArgWithParensIfNeeded. cbv zeta.
  destruct (match IgnoreImplicit stmt with
            | UnaryOperator opCodeName _ _ => String.eqb opCodeName "*"
            | _ => false
            end); framed_auto.
Qed.

Lemma InsertArgWithParensIfNeeded_emitted (self : Generator) (stmt : Expr) :
  effect (InsertArgWithParensIfNeeded self stmt)
  = (operand self stmt, reported (InsertArgExpr self stmt)).
Proof.
  unfold InsertArgWithParensIfNeeded, operand, effect, emitted, reported. cbv zeta.
  destruct (IgnoreImplicit stmt); try reflexivity.
  destruct (String.eqb opCodeName "*"); [|reflexivity].
  rewrite (framed_eq _ (InsertArgExpr_framed stmt self)). reflexivity.
Qed.

(** X16.  A call of a binary operator whose callee and whose two
    arguments are name references under their implicit casts is written
    in one piece, from the three names: [a.op(b)] for a method, [op(a, b)]
    otherwise.  Nothing is lowered for it, and nothing is reported. *)
Theorem InsertArg_operator_in_one_piece (self : Generator) (stmt : CXXOperatorCallExpr)
    (arg1 : Expr) (callee param1 param2 : DeclRef) (s : State) :
  otherArgs stmt = [arg1] ->
  as_DeclRefExpr (IgnoreImpCasts (getCallee stmt)) = Some callee ->
  as_DeclRefExpr (IgnoreImpCasts (getArg0 stmt)) = Some param1 ->
  as_DeclRefExpr (IgnoreImpCasts arg1) = Some param2 ->
  OperatorCall.InsertArg self stmt s =
    Some (mkState
            (mOutputFormatHelper s
             ++ [Append (match calleeDecl stmt with
                         | CXXMethodDecl =>
                             refGetName param1 +:+ "." +:+ refGetName callee +:+ "("
                             +:+ refGetName param2 +:+ ")"
                         | _ =>
                             refGetName callee +:+ "(" +:+ refGetName param1 +:+ ", "
                             +:+ refGetName param2 +:+ ")"
                         end)])
            (mLambdaStack s) (diagnostics s)).
Proof.
  intros Hargs Hc H1 H2. unfold OperatorCall.InsertArg. cbv zeta.
  rewrite Hargs, Hc, H1, H2.
  cbn [emit mOutputFormatHelper mLambdaStack diagnostics].
  rewrite LambdaStackSpec.dtor_ctor.
  destruct (calleeDecl stmt); reflexivity.
Qed.

Lemma shortcut_none (stmt : CXXOperatorCallExpr) (isMethod : bool) :
  in_one_piece stmt = false ->
  match otherArgs stmt with
  | [arg1] =>
      match as_DeclRefExpr (IgnoreImpCasts (getCallee stmt)),
            as_DeclRefExpr (IgnoreImpCasts (getArg0 stmt)),
            as_DeclRefExpr (IgnoreImpCasts arg1) with
      | Some callee, Some param1, Some param2 =>
          Some (if isMethod
                then refGetName param1 +:+ "." +:+ refGetName callee +:+ "("
                     +:+ refGetName param2 +:+ ")"
                else refGetName callee +:+ "(" +:+ refGetName param1 +:+ ", "
                     +:+ refGetName param2 +:+ ")")
      | _, _, _ => None
      end
  | _ => None
  end = None.
Proof.
  unfold in_one_piece. destruct (otherArgs stmt) as [|a1 [|a2 rest]]; try reflexivity.
  destruct (as_DeclRefExpr (IgnoreImpCasts (getCallee stmt))),
           (as_DeclRefExpr (IgnoreImpCasts (getArg0 stmt))),
           (as_DeclRefExpr (IgnoreImpCasts a1)); try reflexivity; discriminate.
Qed.

(** X17.  A call that is not written in one piece and whose callee is,
    under what is implicit, a name reference to something that is neither
    a method nor a function is dropped: the generator is left exactly as
    it was, with not a call on the buffer and no diagnostic. *)
Theorem InsertArg_operator_dropped (self : Generator) (stmt : CXXOperatorCallExpr)
    (s : State) :
  in_one_piece stmt = false ->
  dropped stmt = true ->
  OperatorCall.InsertArg self stmt s = Some s.
Proof.
  intros Hs Hd. unfold OperatorCall.InsertArg. cbv zeta.
  rewrite (shortcut_none stmt _ Hs).
  unfold dropped in Hd.
  destruct (as_DeclRefExpr (IgnoreImplicit (getCallee stmt))); [|discriminate].
  destruct (calleeDecl stmt); try discriminate.
  cbn [mOutputFormatHelper mLambdaStack diagnostics].
  rewrite LambdaStackSpec.dtor_ctor. destruct s; reflexivity.
Qed.

(** X18.  The routine goes through the null pointer [callee], and so
    has no result, exactly when the callee is not a name reference under
    its implicit casts and the call is not dropped beforehand. *)
Theorem InsertArg_operator_no_result (self : Generator) (stmt : CXXOperatorCallExpr)
    (s : State) :
  OperatorCall.InsertArg self stmt s = None
  <-> as_DeclRefExpr (IgnoreImpCasts (getCallee stmt)) = None /\ dropped stmt = false.
Proof.
  unfold OperatorCall.InsertArg, dropped. cbv zeta.
  destruct (as_DeclRefExpr (IgnoreImpCasts (getCallee stmt))) as [c|] eqn:Hc.
  - split; [|intros [H _]; discriminate H].
    destruct (otherArgs stmt) as [|a1 [|a2 rest]];
      try destruct (as_DeclRefExpr (IgnoreImpCasts (getArg0 stmt)));
      try destruct (as_DeclRefExpr (IgnoreImpCasts a1));
      destruct (as_DeclRefExpr (IgnoreImplicit (getCallee stmt))), (calleeDecl stmt);
      cbn [negb]; discriminate.
  - assert (Hs : match otherArgs stmt with
                 | [arg1] =>
                     match @None DeclRef, as_DeclRefExpr (IgnoreImpCasts (getArg0 stmt)),
                           as_DeclRefExpr (IgnoreImpCasts arg1) with
                     | Some callee, Some param1, Some param2 =>
                         Some (if match calleeDecl stmt with CXXMethodDecl => true | _ => false end
                               then refGetName param1 +:+ "." +:+ refGetName callee +:+ "("
                                    +:+ refGetName param2 +:+ ")"
                               else refGetName callee +:+ "(" +:+ refGetName param1 +:+ ", "
                                    +:+ refGetName param2 +:+ ")")
                     | _, _, _ => None
                     end
                 | _ => None
                 end = None).
    { destruct (otherArgs stmt) as [|a1 [|a2 rest]]; reflexivity. }
    rewrite Hs. cbn [negb].
    destruct (as_DeclRefExpr (IgnoreImplicit (getCallee stmt))), (calleeDecl stmt);
      split; try discriminate; try (intros [_ H]; discriminate H); auto.
Qed.


Lemma argument_framed (self : Generator) (isCXXMethod : bool) (child : Expr) :
  framed (fun s => InsertArgExpr self child
                     (if negb isCXXMethod then emit (Append ", ") s else s)).
Proof. destruct isCXXMethod; cbn [negb]; framed_auto. Qed.

Lemma argument_effect (self : Generator) (isCXXMethod : bool) (child : Expr) :
  effect (fun s => InsertArgExpr self child
                     (if negb isCXXMethod then emit (Append ", ") s else s))
  = and_then (if isCXXMethod then nothing else writes [Append ", "]) (of_expr self child).
Proof.
  destruct isCXXMethod; cbn [negb].
  - rewrite and_then_nothing_l. reflexivity.
  - rewrite (effect_seq (emit (Append ", ")) (InsertArgExpr self child))
      by framed_auto.
    reflexivity.
Qed.

Lemma arguments_effect (self : Generator) (stmt : CXXOperatorCallExpr) :
  effect (ForEachArg (fun child s =>
                        InsertArgExpr self child
                          (if negb (is_member_operator stmt)
                           then emit (Append ", ") s else s))
                     (otherArgs stmt) false)
  = arguments self stmt.
Proof.
  rewrite effect_ForEachArg
    by (apply Forall_forall; intros a _; apply argument_framed).
  unfold arguments. f_equal. apply map_ext. intros child. apply argument_effect.
Qed.

(** X19.  Any other call of an overloaded operator is written as a call
    of the operator function: for a member the first argument, in
    parentheses if it is a dereference, then [.operator] with the spelling
    of the operator and the remaining arguments in parentheses, separated
    by commas; for an operator that is no member the name of the callee
    and in parentheses the first argument and, each behind a comma, the
    remaining ones. *)
Theorem InsertArg_operator_call (self : Generator) (stmt : CXXOperatorCallExpr)
    (callee : DeclRef) (s : State) :
  in_one_piece stmt = false ->
  dropped stmt = false ->
  as_DeclRefExpr (IgnoreImpCasts (getCallee stmt)) = Some callee ->
  option_map mOutputFormatHelper (OperatorCall.InsertArg self stmt s) =
    Some (mOutputFormatHelper s
          ++ (if is_member_operator stmt then []
              else [Append (refGetName callee +:+ "(")])
          ++ operand self (getArg0 stmt)
          ++ (if is_member_operator stmt
              then [Append (".operator" +:+ getOperatorSpelling stmt +:+ "(")]
              else [])
          ++ (arguments self stmt).1
          ++ [Append ")"]).
Proof.
  intros Hs Hd Hc. unfold OperatorCall.InsertArg. cbv zeta.
  rewrite (shortcut_none stmt _ Hs).
  assert (Hskip : match as_DeclRefExpr (IgnoreImplicit (getCallee stmt)) with
                  | Some _ => match calleeDecl stmt with OtherDecl => true | _ => false end
                  | None => false
                  end = false).
  { unfold dropped in Hd.
    destruct (as_DeclRefExpr (IgnoreImplicit (getCallee stmt))), (calleeDecl stmt);
      try reflexivity; discriminate. }
  rewrite Hskip.
  assert (Hm : match as_DeclRefExpr (IgnoreImpCasts (getCallee stmt)) with
               | Some _ => match calleeDecl stmt with CXXMethodDecl => true | _ => false end
               | None => false
               end = is_member_operator stmt).
  { unfold is_member_operator.
    destruct (as_DeclRefExpr (IgnoreImpCasts (getCallee stmt))), (calleeDecl stmt);
      reflexivity. }
  rewrite Hm, Hc. clear Hm Hskip.
  pose proof (arguments_effect self stmt) as Hargs.
  assert (Hf : framed (ForEachArg (fun child s =>
                        InsertArgExpr self child
                          (if negb (is_member_operator stmt)
                           then emit (Append ", ") s else s))
                     (otherArgs stmt) false)).
  { apply framed_ForEachArg, Forall_forall. intros a _. apply argument_framed. }
  pose proof (InsertArgWithParensIfNeeded_emitted self (getArg0 stmt)) as Hop.
  pose proof (InsertArgWithParensIfNeeded_framed self (getArg0 stmt)) as Hopf.
  apply (f_equal fst) in Hargs, Hop. cbn [fst effect] in Hargs, Hop.
  rename Hargs into Ha, Hop into Ho.
  destruct (is_member_operator stmt); cbn [negb option_map];
    destruct (isa_DeclRefExpr (getArg0 stmt));
    rewrite (framed_eq _ Hf), (framed_eq _ Hopf), Ha, Ho;
    cbn [emit mOutputFormatHelper mLambdaStack diagnostics fst];
    rewrite <- ?app_assoc; reflexivity.
Qed.

(** [a + b] for a member [operator+]. *)
Lemma InsertArg_operator_in_one_piece_witness :
  let ref (n : string) := DeclRefExpr (mkDeclRef n n true) in
  let stmt := mkOperatorCall (ImplicitCastExpr (ref "operator+")) CXXMethodDecl "+"
                             (ref "a") [ImplicitCastExpr (ref "b")] in
  (otherArgs stmt = [ImplicitCastExpr (ref "b")] /\
   as_DeclRefExpr (IgnoreImpCasts (getCallee stmt)) = Some (mkDeclRef "operator+" "operator+" true) /\
   as_DeclRefExpr (IgnoreImpCasts (getArg0 stmt)) = Some (mkDeclRef "a" "a" true) /\
   as_DeclRefExpr (IgnoreImpCasts (ImplicitCastExpr (ref "b"))) = Some (mkDeclRef "b" "b" true)) /\
  OperatorCall.InsertArg CodeGenerator stmt initial =
    Some (mkState [Append "a.operator+(b)"] [] []).
Proof.
  cbv zeta. split; [repeat split|].
  exact (InsertArg_operator_in_one_piece CodeGenerator
           (mkOperatorCall (ImplicitCastExpr (DeclRefExpr (mkDeclRef "operator+" "operator+" true)))
                           CXXMethodDecl "+" (DeclRefExpr (mkDeclRef "a" "a" true))
                           [ImplicitCastExpr (DeclRefExpr (mkDeclRef "b" "b" true))])
           _ _ _ _ initial eq_refl eq_refl eq_refl eq_refl).
Defined.

(** The callee behind a temporary, referring to a variable. *)
Lemma InsertArg_operator_dropped_witness :
  let ref (n : string) := DeclRefExpr (mkDeclRef n n true) in
  let stmt := mkOperatorCall (MaterializeTemporaryExpr (ref "f")) OtherDecl "()"
                             (ref "a") [] in
  (in_one_piece stmt = false /\ dropped stmt = true) /\
  OperatorCall.InsertArg CodeGenerator stmt initial = Some initial.
Proof.
  cbv zeta. split; [split; reflexivity|].
  apply InsertArg_operator_dropped; reflexivity.
Defined.

(** [( *p )(1, 2)] for a member [operator()], and [std::cout << 1] for a
    free [operator<<]. *)
Lemma InsertArg_operator_call_witness :
  let ref (n : string) := DeclRefExpr (mkDeclRef n n true) in
  let int (n : Z) := IntegerLiteral n (Some BuiltinType.Int) in
  let call := mkOperatorCall (ImplicitCastExpr (ref "operator()")) CXXMethodDecl "()"
                             (UnaryOperator "*" false (ref "p")) [int 1%Z; int 2%Z] in
  let shift := mkOperatorCall (ImplicitCastExpr (ref "operator<<")) FunctionDecl "<<"
                              (ref "std::cout") [int 1%Z] in
  ((in_one_piece call = false /\ dropped call = false /\
    as_DeclRefExpr (IgnoreImpCasts (getCallee call))
    = Some (mkDeclRef "operator()" "operator()" true)) /\
   option_map mOutputFormatHelper (OperatorCall.InsertArg CodeGenerator call initial) =
     Some [ Append "("; Append "*"; Append "p"; Append ")"; Append ".operator()(";
            Append "1"; Append ""; Append ", "; Append "2"; Append ""; Append ")" ]) /\
  ((in_one_piece shift = false /\ dropped shift = false /\
    as_DeclRefExpr (IgnoreImpCasts (getCallee shift))
    = Some (mkDeclRef "operator<<" "operator<<" true)) /\
   option_map mOutputFormatHelper (OperatorCall.InsertArg CodeGenerator shift initial) =
     Some [ Append "operator<<("; Append "std::cout"; Append ", "; Append "1"; Append "";
            Append ")" ]).
Proof.
  cbv zeta. split; (split; [repeat split|]).
  - exact (InsertArg_operator_call CodeGenerator
             (mkOperatorCall (ImplicitCastExpr (DeclRefExpr (mkDeclRef "operator()" "operator()" true)))
                             CXXMethodDecl "()"
                             (UnaryOperator "*" false (DeclRefExpr (mkDeclRef "p" "p" true)))
                             [IntegerLiteral 1%Z (Some BuiltinType.Int);
                              IntegerLiteral 2%Z (Some BuiltinType.Int)])
             _ initial eq_refl eq_refl eq_refl).
  - exact (InsertArg_operator_call CodeGenerator
             (mkOperatorCall (ImplicitCastExpr (DeclRefExpr (mkDeclRef "operator<<" "operator<<" true)))
                             FunctionDecl "<<"
                             (DeclRefExpr (mkDeclRef "std::cout" "std::cout" true))
                             [IntegerLiteral 1%Z (Some BuiltinType.Int)])
             _ initial eq_refl eq_refl eq_refl).
Defined.

End OperatorCallSpec.


(** ** Character literals that are written                                *)

Module CharacterSpec.

Import CharLit.
Local Open Scope Z_scope.

(** X20.  A character literal whose value is a printable ASCII
    character other than the single quote and the backslash is written as
    that character between single quotes, behind the prefix of its kind:
    the character written is the one whose code is the value. *)
Theorem HandleCharacterLiteral_printable (kind : CharacterKind) (value : Z)
    (out : OutputFormatHelper) :
  32 <= value <= 126 -> value <> 39 -> value <> 92 ->
  HandleCharacterLiteral (mkCharLit kind value) out =
    prefix kind out
    ++ [Append ("'" +:+ String (Ascii.ascii_of_N (Z.to_N value)) EmptyString +:+ "'")]
  /\ Z.of_N (Ascii.N_of_ascii (Ascii.ascii_of_N (Z.to_N value))) = value.
Proof.
  intros Hr H39 H92. split.
  - unfold HandleCharacterLiteral. cbn [getKind getValue].
    assert (Hesc : escape value = None).
    { unfold escape.
      repeat match goal with
             | |- context [?a =? ?b] => destruct (Z.eqb_spec a b); [lia|]
             end.
      reflexivity. }
    rewrite Hesc.
    assert (Hmask : masked kind value = value).
    { unfold masked.
      assert ((Z.land value not_0xFF =? not_0xFF) = false) as ->; [|reflexivity].
      apply Z.eqb_neq. intros Heq.
      pose proof (Z.log2_land value not_0xFF ltac:(lia) ltac:(unfold not_0xFF; lia)) as Hlog.
      rewrite Heq in Hlog.
      pose proof (Z.log2_le_mono value 126 ltac:(lia)) as Hmono.
      change (Z.log2 not_0xFF) with 31 in Hlog. change (Z.log2 126) with 6 in Hmono.
      lia. }
    rewrite Hmask. unfold isPrintable, char_string.
    rewrite (Z.mod_small value 256) by lia.
    assert (((value <? 256) && ((32 <=? value) && (value <=? 126))) = true) as ->.
    { rewrite !andb_true_iff, Z.ltb_lt, !Z.leb_le. lia. }
    reflexivity.
  - rewrite Ascii.N_ascii_embedding; [apply Z2N.id; lia|].
    apply N2Z.inj_lt. rewrite Z2N.id by lia. simpl. lia.
Qed.

(** [L'A']. *)
Lemma HandleCharacterLiteral_printable_witness :
  (32 <= 65 <= 126 /\ 65 <> 39 /\ 65 <> 92) /\
  HandleCharacterLiteral (mkCharLit Wide 65) [] = [Append "L"; Append "'A'"].
Proof.
  assert (H1 : 32 <= 65 <= 126) by lia.
  assert (H2 : 65 <> 39) by lia.
  assert (H3 : 65 <> 92) by lia.
  split; [exact (conj H1 (conj H2 H3))|].
  exact (proj1 (HandleCharacterLiteral_printable Wide 65 [] H1 H2 H3)).
Defined.

End CharacterSpec.


(** ** Using declarations                                                 *)

Module UsingSpec.

Import Gen Using UsingTerms.

Lemma emit_all (text : list string) (s : State) :
  fold_left (fun s t => emit (Append t) s) text s =
    mkState (mOutputFormatHelper s ++ map Append text) (mLambdaStack s) (diagnostics s).
Proof.
  revert s. induction text as [|t rest IH]; intros s; cbn [fold_left map].
  - rewrite app_nil_r. destruct s; reflexivity.
  - rewrite IH. cbn. rewrite <- app_assoc. reflexivity.
Qed.

Lemma context_body_shows (s : State) (DC : DeclContext) :
  context_body s DC =
    mkState (mOutputFormatHelper s
             ++ map Append (if shows DC then qualifier DC ++ ["::"] else []))
            (mLambdaStack s) (diagnostics s).
Proof.
  destruct DC as [|name args|name anon inl|name ident|proto|name scoped|name];
    cbn [context_body shows qualifier];
    rewrite ?emit_all;
    try destruct (anon || inl); try destruct ident; try destruct scoped;
    cbn [negb]; unfold emit;
    cbn [mOutputFormatHelper mLambdaStack diagnostics];
    rewrite ?map_app; cbn [map];
    rewrite <- ?app_assoc, ?app_nil_r; cbn [app];
    try reflexivity; destruct s; reflexivity.
Qed.

Lemma context_loop (Contexts : list DeclContext) (s : State) :
  fold_left context_body (rev (filter (fun c => isa_NamedDecl c = true) Contexts)) s =
    mkState (mOutputFormatHelper s ++ map Append (qualification Contexts))
            (mLambdaStack s) (diagnostics s).
Proof.
  unfold qualification.
  revert s. induction Contexts as [|DC rest IH]; intros s.
  - cbn. rewrite app_nil_r. destruct s; reflexivity.
  - rewrite !filter_cons.
    assert (Hsub : shows DC = true -> isa_NamedDecl DC = true).
    { destruct DC; try reflexivity. discriminate. }
    destruct (decide (isa_NamedDecl DC = true)) as [Hn|Hn].
    + cbn [rev]. rewrite fold_left_app, IH. cbn [fold_left].
      rewrite context_body_shows. cbn [mOutputFormatHelper mLambdaStack diagnostics].
      destruct (decide (shows DC = true)) as [Hs|Hs].
      * rewrite Hs. cbn [rev]. rewrite flat_map_app. cbn [flat_map].
        rewrite app_nil_r, !map_app, <- !app_assoc. reflexivity.
      * apply not_true_is_false in Hs. rewrite Hs. cbn [map]. rewrite app_nil_r.
        reflexivity.
    + destruct (decide (shows DC = true)) as [Hs|Hs]; [elim Hn; auto|].
      apply IH.
Qed.

(** The layout of a using declaration. *)
Lemma Using_layout (stmt : UsingDecl) (s : State) :
  Using.InsertArg stmt s =
    mkState
      (mOutputFormatHelper s
       ++ [Append "using "] ++ map Append (using_name stmt) ++ [AppendNewLine ";"])
      (mLambdaStack s) (diagnostics s).
Proof.
  unfold Using.InsertArg, using_name. cbv zeta.
  destruct (getDeclContext stmt) as [[Ctx parents]|];
    [destruct (isFunctionOrMethod Ctx); cbn [negb orb];
     rewrite ?context_loop; destruct (getDeclName stmt)|];
    unfold emit; cbn [mOutputFormatHelper mLambdaStack diagnostics];
    rewrite ?map_app; cbn [map];
    rewrite <- ?app_assoc, ?app_nil_r; cbn [app]; rewrite <- ?app_assoc; reflexivity.
Qed.

(** X21.  A using declaration is written as [using], the contexts it is
    declared in from the outermost to the innermost, each followed by
    [::], its name, and the terminator.  Contexts that are unnamed,
    anonymous or inline namespaces and unscoped enumerations leave no
    trace; a record without identifier leaves the bare [::].  Declared in
    a function, it is written with its name alone; without a declaration
    context, without even the name. *)
Theorem InsertArg_UsingDecl (stmt : UsingDecl) (s : State) :
  Using.InsertArg stmt s =
    mkState
      (mOutputFormatHelper s
       ++ [Append "using "]
       ++ map Append
            match getDeclContext stmt with
            | Some (Ctx, parents) =>
                (if isFunctionOrMethod Ctx then []
                 else flat_map (fun DC => qualifier DC ++ ["::"])
                               (rev (filter (fun c => shows c = true) (Ctx :: parents))))
                ++ (if isFunctionOrMethod Ctx || getDeclName stmt
                    then [Using.getNameAsString stmt] else [])
            | None => []
            end
       ++ [AppendNewLine ";"])
      (mLambdaStack s) (diagnostics s).
Proof. apply Using_layout. Qed.

End UsingSpec.


(** ** Classes and their members                                          *)

Module RecordSpec.

Import Gen GenFacts ScopeTerms ScopeSpec Records RecordTerms.

(** The loop over [decls()] lowers the members that are written, in
    order. *)
Lemma decls_loop (self : Generator) (decls : list Member) :
  forall (firstRecordDecl : bool) (s : State),
    (fix loop (ds : list Member) (firstRecordDecl : bool) (s : State) : State :=
       match ds with
       | [] => s
       | d :: rest =>
           if isa_CXXRecordDecl d && firstRecordDecl
           then loop rest false s
           else loop rest firstRecordDecl (Records.InsertArg self d s)
       end) decls firstRecordDecl s
    = fold_left (fun s d => Records.InsertArg self d s)
                (written_members firstRecordDecl decls) s.
Proof.
  induction decls as [|d rest IH]; intros fl s; [reflexivity|].
  cbn [written_members]. destruct (isa_CXXRecordDecl d && fl); [apply IH|].
  cbn [fold_left]. apply IH.
Qed.

Lemma written_members_incl (decls : list Member) (P : Member -> Prop) :
  Forall P decls -> forall fl, Forall P (written_members fl decls).
Proof.
  induction 1 as [|d rest Hd Hrest IH]; intros fl; cbn [written_members]; [constructor|].
  destruct (isa_CXXRecordDecl d && fl); [apply IH|]. constructor; [exact Hd | apply IH].
Qed.

Lemma bases_framed (bases : list CXXBaseSpecifier) (needsComma : bool) :
  framed (ForEachArg
            (fun base =>
               emit (Append (AccessToString (getAccessSpecifier base) +:+ " "
                             +:+ baseTypeName base)))
            bases needsComma).
Proof. apply framed_ForEachArg, Forall_forall. intros b _. apply framed_emit. Qed.

Lemma UsingDecl_framed (u : Using.UsingDecl) : framed (Using.InsertArg u).
Proof.
  eexists _, []. intros s. rewrite UsingSpec.Using_layout. f_equal.
  symmetry. apply app_nil_r.
Qed.

Lemma Member_framed (stmt : Member) :
  forall self : Generator, framed (Records.InsertArg self stmt).
Proof.
  induction stmt as
    [ d | typeName name | access | name ty | failed e msg | u
    | hasDef isClass name bases decls IHdecls ];
    intros self; cbn [Records.InsertArg]; cbv zeta.
  - apply InsertArgDecl_framed.
  - framed_basic.
  - framed_auto.
  - framed_basic.
  - destruct (negb failed), msg; framed_auto.
  - apply UsingDecl_framed.
  - destruct (negb hasDef); [apply framed_id|].
    apply (framed_ext _ (fun s =>
             emit (AppendNewLine "") (emit (AppendNewLine "") (emit CloseScopeWithSemi
               (fold_left (fun s d => Records.InsertArg self d s) (written_members true decls)
                  (emit OpenScope (emit (AppendNewLine "")
                     (match bases with
                      | [] => fun s => s
                      | _ => fun s =>
                          ForEachArg
                            (fun base =>
                               emit (Append (AccessToString (getAccessSpecifier base) +:+ " "
                                             +:+ baseTypeName base)))
                            bases false (emit (Append " : ") s)
                      end (emit (Append name)
                             (if isClass then emit (Append Lambda.kwClassSpace) s
                              else emit (Append "struct ") s)))))))))).
    { intros s. rewrite decls_loop. destruct bases; reflexivity. }
    assert (Hloop : framed (fun s => fold_left (fun s d => Records.InsertArg self d s)
                                       (written_members true decls) s)).
    { apply (framed_fold_left (fun s d => Records.InsertArg self d s)).
      apply written_members_incl. apply list_all_Forall in IHdecls.
      eapply Forall_impl; [exact IHdecls|]. intros d H. apply H. }
    assert (Hbases : framed (match bases with
                      | [] => fun s => s
                      | _ => fun s =>
                          ForEachArg
                            (fun base =>
                               emit (Append (AccessToString (getAccessSpecifier base) +:+ " "
                                             +:+ baseTypeName base)))
                            bases false (emit (Append " : ") s)
                      end)).
    { destruct bases; [apply framed_id|].
      framed_split; [framed_basic | apply bases_framed]. }
    destruct isClass;
      repeat first [ exact Hloop | exact Hbases | framed_basic | framed_split ].
Qed.


Lemma moves_CloseScopeWithSemi (a : nat) : moves (emit CloseScopeWithSemi) (S a) a.
Proof.
  intros s d H. cbn. rewrite nesting_app, H.
  replace (d + S a) with (S (d + a)) by lia. reflexivity.
Qed.

Lemma moves_framed_flat (f : State -> State) (a : nat) :
  framed f ->
  (forall d, nesting (emitted f) d = Some d) ->
  moves f a a.
Proof.
  intros Hf Hflat s d H. rewrite (framed_eq f Hf). cbn [mOutputFormatHelper].
  rewrite nesting_app, H. apply Hflat.
Qed.

Lemma moves_bases (bases : list CXXBaseSpecifier) (needsComma : bool) (a : nat) :
  moves (ForEachArg
           (fun base =>
              emit (Append (AccessToString (getAccessSpecifier base) +:+ " "
                            +:+ baseTypeName base)))
           bases needsComma) a a.
Proof.
  revert needsComma. induction bases as [|b rest IH]; intros nc; [apply moves_id|].
  cbn [ForEachArg].
  apply (moves_seq (fun s => emit _ (if nc then emit (Append ", ") s else s)) _ a a a);
    [|apply IH].
  destruct nc; moves_auto.
Qed.

Lemma nesting_Appends (text : list string) (d : nat) :
  nesting (map Append text) d = Some d.
Proof. induction text; [reflexivity | assumption]. Qed.

Lemma moves_UsingDecl (u : Using.UsingDecl) (a : nat) : moves (Using.InsertArg u) a a.
Proof.
  apply moves_framed_flat; [apply UsingDecl_framed|].
  unfold emitted. rewrite UsingSpec.Using_layout. cbn [mOutputFormatHelper initial app].
  intros d. cbn [nesting]. rewrite nesting_app, nesting_Appends. reflexivity.
Qed.

Ltac member_moves :=
  repeat (moves_eta;
          lazymatch goal with
          | |- moves (emit CloseScopeWithSemi) _ _ => apply moves_CloseScopeWithSemi
          | |- moves (InsertArgDecl _ _) _ _ => apply moves_InsertArgDecl
          | |- moves (Using.InsertArg _) _ _ => apply moves_UsingDecl
          | |- moves (ForEachArg _ _ _) _ _ => apply moves_bases
          | _ => moves_step
          end).

Lemma moves_Member (stmt : Member) :
  forall (self : Generator) (a : nat), moves (Records.InsertArg self stmt) a a.
Proof.
  induction stmt as
    [ d | typeName name | access | name ty | failed e msg | u
    | hasDef isClass name bases decls IHdecls ];
    intros self a; cbn [Records.InsertArg]; cbv zeta.
  - member_moves.
  - member_moves.
  - member_moves.
  - member_moves.
  - destruct (negb failed), msg; member_moves.
  - member_moves.
  - destruct (negb hasDef); [apply moves_id|].
    eapply moves_ext; [intros s; rewrite decls_loop; reflexivity|].
    assert (Hloop : forall a, moves (fun s => fold_left (fun s d => Records.InsertArg self d s)
                                                 (written_members true decls) s) a a).
    { intros a'. apply (moves_fold_left (fun s d => Records.InsertArg self d s)).
      apply written_members_incl. apply list_all_Forall in IHdecls.
      eapply Forall_impl; [exact IHdecls|]. intros d H. apply H. }
    destruct isClass, bases;
      repeat (moves_eta;
              lazymatch goal with
              | |- moves (fold_left _ _) _ _ => apply Hloop
              | |- moves (fun s => fold_left _ _ s) _ _ => apply Hloop
              | |- moves (emit CloseScopeWithSemi) _ _ => apply moves_CloseScopeWithSemi
              | |- moves (ForEachArg _ _ _) _ _ => apply moves_bases
              | _ => moves_step
              end).
Qed.

(** X22.  A member of a class, a class with its members included, closes
    the scopes it opens and no other; the scope of a class is closed by
    the brace with the semicolon. *)
Theorem Member_keeps_nesting (self : Generator) (stmt : Member) (s : State) (d : nat) :
  nesting (mOutputFormatHelper s) 0 = Some d ->
  nesting (mOutputFormatHelper (Records.InsertArg self stmt s)) 0 = Some d.
Proof.
  intros H. pose proof (moves_Member stmt self 0 s d) as Hm.
  rewrite !Nat.add_0_r in Hm. apply Hm, H.
Qed.

(** X23.  A class without a definition is not written at all.  One with
    a definition is written as its head ([class] or [struct], the name,
    and behind [" : "] the base classes with their access), and in a scope
    that ends in [};] its members in declaration order, without the first
    record among them and with every later one. *)
Theorem InsertArg_CXXRecordDecl (self : Generator) (hasDefinition isClass : bool)
    (name : string) (bases : list CXXBaseSpecifier) (decls : list Member) (s : State) :
  mOutputFormatHelper
    (Records.InsertArg self (CXXRecordDecl hasDefinition isClass name bases decls) s)
  = mOutputFormatHelper s
    ++ (if hasDefinition
        then class_head isClass name bases
             ++ [AppendNewLine ""; OpenScope]
             ++ flat_map (fun d => emitted (Records.InsertArg self d))
                         (written_members true decls)
             ++ [CloseScopeWithSemi; AppendNewLine ""; AppendNewLine ""]
        else []).
Proof.
  cbn [Records.InsertArg]. cbv zeta.
  destruct hasDefinition; cbn [negb]; [|symmetry; apply app_nil_r].
  rewrite decls_loop.
  assert (Hloop : forall (l : list Member) (s : State),
             mOutputFormatHelper (fold_left (fun s d => Records.InsertArg self d s) l s)
             = mOutputFormatHelper s
               ++ flat_map (fun d => emitted (Records.InsertArg self d)) l).
  { induction l as [|d rest IH]; intros s'; cbn [fold_left flat_map].
    - symmetry. apply app_nil_r.
    - rewrite IH, (framed_eq _ (Member_framed d self)). cbn [mOutputFormatHelper].
      rewrite <- app_assoc. reflexivity. }
  unfold class_head.
  destruct isClass, bases as [|b rest];
    cbn [emit mOutputFormatHelper mLambdaStack diagnostics];
    rewrite Hloop;
    rewrite ?(framed_eq _ (bases_framed _ false));
    cbn [emit mOutputFormatHelper mLambdaStack diagnostics];
    rewrite <- ?app_assoc; reflexivity.
Qed.

(** A struct with the record of its own name in first place, a field, an
    access specifier and a nested struct. *)
Lemma Member_keeps_nesting_witness :
  let inner := CXXRecordDecl true false "Inner" [] [FieldDecl "int" "y"] in
  let stmt := CXXRecordDecl true false "S" [mkBase AS_public "Base"]
                [CXXRecordDecl true false "S" [] []; FieldDecl "int" "x";
                 AccessSpecDecl AS_private; inner] in
  nesting (mOutputFormatHelper initial) 0 = Some 0 /\
  nesting (mOutputFormatHelper (Records.InsertArg CodeGenerator stmt initial)) 0 = Some 0.
Proof.
  cbv zeta. split; [reflexivity|].
  apply Member_keeps_nesting. reflexivity.
Defined.

End RecordSpec.

